(** * Image preparation and atomic copy of the hibernation core

    A shallow embedding of the routines of [kernel/power/prepare_image.c],
    [kernel/power/pagedir.c], [kernel/power/atomic_copy.c] and of the swap
    signature handling of [kernel/power/tuxonice_swap.c], together with the
    properties the design document states about them.

    Conventions.  A C [int] is a [Z] reduced by [wrap]; [/] on [int] is
    [Z.quot] (truncation towards zero).  The flag words ([suspend_result],
    [suspend_action], [toi_state]) are [Z]s handled with [Z.testbit] and
    [Z.setbit].  A page-flag bitmap is a function from page frame numbers
    to [bool].  Memory is addressed by page frame number and word index, or
    by byte offset from a pointer. *)

From Stdlib Require Import ZArith Bool Lia String Ascii List Permutation.
Import ListNotations.
Local Open Scope Z_scope.

(** ** C integers and flag words *)

Module CInt.

Definition int_min : Z := - 2 ^ 31.
Definition int_max : Z := 2 ^ 31 - 1.

(** Two's complement reduction of a mathematical integer to a 32-bit [int]. *)
Definition wrap (x : Z) : Z := (x + 2 ^ 31) mod 2 ^ 32 - 2 ^ 31.

Definition in_int (x : Z) : Prop := int_min <= x <= int_max.

Definition add (a b : Z) : Z := wrap (a + b).
Definition sub (a b : Z) : Z := wrap (a - b).
Definition mul (a b : Z) : Z := wrap (a * b).
Definition div (a b : Z) : Z := wrap (Z.quot a b).
Definition shl (a n : Z) : Z := wrap (Z.shiftl a n).

(** [max], [max_t(int, a, b)] and [min] of [linux/kernel.h]. *)
Definition max (a b : Z) : Z := if a >? b then a else b.
Definition min (a b : Z) : Z := if a <? b then a else b.

(** [DIV_ROUND_UP(n, d)] is [((n) + (d) - 1) / (d)]. *)
Definition DIV_ROUND_UP (n d : Z) : Z := div (sub (add n d) 1) d.

Lemma wrap_id x : in_int x -> wrap x = x.
Proof.
  unfold in_int, int_min, int_max, wrap. intros H.
  rewrite Z.mod_small; lia.
Qed.

Lemma wrap_in_int x : in_int (wrap x).
Proof.
  unfold in_int, int_min, int_max, wrap.
  pose proof (Z.mod_pos_bound (x + 2 ^ 31) (2 ^ 32) ltac:(lia)). lia.
Qed.

Lemma wrap_add_l a b : wrap (wrap a + b) = wrap (a + b).
Proof.
  unfold wrap. f_equal.
  replace ((a + 2 ^ 31) mod 2 ^ 32 - 2 ^ 31 + b + 2 ^ 31)
    with ((a + 2 ^ 31) mod 2 ^ 32 + b) by lia.
  rewrite Zplus_mod_idemp_l. f_equal. lia.
Qed.

Lemma max_spec a b : max a b = Z.max a b.
Proof. unfold max. destruct (Z.gtb_spec a b); lia. Qed.

Lemma min_spec a b : min a b = Z.min a b.
Proof. unfold min. destruct (Z.ltb_spec a b); lia. Qed.

End CInt.

(** C [unsigned long] arithmetic, on a machine whose [long] has [bits]
    bits: every result is reduced modulo 2^bits. *)
Module CULong.

(** The conversion of an integer to [unsigned long]. *)
Definition wrap (bits x : Z) : Z := x mod 2 ^ bits.

(** [DIV_ROUND_UP(n, d)] is [((n) + (d) - 1) / (d)], here with an
    [unsigned long] among its operands, so that the others are converted
    and the sum, the difference and the quotient are unsigned. *)
Definition DIV_ROUND_UP (bits n d : Z) : Z :=
  wrap bits (wrap bits (wrap bits n + wrap bits d) - 1) / wrap bits d.

Lemma wrap_small bits x : 0 <= x < 2 ^ bits -> wrap bits x = x.
Proof. intros H. unfold wrap. now apply Z.mod_small. Qed.

(** Where nothing overflows, the quotient is the mathematical one. *)
Lemma DIV_ROUND_UP_small bits n d :
  0 <= n -> 0 < d -> n + d < 2 ^ bits -> DIV_ROUND_UP bits n d = (n + d - 1) / d.
Proof.
  intros Hn Hd Hsum. unfold DIV_ROUND_UP.
  rewrite (wrap_small bits n), (wrap_small bits d) by lia.
  rewrite (wrap_small bits (n + d)) by lia.
  now rewrite (wrap_small bits (n + d - 1)) by lia.
Qed.

End CULong.

(** The bit operations behind [test_bit], [set_bit] and [clear_bit]. *)
Module Flags.

Definition test_bit (bit word : Z) : bool := Z.testbit word bit.
Definition set_bit (bit word : Z) : Z := Z.setbit word bit.
Definition clear_bit (bit word : Z) : Z := Z.clearbit word bit.

Lemma test_set_same bit word : 0 <= bit -> test_bit bit (set_bit bit word) = true.
Proof. intros H. unfold test_bit, set_bit. apply Z.setbit_eq. exact H. Qed.

Lemma test_set_other bit b word :
  0 <= bit -> bit <> b -> test_bit b (set_bit bit word) = test_bit b word.
Proof. intros Hb Hne. unfold test_bit, set_bit. now apply Z.setbit_neq. Qed.

Lemma test_set_mono bit b word :
  0 <= bit -> 0 <= b -> test_bit b word = true -> test_bit b (set_bit bit word) = true.
Proof.
  intros Hbit Hb H. destruct (Z.eq_dec bit b) as [->|Hne].
  - now apply test_set_same.
  - now rewrite test_set_other.
Qed.

Lemma test_clear_same bit word : test_bit bit (clear_bit bit word) = false.
Proof.
  unfold test_bit, clear_bit. destruct (Z.neg_nonneg_cases bit).
  - now apply Z.testbit_neg_r.
  - now apply Z.clearbit_eq.
Qed.

End Flags.

(** ** The swap signature ([tuxonice_swap.c]) *)

Module Signature.

(** Memory seen from the [char *header] pointer: byte offset to byte value.
    The ten bytes of [swh.magic.magic] are offsets 0 to 9. *)
Definition memory := Z -> Z.

Definition store8 (m : memory) (a v : Z) : memory :=
  fun x => if x =? a then v mod 256 else m x.

(** Little-endian store and load of an [n]-byte unsigned integer. *)
Fixpoint store_le (n : nat) (m : memory) (a v : Z) : memory :=
  match n with
  | O => m
  | S k => store_le k (store8 m a v) (a + 1) (v / 256)
  end.

Fixpoint load_le (n : nat) (m : memory) (a : Z) : Z :=
  match n with
  | O => 0
  | S k => m a + 256 * load_le k m (a + 1)
  end.

Definition bytes_of (s : string) : list Z :=
  map (fun c => Z.of_N (N_of_ascii c)) (list_ascii_of_string s).

(** [!memcmp(s, header + a, n)] for a literal [s] of at least [n] characters. *)
Fixpoint memcmp_eq (s : list Z) (m : memory) (a : Z) (n : nat) : bool :=
  match n, s with
  | O, _ => true
  | S k, c :: s' => (c =? m a) && memcmp_eq s' m (a + 1) k
  | S _, [] => false
  end.

Fixpoint memcpy (m : memory) (a : Z) (s : list Z) : memory :=
  match s with
  | [] => m
  | c :: s' => memcpy (store8 m a c) (a + 1) s'
  end.

(** Modelled from the spec: [ffs] of the kernel's bit operations, absent from
    the sources: the position, counted from 1, of the least significant set
    bit of a 32-bit word, and 0 for the word 0. *)
Fixpoint ffs_from (fuel : nat) (pos : Z) (x : Z) : Z :=
  match fuel with
  | O => 0
  | S f => if Z.testbit x (pos - 1) then pos else ffs_from f (pos + 1) x
  end.

Definition ffs (x : Z) : Z := ffs_from 32 1 x.

Record swap_state := mk_swap_state {
  header_dev_t : Z;
  headerblock : Z;
  toi_state : Z
}.

Section WithTarget.

(** [BITS_PER_LONG] of the target, and the number of the state bit
    [TOI_RESUMED_BEFORE], whose enumeration is not part of the sources. *)
Variable BITS_PER_LONG : Z.
Variable TOI_RESUMED_BEFORE : Z.

Definition sizeof_long : nat := Z.to_nat (BITS_PER_LONG / 8).

Definition signature_type (header : memory) : Z :=
  if memcmp_eq (bytes_of "S1SUSP") header 0 6 then 2
  else if memcmp_eq (bytes_of "S2SUSP") header 0 6 then 3
  else if memcmp_eq (bytes_of "S1SUSPEND") header 0 9 then 4
  else if memcmp_eq (bytes_of "z") header 0 1 then 12
  else if memcmp_eq (bytes_of "Z") header 0 1 then 13
  else -1.

Definition parse_signature (header : memory) (restore : bool) (st : swap_state)
  : Z * memory * swap_state :=
  if memcmp_eq (bytes_of "SWAP-SPACE") header 0 10 then (0, header, st)
  else if memcmp_eq (bytes_of "SWAPSPACE2") header 0 10 then (1, header, st)
  else
    let type := signature_type header in
    let st1 :=
      if type >? 11 then
        let cleared := Flags.clear_bit TOI_RESUMED_BEFORE (toi_state st) in
        {| header_dev_t := load_le 4 header 1;
           headerblock := load_le 4 header 6;
           toi_state :=
             if Z.land (header 5) 128 =? 0 then cleared
             else Flags.set_bit TOI_RESUMED_BEFORE cleared |}
      else st in
    let header1 :=
      if restore && (type >? 5) then
        if Z.land type 1 =? 0 then memcpy header 0 (bytes_of "SWAP-SPACE")
        else memcpy header 0 (bytes_of "SWAPSPACE2")
      else header in
    (type, header1, st1).

Definition prepare_signature (bdev block : Z) (current_header : memory)
    (st : swap_state) : Z * memory * swap_state :=
  let '(current_type, _, st1) := parse_signature current_header false st in
  if (current_type >? 1) && (current_type <? 6) then (1, current_header, st1)
  else if (BITS_PER_LONG =? 64) && (ffs (block mod 2 ^ 32) >? 31)
  then (1, current_header, st1)
  else
    let h0 := store8 current_header 0
                (if Z.land current_type 1 =? 0 then 122 else 90) in
    let h1 := store_le 4 h0 1 bdev in
    let h2 := store_le sizeof_long h1 6 block in
    (0, h2, st1).

End WithTarget.

(** *** Stores and loads *)

Lemma store_le_other n : forall m a v x,
  x < a \/ a + Z.of_nat n <= x -> store_le n m a v x = m x.
Proof.
  induction n as [|n IH]; intros m a v x Hx; [reflexivity|].
  cbn [store_le]. rewrite IH by lia. unfold store8.
  destruct (Z.eqb_spec x a); [lia|reflexivity].
Qed.

Lemma load_le_ext n : forall m m' a,
  (forall x, a <= x < a + Z.of_nat n -> m x = m' x) ->
  load_le n m a = load_le n m' a.
Proof.
  induction n as [|n IH]; intros m m' a H; [reflexivity|].
  cbn [load_le]. rewrite (H a) by lia. f_equal. f_equal.
  apply IH. intros x Hx. apply H. lia.
Qed.

Lemma load_store_le n : forall k m a v,
  load_le n (store_le (n + k) m a v) a = v mod 256 ^ Z.of_nat n.
Proof.
  induction n as [|n IH]; intros k m a v.
  - cbn. now rewrite Z.mod_1_r.
  - cbn [load_le store_le Nat.add]. rewrite IH.
    rewrite store_le_other by lia. unfold store8. rewrite Z.eqb_refl.
    rewrite Nat2Z.inj_succ, Z.pow_succ_r by lia.
    rewrite (Z.rem_mul_r v 256 (256 ^ Z.of_nat n)); lia.
Qed.

Lemma memcpy_other (s : list Z) : forall m a x,
  x < a \/ a + Z.of_nat (List.length s) <= x -> memcpy m a s x = m x.
Proof.
  induction s as [|c s IH]; intros m a x Hx; [reflexivity|].
  cbn [memcpy]. cbn [List.length] in Hx. rewrite IH by lia. unfold store8.
  destruct (Z.eqb_spec x a); [lia|reflexivity].
Qed.

Lemma memcmp_eq_sound n : forall s m a,
  memcmp_eq s m a n = true ->
  forall i, (i < n)%nat -> m (a + Z.of_nat i) = nth i s 0.
Proof.
  induction n as [|n IH]; intros s m a H i Hi; [lia|].
  destruct s as [|c s]; [discriminate|]. cbn [memcmp_eq] in H.
  apply andb_true_iff in H as [Hc Hr]. apply Z.eqb_eq in Hc.
  destruct i as [|i].
  - cbn. now rewrite Z.add_0_r.
  - cbn [nth]. rewrite <- (IH s m (a + 1) Hr i) by lia. f_equal. lia.
Qed.

Lemma ffs_from_range fuel : forall pos x,
  ffs_from fuel pos x = 0 \/
  (pos <= ffs_from fuel pos x < pos + Z.of_nat fuel /\
   Z.testbit x (ffs_from fuel pos x - 1) = true).
Proof.
  induction fuel as [|f IH]; intros pos x; [now left|].
  cbn [ffs_from]. destruct (Z.testbit x (pos - 1)) eqn:E.
  - right. split; [lia|exact E].
  - destruct (IH (pos + 1) x) as [H|[H1 H2]]; [now left|right; split; [lia|exact H2]].
Qed.

Lemma ffs_small block : 0 <= block < 2 ^ 31 -> ffs (block mod 2 ^ 32) <= 31.
Proof.
  intros H. rewrite Z.mod_small by lia. unfold ffs.
  destruct (ffs_from_range 32 1 block) as [E|[Hr Hb]]; [lia|].
  destruct (Z.eq_dec (ffs_from 32 1 block) 32) as [E|]; [|lia].
  rewrite E in Hb. change (32 - 1) with 31 in Hb.
  destruct (Z.eq_dec block 0) as [->|]; [discriminate|].
  rewrite Z.bits_above_log2 in Hb; [discriminate|lia|].
  apply Z.log2_lt_pow2; lia.
Qed.

(** What a header holding an ordinary swap signature looks like. *)
Lemma ordinary_signature_bytes R header st t :
  fst (fst (parse_signature R header false st)) = t ->
  t = 0 \/ t = 1 ->
  memcmp_eq (if t =? 0 then bytes_of "SWAP-SPACE" else bytes_of "SWAPSPACE2")
            header 0 10 = true /\
  parse_signature R header false st = (t, header, st).
Proof.
  unfold parse_signature. intros Ht Hcase.
  destruct (memcmp_eq (bytes_of "SWAP-SPACE") header 0 10) eqn:E0.
  - cbn in Ht. subst t. now split.
  - destruct (memcmp_eq (bytes_of "SWAPSPACE2") header 0 10) eqn:E1.
    + cbn in Ht. subst t. now split.
    + cbn [fst] in Ht. exfalso. revert Ht. unfold signature_type.
      repeat match goal with |- context [if ?c then _ else _] => destruct c end;
        lia.
Qed.

(** The bytes that matter to [parse_signature] after [prepare_signature]. *)
Lemma prepared_header_bytes n header t bdev block :
  (4 <= n)%nat ->
  let h := store_le n (store_le 4 (store8 header 0 t) 1 bdev) 6 block in
  h 0 = t mod 256 /\ h 5 = header 5 /\
  load_le 4 h 1 = bdev mod 2 ^ 32 /\ load_le 4 h 6 = block mod 2 ^ 32.
Proof.
  intros Hn h. subst h. repeat split.
  - rewrite !store_le_other by lia. unfold store8. now rewrite Z.eqb_refl.
  - rewrite !store_le_other by lia. unfold store8.
    destruct (Z.eqb_spec 5 0); [lia|reflexivity].
  - rewrite (load_le_ext 4 _ (store_le (4 + 0) (store8 header 0 t) 1 bdev)).
    + apply load_store_le.
    + intros x Hx. apply store_le_other. lia.
  - replace n with (4 + (n - 4))%nat by lia. apply load_store_le.
Qed.

(** C10.  Round trip of the disk signature: on a header that parses as an
    ordinary swap signature (type 0 for SWAP-SPACE, type 1 for SWAPSPACE2),
    for every device number and every block below 2^31, [prepare_signature]
    returns 0; parsing the prepared header then returns type 12 or 13
    according to the original type, sets [header_dev_t] to the device and
    [headerblock] to the block and leaves the resumed-before state bit
    clear; parsing it with [restore] set gives the same and puts the
    original ten signature bytes back. *)
Theorem prepare_parse_signature_roundtrip :
  forall BITS_PER_LONG TOI_RESUMED_BEFORE header st bdev block t,
    BITS_PER_LONG = 32 \/ BITS_PER_LONG = 64 ->
    0 <= bdev < 2 ^ 32 ->
    0 <= block < 2 ^ 31 ->
    fst (fst (parse_signature TOI_RESUMED_BEFORE header false st)) = t ->
    t = 0 \/ t = 1 ->
    exists header1 st1,
      prepare_signature BITS_PER_LONG TOI_RESUMED_BEFORE bdev block header st
        = (0, header1, st1) /\
      (exists st2,
         parse_signature TOI_RESUMED_BEFORE header1 false st1
           = (12 + t, header1, st2) /\
         header_dev_t st2 = bdev /\ headerblock st2 = block /\
         Flags.test_bit TOI_RESUMED_BEFORE (toi_state st2) = false) /\
      (exists header3 st3,
         parse_signature TOI_RESUMED_BEFORE header1 true st1
           = (12 + t, header3, st3) /\
         header_dev_t st3 = bdev /\ headerblock st3 = block /\
         Flags.test_bit TOI_RESUMED_BEFORE (toi_state st3) = false /\
         forall i, 0 <= i < 10 -> header3 i = header i).
Proof.
  intros B R header st bdev block t HB Hdev Hblock Ht Hcase.
  destruct (ordinary_signature_bytes R header st t Ht Hcase) as [Hsig Hparse].
  clear Ht.
  pose proof (memcmp_eq_sound 10 _ header 0 Hsig) as Hbytes.
  pose proof (ffs_small block Hblock) as Hffs.
  assert (Hn : (4 <= sizeof_long B)%nat)
    by (unfold sizeof_long; destruct HB as [-> | ->]; cbn; lia).
  set (c := if Z.land t 1 =? 0 then 122 else 90).
  set (h := store_le (sizeof_long B) (store_le 4 (store8 header 0 c) 1 bdev) 6 block).
  destruct (prepared_header_bytes (sizeof_long B) header c bdev block Hn)
    as (H0 & H5 & Hd & Hb). fold h in H0, H5, Hd, Hb.
  rewrite Z.mod_small in Hd by lia. rewrite Z.mod_small in Hb by lia.
  assert (Hprep : prepare_signature B R bdev block header st = (0, h, st)).
  { unfold prepare_signature. rewrite Hparse.
    replace ((t >? 1) && (t <? 6)) with false by (destruct Hcase; subst t; reflexivity).
    replace (ffs (block mod 2 ^ 32) >? 31) with false by (symmetry; rewrite Z.gtb_ltb; apply Z.ltb_ge; lia).
    rewrite andb_false_r. reflexivity. }
  assert (H5' : (Z.land (h 5) 128 =? 0) = true).
  { rewrite H5. replace 5 with (0 + Z.of_nat 5) by reflexivity.
    rewrite Hbytes by lia. destruct Hcase; subst t; reflexivity. }
  assert (Hc : h 0 = c) by (rewrite H0; subst c; destruct Hcase; subst t; reflexivity).
  assert (Hparse1 : forall restore,
    parse_signature R h restore st =
      (12 + t,
       (if restore then
          if Z.land (12 + t) 1 =? 0 then memcpy h 0 (bytes_of "SWAP-SPACE")
          else memcpy h 0 (bytes_of "SWAPSPACE2")
        else h),
       {| header_dev_t := bdev; headerblock := block;
          toi_state := Flags.clear_bit R (toi_state st) |})).
  { intros restore. unfold parse_signature, signature_type.
    cbn [memcmp_eq bytes_of list_ascii_of_string map].
    rewrite Z.add_0_l, Hc. subst c.
    destruct Hcase; subst t; cbn -[memcpy load_le Flags.clear_bit Flags.set_bit h];
      rewrite Hd, Hb, H5'; destruct restore; reflexivity. }
  exists h, st. split; [exact Hprep|]. split.
  - eexists. split; [apply (Hparse1 false)|]. cbn [header_dev_t headerblock toi_state].
    repeat split. apply Flags.test_clear_same.
  - eexists _, _. split; [apply (Hparse1 true)|]. cbn [header_dev_t headerblock toi_state].
    repeat split; [apply Flags.test_clear_same|].
    intros i Hi.
    assert (Hi' : exists k, (k < 10)%nat /\ i = 0 + Z.of_nat k)
      by (exists (Z.to_nat i); lia).
    destruct Hi' as (k & Hk & ->). rewrite Hbytes by exact Hk.
    destruct Hcase; subst t; cbn [Z.eqb Z.add Z.land Pos.land Pos.add Pos.succ];
      do 10 (destruct k as [|k]; [reflexivity|]); lia.
Qed.

(** A 64-bit target, device 8:3 ([0x803]) and block 4096 on a SWAPSPACE2
    header. *)
Definition swapspace2_header : memory :=
  memcpy (fun _ => 0) 0 (bytes_of "SWAPSPACE2").

Lemma prepare_parse_signature_roundtrip_witness :
  exists header1 st1,
    prepare_signature 64 8 2051 4096 swapspace2_header (mk_swap_state 0 0 256)
      = (0, header1, st1) /\
    (exists st2,
       parse_signature 8 header1 false st1 = (12 + 1, header1, st2) /\
       header_dev_t st2 = 2051 /\ headerblock st2 = 4096 /\
       Flags.test_bit 8 (toi_state st2) = false) /\
    (exists header3 st3,
       parse_signature 8 header1 true st1 = (12 + 1, header3, st3) /\
       header_dev_t st3 = 2051 /\ headerblock st3 = 4096 /\
       Flags.test_bit 8 (toi_state st3) = false /\
       forall i, 0 <= i < 10 -> header3 i = swapspace2_header i).
Proof.
  apply (prepare_parse_signature_roundtrip 64 8 swapspace2_header
           (mk_swap_state 0 0 256) 2051 4096 1).
  - right; reflexivity.
  - lia.
  - lia.
  - reflexivity.
  - right; reflexivity.
Defined.

End Signature.

(** ** Dynamic page flags *)

Module PageFlags.

(** One bit per page frame number. *)
Definition dyn_pageflags := Z -> bool.

Definition clear_dyn_pageflags : dyn_pageflags := fun _ => false.

Definition set_dyn_pageflag (map : dyn_pageflags) (pfn : Z) : dyn_pageflags :=
  fun p => if p =? pfn then true else map p.

Definition clear_dyn_pageflag (map : dyn_pageflags) (pfn : Z) : dyn_pageflags :=
  fun p => if p =? pfn then false else map p.

(** The set bits of [map] among [pfn], [pfn + 1], ... ([fuel] of them), in
    ascending order. *)
Fixpoint pfns_from (map : dyn_pageflags) (fuel : nat) (pfn : Z) : list Z :=
  match fuel with
  | O => []
  | S f =>
      if map pfn then pfn :: pfns_from map f (pfn + 1)
      else pfns_from map f (pfn + 1)
  end.

(** The set bits of a bitmap over the page frames 0 to [max_pfn], which is
    what [BITMAP_FOR_EACH_SET] runs through. *)
Definition set_pfns (max_pfn : Z) (map : dyn_pageflags) : list Z :=
  pfns_from map (Z.to_nat (max_pfn + 1)) 0.

Fixpoint scan_bits (map : dyn_pageflags) (max_pfn : Z) (fuel : nat) (pfn : Z) : Z :=
  match fuel with
  | O => max_pfn + 1
  | S f => if map pfn then pfn else scan_bits map max_pfn f (pfn + 1)
  end.

(** Modelled from the spec: [get_next_bit_on] of the dynamic page flags,
    absent from the sources.  It steps through the set bits of a bitmap in
    ascending order: the counter [max_pfn + 1] starts the enumeration from
    scratch, any other counter asks for the first set bit after it, and
    [max_pfn + 1] is returned when no set bit is left (the convention the
    comment of [___suspend_get_nonconflicting_page] records). *)
Definition get_next_bit_on (max_pfn : Z) (map : dyn_pageflags) (counter : Z) : Z :=
  let start := if counter =? max_pfn + 1 then 0 else counter + 1 in
  scan_bits map max_pfn (Z.to_nat (max_pfn + 1 - start)) start.

Lemma scan_bits_hd map max_pfn fuel : forall pfn,
  scan_bits map max_pfn fuel pfn = hd (max_pfn + 1) (pfns_from map fuel pfn).
Proof.
  induction fuel as [|f IH]; intros pfn; [reflexivity|].
  cbn [scan_bits pfns_from]. destruct (map pfn); [reflexivity|apply IH].
Qed.

Lemma pfns_from_cons map fuel : forall pfn c rest,
  pfns_from map fuel pfn = c :: rest ->
  pfn <= c < pfn + Z.of_nat fuel /\ map c = true /\
  rest = pfns_from map (Z.to_nat (pfn + Z.of_nat fuel - (c + 1))) (c + 1).
Proof.
  induction fuel as [|f IH]; intros pfn c rest H; [discriminate|].
  cbn [pfns_from] in H. destruct (map pfn) eqn:E.
  - injection H as <- <-. repeat split; [lia|lia|exact E|].
    f_equal. lia.
  - destruct (IH _ _ _ H) as (Hr & Hc & Hrest). repeat split; [lia|lia|exact Hc|].
    rewrite Hrest. f_equal. lia.
Qed.

Lemma pfns_from_bounds map fuel : forall pfn x,
  In x (pfns_from map fuel pfn) -> pfn <= x < pfn + Z.of_nat fuel /\ map x = true.
Proof.
  induction fuel as [|f IH]; intros pfn x H; [contradiction|].
  cbn [pfns_from] in H. destruct (map pfn) eqn:E.
  - destruct H as [<-|H]; [split; [lia|exact E]|].
    destruct (IH _ _ H); split; [lia|assumption].
  - destruct (IH _ _ H); split; [lia|assumption].
Qed.


Lemma pfns_from_NoDup map fuel : forall pfn, NoDup (pfns_from map fuel pfn).
Proof.
  induction fuel as [|f IH]; intros pfn; [constructor|].
  cbn [pfns_from]. destruct (map pfn); [|apply IH].
  constructor; [|apply IH].
  intros H. apply pfns_from_bounds in H. lia.
Qed.

(** The tail of the enumeration below its [i]-th element is again an
    enumeration, started after that element. *)
Lemma set_pfns_skipn max_pfn map : 0 <= max_pfn -> forall i c rest,
  skipn i (set_pfns max_pfn map) = c :: rest ->
  0 <= c <= max_pfn /\
  rest = pfns_from map (Z.to_nat (max_pfn + 1 - (c + 1))) (c + 1).
Proof.
  intros Hmax. unfold set_pfns.
  assert (G : forall i fuel pfn c rest,
    pfn + Z.of_nat fuel = max_pfn + 1 -> 0 <= pfn ->
    skipn i (pfns_from map fuel pfn) = c :: rest ->
    0 <= c <= max_pfn /\
    rest = pfns_from map (Z.to_nat (max_pfn + 1 - (c + 1))) (c + 1)).
  { induction i as [|i IH]; intros fuel pfn c rest Hf Hp H.
    - cbn [skipn] in H. destruct (pfns_from_cons _ _ _ _ _ H) as (Hr & _ & Hrest).
      split; [lia|]. rewrite Hrest. f_equal. lia.
    - destruct (pfns_from map fuel pfn) as [|c0 rest0] eqn:E; [discriminate|].
      cbn [skipn] in H. destruct (pfns_from_cons _ _ _ _ _ E) as (Hr & _ & Hrest).
      rewrite Hrest in H. apply IH in H; [exact H|lia|lia]. }
  intros i c rest H. apply (G i (Z.to_nat (max_pfn + 1)) 0 c rest); [lia|lia|exact H].
Qed.

Lemma get_next_bit_on_first max_pfn map :
  get_next_bit_on max_pfn map (max_pfn + 1) = hd (max_pfn + 1) (set_pfns max_pfn map).
Proof.
  unfold get_next_bit_on, set_pfns. rewrite Z.eqb_refl, scan_bits_hd.
  now rewrite Z.sub_0_r.
Qed.

Lemma get_next_bit_on_nth max_pfn map i :
  0 <= max_pfn -> (i < length (set_pfns max_pfn map))%nat ->
  get_next_bit_on max_pfn map (nth i (set_pfns max_pfn map) (max_pfn + 1))
  = nth (S i) (set_pfns max_pfn map) (max_pfn + 1).
Proof.
  intros Hmax Hi.
  destruct (skipn i (set_pfns max_pfn map)) as [|c rest] eqn:E.
  - apply (f_equal (@length Z)) in E. rewrite length_skipn in E. cbn in E. lia.
  - destruct (set_pfns_skipn max_pfn map Hmax i c rest E) as (Hc & Hrest).
    assert (Hn : nth i (set_pfns max_pfn map) (max_pfn + 1) = c).
    { rewrite <- (Nat.add_0_r i), <- nth_skipn, E. reflexivity. }
    assert (Hs : nth (S i) (set_pfns max_pfn map) (max_pfn + 1) = hd (max_pfn + 1) rest).
    { replace (S i) with (i + 1)%nat by lia. rewrite <- nth_skipn, E.
      destruct rest; reflexivity. }
    rewrite Hn, Hs. unfold get_next_bit_on.
    destruct (Z.eqb_spec c (max_pfn + 1)); [lia|].
    rewrite scan_bits_hd, Hrest. reflexivity.
Qed.

Lemma set_pfns_NoDup max_pfn map : NoDup (set_pfns max_pfn map).
Proof. apply pfns_from_NoDup. Qed.


Lemma scan_bits_range map max_pfn fuel : forall pfn,
  pfn + Z.of_nat fuel <= max_pfn + 1 ->
  pfn <= scan_bits map max_pfn fuel pfn <= max_pfn + 1.
Proof.
  induction fuel as [|f IH]; intros pfn H; cbn [scan_bits]; [lia|].
  destruct (map pfn); [lia|]. specialize (IH (pfn + 1)). lia.
Qed.

Lemma get_next_bit_on_after max_pfn map counter :
  0 <= counter <= max_pfn ->
  counter < get_next_bit_on max_pfn map counter <= max_pfn + 1.
Proof.
  intros H. unfold get_next_bit_on.
  destruct (Z.eqb_spec counter (max_pfn + 1)); [lia|].
  pose proof (scan_bits_range map max_pfn
                (Z.to_nat (max_pfn + 1 - (counter + 1))) (counter + 1)). lia.
Qed.

Lemma get_next_bit_on_start max_pfn map :
  0 <= max_pfn ->
  0 <= get_next_bit_on max_pfn map (max_pfn + 1) <= max_pfn + 1.
Proof.
  intros H. unfold get_next_bit_on. rewrite Z.eqb_refl.
  pose proof (scan_bits_range map max_pfn (Z.to_nat (max_pfn + 1 - 0)) 0). lia.
Qed.

End PageFlags.

(** ** The hibernation session: state, collaborators and abort reasons *)

Module Engine.

Import PageFlags.

(** [struct zone], as far as the image preparation reads it. *)
Record zone := mk_zone {
  zone_start_pfn : Z;
  spanned_pages : Z;
  present_pages : Z;
  zone_idx : Z;
  is_highmem : bool
}.

Definition populated_zone (z : zone) : bool := negb (present_pages z =? 0).

(** One [struct per_cpu_pages]: its [count] and the pages on its list. *)
Record per_cpu_pages := mk_pcp { pcp_count : Z; pcp_list : list Z }.

(** A [vm_area_struct]: whether [vm_flags] has one of [VM_PFNMAP], [VM_IO],
    [VM_RESERVED], its [vm_start], and the pages [follow_page] finds when
    the area is walked page by page. *)
Record vm_area := mk_vma { vm_special : bool; vm_start : Z; vm_pages : list Z }.

(** A [task_struct]: [mm] set, [PF_BORROWED_MM], [PF_NOFREEZE], whether it
    is [current], and the [mmap] chain of [active_mm] (empty when there is
    none). *)
Record task := mk_task {
  task_has_mm : bool;
  task_borrowed_mm : bool;
  task_nofreeze : bool;
  task_is_current : bool;
  task_mmap : list vm_area
}.

(** The rest of the kernel and the storage backend, seen through the calls
    the image preparation makes into them.  [W] is their state. *)
Set Implicit Arguments.

Record collaborators (W : Type) := mk_collaborators {
  (* memory manager, read *)
  zones : W -> list zone;
  pfn_valid : W -> Z -> bool;
  saveable_page : W -> Z -> bool;
  saveable_highmem_page : W -> Z -> bool;
  PageHighMem : W -> Z -> bool;
  PageResave : W -> Z -> bool;
  free_list : W -> zone -> Z -> list Z;
  zone_pcp : W -> zone -> list per_cpu_pages;
  nr_free_pages : W -> zone -> Z;
  nr_inactive : W -> zone -> Z;
  nr_active : W -> zone -> Z;
  inactive_list : W -> zone -> list Z;
  active_list : W -> zone -> list Z;
  processes : W -> list task;
  (* memory manager, calls *)
  kmalloc : W -> bool * W;
  kfree : W -> W;
  get_free_pages : Z -> W -> option Z * W;
  free_pages : Z -> Z -> W -> W;
  shrink_one_zone : zone -> Z -> W -> W;
  drop_pagecache : W -> W;
  unlink_lru_lists : W -> W;
  (* freezer *)
  freeze_processes : W -> Z * W;
  thaw_processes : W -> W;
  thaw_kernel_threads : W -> W;
  (* devices *)
  suspend_console : W -> W;
  device_suspend : W -> W;
  local_irq_disable : W -> W;
  device_power_down : W -> W;
  device_power_up : W -> W;
  local_irq_enable : W -> W;
  device_resume : W -> W;
  resume_console : W -> W;
  (* storage backend: suspendActiveAllocator *)
  allocator_storage_available : W -> Z;
  allocator_allocate_storage : Z -> W -> W;
  allocator_storage_allocated : W -> Z;
  allocator_allocate_header_space : Z -> W -> Z * W;
  (* modules and checksums *)
  suspend_expected_compression_ratio : W -> Z;
  suspend_header_storage_for_modules : W -> Z;
  suspend_pageflags_space_needed : W -> Z;
  suspend_memory_for_modules : W -> Z;
  allocate_checksum_pages : W -> W;
  calculate_check_checksums : Z -> W -> W;
  free_checksum_pages : W -> W
}.

Unset Implicit Arguments.

(** Constants of the configuration whose definitions are not part of the
    sources. *)
Record constants := mk_constants {
  max_pfn : Z;
  MAX_ORDER : Z;
  MAX_NR_ZONES : Z;
  ZONE_HIGHMEM : Z;
  PAGE_SIZE : Z;
  PAGE_WORDS : nat;                 (* PAGE_SIZE / sizeof(unsigned long) *)
  BITS_PER_LONG : Z;
  MIN_FREE_RAM : Z;
  MIN_EXTRA_PAGES_ALLOWANCE : Z;
  sizeof_suspend_header : Z
}.

(** Action states, result states and suspend states: the enumerations of
    [tuxonice.h] and [linux/suspend.h]. *)
Definition SUSPEND_TEST_FILTER_SPEED : Z := 9.
Definition SUSPEND_TEST_BIO : Z := 10.
Definition SUSPEND_NO_PAGESET2 : Z := 11.
Definition SUSPEND_PAGESET2_FULL : Z := 15.

Definition SUSPEND_ABORTED : Z := 0.
Definition SUSPEND_NOSTORAGE_AVAILABLE : Z := 2.
Definition SUSPEND_FREEZING_FAILED : Z := 4.
Definition SUSPEND_WOULD_EAT_MEMORY : Z := 6.
Definition SUSPEND_EXTRA_PAGES_ALLOW_TOO_SMALL : Z := 10.
Definition SUSPEND_UNABLE_TO_PREPARE_IMAGE : Z := 11.

(** [struct pagedir]: the [size] of a pageset and [get_highmem_size] of it. *)
Record pagedir := mk_pagedir { size : Z; highmem_size : Z }.

Definition get_highmem_size (p : pagedir) : Z := highmem_size p.
Definition get_lowmem_size (p : pagedir) : Z := CInt.sub (size p) (highmem_size p).
Definition set_highmem_size (p : pagedir) (v : Z) : pagedir :=
  {| size := size p; highmem_size := v |}.
Definition inc_highmem_size (p : pagedir) : pagedir :=
  {| size := size p; highmem_size := CInt.add (highmem_size p) 1 |}.
Definition set_size (p : pagedir) (v : Z) : pagedir :=
  {| size := v; highmem_size := highmem_size p |}.
Definition inc_size (p : pagedir) : pagedir := set_size p (CInt.add (size p) 1).

(** [struct extras]. *)
Record extras := mk_extras { extras_page : Z; extras_order : Z }.

(** What the session tells the outside: status lines, statistics, and the
    calls the properties below speak about. *)
Inductive event :=
| Status_preparing_image (tries : Z)
| Status_seeking_to_free (amount : Z)
| Status_update
| Message_count_data_pages (set1 set2 nosave free : Z)
| Message_want_extra_pages (wanted got : Z)
| Message_header_space
| Display_stats (always : bool)
| Printk_no_storage
| Printk_pageset1_grown (by_pages allowance : Z)
| Printk_attention_list
| Abort_message (reason : Z)
| Cond_pause
| Call_shrink_one_zone (idx amount : Z)
| Call_drop_pagecache
| Call_unlink_lru_lists
| Call_suspend_copy_pageset1.

Section WithKernel.

Context {W : Type}.
Variable K : collaborators W.
Variable C : constants.

(** The process-wide variables of the session, the page flags it owns, the
    physical memory (page frame number and word index to word) and the
    record of events, latest first. *)
Record state := mk_state {
  world : W;
  ram : Z -> Z -> Z;
  suspend_result : Z;
  suspend_action : Z;
  suspend_state : Z;
  pagedir1 : pagedir;
  pagedir2 : pagedir;
  num_nosave : Z;
  header_space_allocated : Z;
  main_storage_allocated : Z;
  storage_available : Z;
  extra_pd1_pages_allowance : Z;
  image_size_limit : Z;
  extra_pages_allocated : Z;
  extras_list : list extras;
  extra_pd1_pages_used : Z;
  nosave_map : dyn_pageflags;
  nosave_free_map : dyn_pageflags;
  pageset1_map : dyn_pageflags;
  pageset1_copy_map : dyn_pageflags;
  pageset2_map : dyn_pageflags;
  log : list event
}.

Definition set_world (v : W) (s : state) : state :=
  {| world := v; ram := ram s; suspend_result := suspend_result s;
     suspend_action := suspend_action s; suspend_state := suspend_state s;
     pagedir1 := pagedir1 s; pagedir2 := pagedir2 s; num_nosave := num_nosave
     s; header_space_allocated := header_space_allocated s;
     main_storage_allocated := main_storage_allocated s; storage_available :=
     storage_available s; extra_pd1_pages_allowance :=
     extra_pd1_pages_allowance s; image_size_limit := image_size_limit s;
     extra_pages_allocated := extra_pages_allocated s; extras_list :=
     extras_list s; extra_pd1_pages_used := extra_pd1_pages_used s; nosave_map
     := nosave_map s; nosave_free_map := nosave_free_map s; pageset1_map :=
     pageset1_map s; pageset1_copy_map := pageset1_copy_map s; pageset2_map :=
     pageset2_map s; log := log s |}.

Definition set_ram (v : Z -> Z -> Z) (s : state) : state :=
  {| world := world s; ram := v; suspend_result := suspend_result s;
     suspend_action := suspend_action s; suspend_state := suspend_state s;
     pagedir1 := pagedir1 s; pagedir2 := pagedir2 s; num_nosave := num_nosave
     s; header_space_allocated := header_space_allocated s;
     main_storage_allocated := main_storage_allocated s; storage_available :=
     storage_available s; extra_pd1_pages_allowance :=
     extra_pd1_pages_allowance s; image_size_limit := image_size_limit s;
     extra_pages_allocated := extra_pages_allocated s; extras_list :=
     extras_list s; extra_pd1_pages_used := extra_pd1_pages_used s; nosave_map
     := nosave_map s; nosave_free_map := nosave_free_map s; pageset1_map :=
     pageset1_map s; pageset1_copy_map := pageset1_copy_map s; pageset2_map :=
     pageset2_map s; log := log s |}.

Definition set_suspend_result (v : Z) (s : state) : state :=
  {| world := world s; ram := ram s; suspend_result := v; suspend_action :=
     suspend_action s; suspend_state := suspend_state s; pagedir1 := pagedir1
     s; pagedir2 := pagedir2 s; num_nosave := num_nosave s;
     header_space_allocated := header_space_allocated s;
     main_storage_allocated := main_storage_allocated s; storage_available :=
     storage_available s; extra_pd1_pages_allowance :=
     extra_pd1_pages_allowance s; image_size_limit := image_size_limit s;
     extra_pages_allocated := extra_pages_allocated s; extras_list :=
     extras_list s; extra_pd1_pages_used := extra_pd1_pages_used s; nosave_map
     := nosave_map s; nosave_free_map := nosave_free_map s; pageset1_map :=
     pageset1_map s; pageset1_copy_map := pageset1_copy_map s; pageset2_map :=
     pageset2_map s; log := log s |}.

Definition set_suspend_state (v : Z) (s : state) : state :=
  {| world := world s; ram := ram s; suspend_result := suspend_result s;
     suspend_action := suspend_action s; suspend_state := v; pagedir1 :=
     pagedir1 s; pagedir2 := pagedir2 s; num_nosave := num_nosave s;
     header_space_allocated := header_space_allocated s;
     main_storage_allocated := main_storage_allocated s; storage_available :=
     storage_available s; extra_pd1_pages_allowance :=
     extra_pd1_pages_allowance s; image_size_limit := image_size_limit s;
     extra_pages_allocated := extra_pages_allocated s; extras_list :=
     extras_list s; extra_pd1_pages_used := extra_pd1_pages_used s; nosave_map
     := nosave_map s; nosave_free_map := nosave_free_map s; pageset1_map :=
     pageset1_map s; pageset1_copy_map := pageset1_copy_map s; pageset2_map :=
     pageset2_map s; log := log s |}.

Definition set_pagedir1 (v : pagedir) (s : state) : state :=
  {| world := world s; ram := ram s; suspend_result := suspend_result s;
     suspend_action := suspend_action s; suspend_state := suspend_state s;
     pagedir1 := v; pagedir2 := pagedir2 s; num_nosave := num_nosave s;
     header_space_allocated := header_space_allocated s;
     main_storage_allocated := main_storage_allocated s; storage_available :=
     storage_available s; extra_pd1_pages_allowance :=
     extra_pd1_pages_allowance s; image_size_limit := image_size_limit s;
     extra_pages_allocated := extra_pages_allocated s; extras_list :=
     extras_list s; extra_pd1_pages_used := extra_pd1_pages_used s; nosave_map
     := nosave_map s; nosave_free_map := nosave_free_map s; pageset1_map :=
     pageset1_map s; pageset1_copy_map := pageset1_copy_map s; pageset2_map :=
     pageset2_map s; log := log s |}.

Definition set_pagedir2 (v : pagedir) (s : state) : state :=
  {| world := world s; ram := ram s; suspend_result := suspend_result s;
     suspend_action := suspend_action s; suspend_state := suspend_state s;
     pagedir1 := pagedir1 s; pagedir2 := v; num_nosave := num_nosave s;
     header_space_allocated := header_space_allocated s;
     main_storage_allocated := main_storage_allocated s; storage_available :=
     storage_available s; extra_pd1_pages_allowance :=
     extra_pd1_pages_allowance s; image_size_limit := image_size_limit s;
     extra_pages_allocated := extra_pages_allocated s; extras_list :=
     extras_list s; extra_pd1_pages_used := extra_pd1_pages_used s; nosave_map
     := nosave_map s; nosave_free_map := nosave_free_map s; pageset1_map :=
     pageset1_map s; pageset1_copy_map := pageset1_copy_map s; pageset2_map :=
     pageset2_map s; log := log s |}.

Definition set_num_nosave (v : Z) (s : state) : state :=
  {| world := world s; ram := ram s; suspend_result := suspend_result s;
     suspend_action := suspend_action s; suspend_state := suspend_state s;
     pagedir1 := pagedir1 s; pagedir2 := pagedir2 s; num_nosave := v;
     header_space_allocated := header_space_allocated s;
     main_storage_allocated := main_storage_allocated s; storage_available :=
     storage_available s; extra_pd1_pages_allowance :=
     extra_pd1_pages_allowance s; image_size_limit := image_size_limit s;
     extra_pages_allocated := extra_pages_allocated s; extras_list :=
     extras_list s; extra_pd1_pages_used := extra_pd1_pages_used s; nosave_map
     := nosave_map s; nosave_free_map := nosave_free_map s; pageset1_map :=
     pageset1_map s; pageset1_copy_map := pageset1_copy_map s; pageset2_map :=
     pageset2_map s; log := log s |}.

Definition set_header_space_allocated (v : Z) (s : state) : state :=
  {| world := world s; ram := ram s; suspend_result := suspend_result s;
     suspend_action := suspend_action s; suspend_state := suspend_state s;
     pagedir1 := pagedir1 s; pagedir2 := pagedir2 s; num_nosave := num_nosave
     s; header_space_allocated := v; main_storage_allocated :=
     main_storage_allocated s; storage_available := storage_available s;
     extra_pd1_pages_allowance := extra_pd1_pages_allowance s;
     image_size_limit := image_size_limit s; extra_pages_allocated :=
     extra_pages_allocated s; extras_list := extras_list s;
     extra_pd1_pages_used := extra_pd1_pages_used s; nosave_map := nosave_map
     s; nosave_free_map := nosave_free_map s; pageset1_map := pageset1_map s;
     pageset1_copy_map := pageset1_copy_map s; pageset2_map := pageset2_map s;
     log := log s |}.

Definition set_main_storage_allocated (v : Z) (s : state) : state :=
  {| world := world s; ram := ram s; suspend_result := suspend_result s;
     suspend_action := suspend_action s; suspend_state := suspend_state s;
     pagedir1 := pagedir1 s; pagedir2 := pagedir2 s; num_nosave := num_nosave
     s; header_space_allocated := header_space_allocated s;
     main_storage_allocated := v; storage_available := storage_available s;
     extra_pd1_pages_allowance := extra_pd1_pages_allowance s;
     image_size_limit := image_size_limit s; extra_pages_allocated :=
     extra_pages_allocated s; extras_list := extras_list s;
     extra_pd1_pages_used := extra_pd1_pages_used s; nosave_map := nosave_map
     s; nosave_free_map := nosave_free_map s; pageset1_map := pageset1_map s;
     pageset1_copy_map := pageset1_copy_map s; pageset2_map := pageset2_map s;
     log := log s |}.

Definition set_storage_available (v : Z) (s : state) : state :=
  {| world := world s; ram := ram s; suspend_result := suspend_result s;
     suspend_action := suspend_action s; suspend_state := suspend_state s;
     pagedir1 := pagedir1 s; pagedir2 := pagedir2 s; num_nosave := num_nosave
     s; header_space_allocated := header_space_allocated s;
     main_storage_allocated := main_storage_allocated s; storage_available :=
     v; extra_pd1_pages_allowance := extra_pd1_pages_allowance s;
     image_size_limit := image_size_limit s; extra_pages_allocated :=
     extra_pages_allocated s; extras_list := extras_list s;
     extra_pd1_pages_used := extra_pd1_pages_used s; nosave_map := nosave_map
     s; nosave_free_map := nosave_free_map s; pageset1_map := pageset1_map s;
     pageset1_copy_map := pageset1_copy_map s; pageset2_map := pageset2_map s;
     log := log s |}.

Definition set_extra_pd1_pages_allowance (v : Z) (s : state) : state :=
  {| world := world s; ram := ram s; suspend_result := suspend_result s;
     suspend_action := suspend_action s; suspend_state := suspend_state s;
     pagedir1 := pagedir1 s; pagedir2 := pagedir2 s; num_nosave := num_nosave
     s; header_space_allocated := header_space_allocated s;
     main_storage_allocated := main_storage_allocated s; storage_available :=
     storage_available s; extra_pd1_pages_allowance := v; image_size_limit :=
     image_size_limit s; extra_pages_allocated := extra_pages_allocated s;
     extras_list := extras_list s; extra_pd1_pages_used :=
     extra_pd1_pages_used s; nosave_map := nosave_map s; nosave_free_map :=
     nosave_free_map s; pageset1_map := pageset1_map s; pageset1_copy_map :=
     pageset1_copy_map s; pageset2_map := pageset2_map s; log := log s |}.

Definition set_extra_pages_allocated (v : Z) (s : state) : state :=
  {| world := world s; ram := ram s; suspend_result := suspend_result s;
     suspend_action := suspend_action s; suspend_state := suspend_state s;
     pagedir1 := pagedir1 s; pagedir2 := pagedir2 s; num_nosave := num_nosave
     s; header_space_allocated := header_space_allocated s;
     main_storage_allocated := main_storage_allocated s; storage_available :=
     storage_available s; extra_pd1_pages_allowance :=
     extra_pd1_pages_allowance s; image_size_limit := image_size_limit s;
     extra_pages_allocated := v; extras_list := extras_list s;
     extra_pd1_pages_used := extra_pd1_pages_used s; nosave_map := nosave_map
     s; nosave_free_map := nosave_free_map s; pageset1_map := pageset1_map s;
     pageset1_copy_map := pageset1_copy_map s; pageset2_map := pageset2_map s;
     log := log s |}.

Definition set_extras_list (v : list extras) (s : state) : state :=
  {| world := world s; ram := ram s; suspend_result := suspend_result s;
     suspend_action := suspend_action s; suspend_state := suspend_state s;
     pagedir1 := pagedir1 s; pagedir2 := pagedir2 s; num_nosave := num_nosave
     s; header_space_allocated := header_space_allocated s;
     main_storage_allocated := main_storage_allocated s; storage_available :=
     storage_available s; extra_pd1_pages_allowance :=
     extra_pd1_pages_allowance s; image_size_limit := image_size_limit s;
     extra_pages_allocated := extra_pages_allocated s; extras_list := v;
     extra_pd1_pages_used := extra_pd1_pages_used s; nosave_map := nosave_map
     s; nosave_free_map := nosave_free_map s; pageset1_map := pageset1_map s;
     pageset1_copy_map := pageset1_copy_map s; pageset2_map := pageset2_map s;
     log := log s |}.

Definition set_extra_pd1_pages_used (v : Z) (s : state) : state :=
  {| world := world s; ram := ram s; suspend_result := suspend_result s;
     suspend_action := suspend_action s; suspend_state := suspend_state s;
     pagedir1 := pagedir1 s; pagedir2 := pagedir2 s; num_nosave := num_nosave
     s; header_space_allocated := header_space_allocated s;
     main_storage_allocated := main_storage_allocated s; storage_available :=
     storage_available s; extra_pd1_pages_allowance :=
     extra_pd1_pages_allowance s; image_size_limit := image_size_limit s;
     extra_pages_allocated := extra_pages_allocated s; extras_list :=
     extras_list s; extra_pd1_pages_used := v; nosave_map := nosave_map s;
     nosave_free_map := nosave_free_map s; pageset1_map := pageset1_map s;
     pageset1_copy_map := pageset1_copy_map s; pageset2_map := pageset2_map s;
     log := log s |}.

Definition set_nosave_map (v : dyn_pageflags) (s : state) : state :=
  {| world := world s; ram := ram s; suspend_result := suspend_result s;
     suspend_action := suspend_action s; suspend_state := suspend_state s;
     pagedir1 := pagedir1 s; pagedir2 := pagedir2 s; num_nosave := num_nosave
     s; header_space_allocated := header_space_allocated s;
     main_storage_allocated := main_storage_allocated s; storage_available :=
     storage_available s; extra_pd1_pages_allowance :=
     extra_pd1_pages_allowance s; image_size_limit := image_size_limit s;
     extra_pages_allocated := extra_pages_allocated s; extras_list :=
     extras_list s; extra_pd1_pages_used := extra_pd1_pages_used s; nosave_map
     := v; nosave_free_map := nosave_free_map s; pageset1_map := pageset1_map
     s; pageset1_copy_map := pageset1_copy_map s; pageset2_map := pageset2_map
     s; log := log s |}.

Definition set_nosave_free_map (v : dyn_pageflags) (s : state) : state :=
  {| world := world s; ram := ram s; suspend_result := suspend_result s;
     suspend_action := suspend_action s; suspend_state := suspend_state s;
     pagedir1 := pagedir1 s; pagedir2 := pagedir2 s; num_nosave := num_nosave
     s; header_space_allocated := header_space_allocated s;
     main_storage_allocated := main_storage_allocated s; storage_available :=
     storage_available s; extra_pd1_pages_allowance :=
     extra_pd1_pages_allowance s; image_size_limit := image_size_limit s;
     extra_pages_allocated := extra_pages_allocated s; extras_list :=
     extras_list s; extra_pd1_pages_used := extra_pd1_pages_used s; nosave_map
     := nosave_map s; nosave_free_map := v; pageset1_map := pageset1_map s;
     pageset1_copy_map := pageset1_copy_map s; pageset2_map := pageset2_map s;
     log := log s |}.

Definition set_pageset1_map (v : dyn_pageflags) (s : state) : state :=
  {| world := world s; ram := ram s; suspend_result := suspend_result s;
     suspend_action := suspend_action s; suspend_state := suspend_state s;
     pagedir1 := pagedir1 s; pagedir2 := pagedir2 s; num_nosave := num_nosave
     s; header_space_allocated := header_space_allocated s;
     main_storage_allocated := main_storage_allocated s; storage_available :=
     storage_available s; extra_pd1_pages_allowance :=
     extra_pd1_pages_allowance s; image_size_limit := image_size_limit s;
     extra_pages_allocated := extra_pages_allocated s; extras_list :=
     extras_list s; extra_pd1_pages_used := extra_pd1_pages_used s; nosave_map
     := nosave_map s; nosave_free_map := nosave_free_map s; pageset1_map := v;
     pageset1_copy_map := pageset1_copy_map s; pageset2_map := pageset2_map s;
     log := log s |}.

Definition set_pageset1_copy_map (v : dyn_pageflags) (s : state) : state :=
  {| world := world s; ram := ram s; suspend_result := suspend_result s;
     suspend_action := suspend_action s; suspend_state := suspend_state s;
     pagedir1 := pagedir1 s; pagedir2 := pagedir2 s; num_nosave := num_nosave
     s; header_space_allocated := header_space_allocated s;
     main_storage_allocated := main_storage_allocated s; storage_available :=
     storage_available s; extra_pd1_pages_allowance :=
     extra_pd1_pages_allowance s; image_size_limit := image_size_limit s;
     extra_pages_allocated := extra_pages_allocated s; extras_list :=
     extras_list s; extra_pd1_pages_used := extra_pd1_pages_used s; nosave_map
     := nosave_map s; nosave_free_map := nosave_free_map s; pageset1_map :=
     pageset1_map s; pageset1_copy_map := v; pageset2_map := pageset2_map s;
     log := log s |}.

Definition set_pageset2_map (v : dyn_pageflags) (s : state) : state :=
  {| world := world s; ram := ram s; suspend_result := suspend_result s;
     suspend_action := suspend_action s; suspend_state := suspend_state s;
     pagedir1 := pagedir1 s; pagedir2 := pagedir2 s; num_nosave := num_nosave
     s; header_space_allocated := header_space_allocated s;
     main_storage_allocated := main_storage_allocated s; storage_available :=
     storage_available s; extra_pd1_pages_allowance :=
     extra_pd1_pages_allowance s; image_size_limit := image_size_limit s;
     extra_pages_allocated := extra_pages_allocated s; extras_list :=
     extras_list s; extra_pd1_pages_used := extra_pd1_pages_used s; nosave_map
     := nosave_map s; nosave_free_map := nosave_free_map s; pageset1_map :=
     pageset1_map s; pageset1_copy_map := pageset1_copy_map s; pageset2_map :=
     v; log := log s |}.

Definition set_log (v : list event) (s : state) : state :=
  {| world := world s; ram := ram s; suspend_result := suspend_result s;
     suspend_action := suspend_action s; suspend_state := suspend_state s;
     pagedir1 := pagedir1 s; pagedir2 := pagedir2 s; num_nosave := num_nosave
     s; header_space_allocated := header_space_allocated s;
     main_storage_allocated := main_storage_allocated s; storage_available :=
     storage_available s; extra_pd1_pages_allowance :=
     extra_pd1_pages_allowance s; image_size_limit := image_size_limit s;
     extra_pages_allocated := extra_pages_allocated s; extras_list :=
     extras_list s; extra_pd1_pages_used := extra_pd1_pages_used s; nosave_map
     := nosave_map s; nosave_free_map := nosave_free_map s; pageset1_map :=
     pageset1_map s; pageset1_copy_map := pageset1_copy_map s; pageset2_map :=
     pageset2_map s; log := v |}.

Definition emit (e : event) (s : state) : state := set_log (e :: log s) s.

Definition test_action_state (bit : Z) (s : state) : bool :=
  Flags.test_bit bit (suspend_action s).

Definition test_result_state (bit : Z) (s : state) : bool :=
  Flags.test_bit bit (suspend_result s).

(** [set_abort_result(bit)]: the umbrella flag, then the reason. *)
Definition set_abort_result (bit : Z) (s : state) : state :=
  set_suspend_result
    (Flags.set_bit bit (Flags.set_bit SUSPEND_ABORTED (suspend_result s))) s.

(** Modelled from the spec: [abort_suspend] of the user interface code,
    absent from the sources: it reports the reason and records it, with the
    umbrella flag, in the result state. *)
Definition abort_suspend (reason : Z) (s : state) : state :=
  set_abort_result reason (emit (Abort_message reason) s).

(** Run a collaborator call on the state of the rest of the kernel. *)
Definition call (f : W -> W) (s : state) : state := set_world (f (world s)) s.

(** *** Measuring ([prepare_image.c]) *)

(** [real_nr_free_pages]: the pages on the per-cpu lists and the free pages
    of the populated zones selected by [zone_idx_mask]. *)
Definition real_nr_free_pages (zone_idx_mask : Z) (s : state) : Z :=
  fold_left
    (fun result z =>
       if negb (populated_zone z) then result
       else if Z.land zone_idx_mask (Z.shiftl 1 (zone_idx z)) =? 0 then result
       else
         CInt.add
           (fold_left (fun r pcp => CInt.add r (pcp_count pcp))
                      (zone_pcp K (world s) z) result)
           (nr_free_pages K (world s) z))
    (zones K (world s)) 0.

(** Modelled from the spec: [all_zones_mask], [real_nr_free_high_pages] and
    [real_nr_free_low_pages] of [prepare_image.h], absent from the sources:
    the free pages of the high memory class and of the other classes. *)
Definition all_zones_mask : Z := Z.shiftl 1 (MAX_NR_ZONES C) - 1.

Definition real_nr_free_high_pages (s : state) : Z :=
  real_nr_free_pages (Z.shiftl 1 (ZONE_HIGHMEM C)) s.

Definition real_nr_free_low_pages (s : state) : Z :=
  real_nr_free_pages (all_zones_mask - Z.shiftl 1 (ZONE_HIGHMEM C)) s.

(** [get_extra_pd1_allowance]: how many pages the drivers take when they
    are asked to suspend. *)
Definition get_extra_pd1_allowance (s : state) : state :=
  let orig_num_free := real_nr_free_pages all_zones_mask s in
  let s1 := call (device_power_down K)
              (call (local_irq_disable K)
                 (call (device_suspend K) (call (suspend_console K) s))) in
  let final := real_nr_free_pages all_zones_mask s1 in
  let s2 := call (resume_console K)
              (call (device_resume K)
                 (call (local_irq_enable K) (call (device_power_up K) s1))) in
  set_extra_pd1_pages_allowance
    (CInt.max
       (CInt.add (CInt.sub orig_num_free final) (MIN_EXTRA_PAGES_ALLOWANCE C))
       (MIN_EXTRA_PAGES_ALLOWANCE C))
    s2.

Definition main_storage_needed (use_ecr ignore_extra_pd1_allow : bool)
    (s : state) : Z :=
  CInt.div
    (CInt.mul
       (CInt.add
          (CInt.add (size (pagedir1 s)) (size (pagedir2 s)))
          (if ignore_extra_pd1_allow then 0 else extra_pd1_pages_allowance s))
       (if use_ecr then suspend_expected_compression_ratio K (world s) else 100))
    100.

(** [header_storage_needed]: [bytes] is an [int], [PAGE_SIZE] is
    [1UL << PAGE_SHIFT], an [unsigned long], so the rounding division is
    done in [unsigned long] and its result converted to the [int] that is
    returned. *)
Definition header_storage_needed (s : state) : Z :=
  let bytes :=
    CInt.add
      (CInt.add (sizeof_suspend_header C)
                (suspend_header_storage_for_modules K (world s)))
      (suspend_pageflags_space_needed K (world s)) in
  CInt.wrap (CULong.DIV_ROUND_UP (BITS_PER_LONG C) bytes (PAGE_SIZE C)).

Definition highpages_ps1_to_free (s : state) : Z :=
  CInt.max 0
    (CInt.sub
       (CInt.DIV_ROUND_UP
          (CInt.sub (get_highmem_size (pagedir1 s))
                    (get_highmem_size (pagedir2 s))) 2)
       (real_nr_free_high_pages s)).

Definition lowpages_ps1_to_free (s : state) : Z :=
  CInt.max 0
    (CInt.DIV_ROUND_UP
       (CInt.sub
          (CInt.sub
             (CInt.sub
                (CInt.add
                   (CInt.add
                      (CInt.add (get_lowmem_size (pagedir1 s))
                                (extra_pd1_pages_allowance s))
                      (MIN_FREE_RAM C))
                   (suspend_memory_for_modules K (world s)))
                (get_lowmem_size (pagedir2 s)))
             (real_nr_free_low_pages s))
          (extra_pages_allocated s))
       2).

Definition current_image_size (s : state) : Z :=
  CInt.add (CInt.add (size (pagedir1 s)) (size (pagedir2 s)))
           (header_space_allocated s).

Definition any_to_free (use_image_size_limit : bool) (s : state) : Z :=
  let user_limit :=
    if use_image_size_limit && (image_size_limit s >? 0)
    then CInt.max 0 (CInt.sub (current_image_size s)
                              (CInt.shl (image_size_limit s) 8))
    else 0 in
  let storage_limit :=
    CInt.max 0 (CInt.sub (main_storage_needed true true s)
                         (storage_available s)) in
  CInt.max user_limit storage_limit.

(** [amount_needed]: by how much the image has to shrink. *)
Definition amount_needed (use_image_size_limit : bool) (s : state) : Z :=
  CInt.max (CInt.add (highpages_ps1_to_free s) (lowpages_ps1_to_free s))
           (any_to_free use_image_size_limit s).

(** The value [image_not_ready] returns. *)
Definition not_ready (use_image_size_limit : bool) (s : state) : bool :=
  (amount_needed use_image_size_limit s >? 0)
  || (header_space_allocated s <? header_storage_needed s)
  || (main_storage_allocated s <? main_storage_needed true true s).

(** [image_not_ready]: one message, one pause point, then the verdict. *)
Definition image_not_ready (use_image_size_limit : bool) (s : state)
  : bool * state :=
  (not_ready use_image_size_limit s, emit Cond_pause s).

Definition display_stats (always : bool) (sub_extra_pd1_allow : bool)
    (s : state) : state :=
  emit (Display_stats always) s.

(** *** Classifying pages ([prepare_image.c]) *)

(** [for (loop = 0; loop < n; loop++) Set...(page + loop)] and its clearing
    counterpart. *)
Fixpoint set_run (map : dyn_pageflags) (n : nat) (pfn : Z) : dyn_pageflags :=
  match n with
  | O => map
  | S k => set_run (set_dyn_pageflag map pfn) k (pfn + 1)
  end.

Fixpoint clear_run (map : dyn_pageflags) (n : nat) (pfn : Z) : dyn_pageflags :=
  match n with
  | O => map
  | S k => clear_run (clear_dyn_pageflag map pfn) k (pfn + 1)
  end.

(** The orders [MAX_ORDER - 1] down to 0. *)
Definition orders_down : list Z :=
  map (fun k => MAX_ORDER C - 1 - Z.of_nat k) (seq 0 (Z.to_nat (MAX_ORDER C))).

(** [generate_free_page_map]: rebuild the [NosaveFree] flags of the
    populated zones from the free lists of the page allocator. *)
Definition generate_free_page_map_zone (w : W) (free : dyn_pageflags) (z : zone)
  : dyn_pageflags :=
  if negb (populated_zone z) then free
  else
    let cleared := clear_run free (Z.to_nat (spanned_pages z)) (zone_start_pfn z) in
    let buddies :=
      fold_left
        (fun m order =>
           fold_left (fun m' page => set_run m' (Z.to_nat (Z.shiftl 1 order)) page)
                     (free_list K w z order) m)
        orders_down cleared in
    fold_left
      (fun m pcp => fold_left set_dyn_pageflag (pcp_list pcp) m)
      (zone_pcp K w z) buddies.

Definition generate_free_page_map (s : state) : state :=
  set_nosave_free_map
    (fold_left (generate_free_page_map_zone (world s)) (zones K (world s))
               (nosave_free_map s))
    s.

(** The loop of [size_of_free_region]: the length of the run of free pages
    that starts at [pfn], at most [fuel] long. *)
Fixpoint free_run (free : dyn_pageflags) (fuel : nat) (pfn : Z) : Z :=
  match fuel with
  | O => 0
  | S f => if free pfn then 1 + free_run free f (pfn + 1) else 0
  end.

(** [size_of_free_region(page)], for a page of zone [z]: the run may reach
    the last page the zone spans. *)
Definition size_of_free_region (z : zone) (s : state) (pfn : Z) : Z :=
  CInt.wrap
    (free_run (nosave_free_map s)
              (Z.to_nat (zone_start_pfn z + spanned_pages z - pfn)) pfn).

(** The body of the loop of [flag_image_pages] for a page that is valid and
    not free: count it as nosave, or put it in pageset 2, in pageset 1, or,
    when a pageset 2 page has to be resaved, in both. *)
Definition flag_page (z : zone) (pfn : Z) (s : state) : state :=
  let w := world s in
  let saveable :=
    if is_highmem z then saveable_highmem_page K w pfn else saveable_page K w pfn in
  if negb saveable || nosave_map s pfn then
    set_num_nosave (CInt.add (num_nosave s) 1) s
  else if pageset2_map s pfn then
    let s1 := set_pagedir2 (inc_size (pagedir2 s)) s in
    let s2 :=
      if PageHighMem K w pfn
      then set_pagedir2 (inc_highmem_size (pagedir2 s1)) s1
      else set_pageset1_copy_map (set_dyn_pageflag (pageset1_copy_map s1) pfn) s1 in
    if PageResave K w pfn then
      let s3 := set_pageset1_map (set_dyn_pageflag (pageset1_map s2) pfn) s2 in
      let s4 := set_pageset1_copy_map (clear_dyn_pageflag (pageset1_copy_map s3) pfn) s3 in
      let s5 := set_pagedir1 (inc_size (pagedir1 s4)) s4 in
      if PageHighMem K w pfn
      then set_pagedir1 (inc_highmem_size (pagedir1 s5)) s5
      else s5
    else s2
  else
    let s1 := set_pagedir1 (inc_size (pagedir1 s)) s in
    let s2 := set_pageset1_map (set_dyn_pageflag (pageset1_map s1) pfn) s1 in
    if PageHighMem K w pfn
    then set_pagedir1 (inc_highmem_size (pagedir1 s2)) s2
    else s2.

(** The loop over the pages a zone spans, from index [loop] on, with the
    local [num_free].  Every turn advances [loop], so [spanned_pages] turns
    are enough. *)
Fixpoint flag_zone_pages (fuel : nat) (z : zone) (loop : Z) (num_free : Z)
    (s : state) : state * Z :=
  match fuel with
  | O => (s, num_free)
  | S f =>
      if loop <? spanned_pages z then
        let pfn := zone_start_pfn z + loop in
        if negb (pfn_valid K (world s) pfn) then
          flag_zone_pages f z (loop + 1) num_free s
        else
          let chunk_size := size_of_free_region z s pfn in
          if negb (chunk_size =? 0) then
            flag_zone_pages f z (loop + (chunk_size - 1) + 1)
                            (CInt.add num_free chunk_size) s
          else
            flag_zone_pages f z (loop + 1) num_free (flag_page z pfn s)
      else (s, num_free)
  end.

Definition flag_zone (acc : state * Z) (z : zone) : state * Z :=
  if negb (populated_zone z) then acc
  else flag_zone_pages (Z.to_nat (spanned_pages z)) z 0 (snd acc) (fst acc).

(** [flag_image_pages] up to the end of its loops, with [num_free]. *)
Definition flag_image_pages_count (s : state) : state * Z :=
  let s1 := set_pagedir1 (set_size (pagedir1 s) 0) s in
  let s2 := set_pagedir2 (set_size (pagedir2 s1) 0) s1 in
  let s3 := set_pagedir1 (set_highmem_size (pagedir1 s2) 0) s2 in
  let s4 := set_pagedir2 (set_highmem_size (pagedir2 s3) 0) s3 in
  let s5 := set_num_nosave 0 s4 in
  let s6 := set_pageset1_map clear_dyn_pageflags s5 in
  let s7 := generate_free_page_map s6 in
  fold_left flag_zone (zones K (world s7)) (s7, 0).

Definition flag_image_pages (atomic_copy : bool) (s : state) : state :=
  let '(s1, num_free) := flag_image_pages_count s in
  if atomic_copy then s1
  else
    emit (Message_count_data_pages (size (pagedir1 s1)) (size (pagedir2 s1))
                                   (num_nosave s1) num_free) s1.

(** *** Marking pageset 2 ([pagedir.c]) *)

(** [suspend_mark_task_as_pageset]: walk the areas of the task's address
    space, skipping the special ones and the one that starts at 0, and mark
    the pages found as pageset 2, or take them back from it. *)
Definition mark_vma (pageset2 : bool) (s : state) (vma : vm_area) : state :=
  if vm_special vma then s
  else if vm_start vma =? 0 then s
  else
    fold_left
      (fun s' page =>
         if pageset2 then
           set_pageset2_map (set_dyn_pageflag (pageset2_map s') page) s'
         else
           let s'' := set_pageset2_map (clear_dyn_pageflag (pageset2_map s') page) s' in
           set_pageset1_map (set_dyn_pageflag (pageset1_map s'') page) s'')
      (vm_pages vma) s.

Definition suspend_mark_task_as_pageset (t : task) (pageset2 : bool) (s : state)
  : state :=
  fold_left (mark_vma pageset2) (task_mmap t) s.

(** [pageset2_full]: everything on the inactive and active lists. *)
Definition pageset2_full (s : state) : state :=
  fold_left
    (fun s' z =>
       let w := world s' in
       let s1 :=
         if negb (nr_inactive K w z =? 0) then
           set_pageset2_map
             (fold_left set_dyn_pageflag (inactive_list K w z) (pageset2_map s')) s'
         else s' in
       if negb (nr_active K w z =? 0) then
         set_pageset2_map
           (fold_left set_dyn_pageflag (active_list K w z) (pageset2_map s1)) s1
       else s1)
    (zones K (world s)) s.

Definition needs_attention (p : task) : bool :=
  task_nofreeze p || task_is_current p.

(** The loop that allocates the attention list: whether the [count] entries
    were obtained, and how many were when [kmalloc] failed, which aborts
    the attempt. *)
Fixpoint allocate_attention_list (count : nat) (got : nat) (s : state)
  : state * bool * nat :=
  match count with
  | O => (s, true, got)
  | S k =>
      let '(ok, w) := kmalloc K (world s) in
      let s1 := set_world w s in
      if ok then allocate_attention_list k (S got) s1
      else
        (set_abort_result SUSPEND_UNABLE_TO_PREPARE_IMAGE
           (emit Printk_attention_list s1), false, got)
  end.

(** The loop at [free_attention_list]: the tasks of the entries are taken
    back into pageset 1 unless the attempt is aborted, and every entry is
    freed.  After a failed allocation the entries carry no task. *)
Fixpoint free_attention_list (entries : list (option task)) (s : state) : state :=
  match entries with
  | [] => s
  | e :: rest =>
      let s1 :=
        if negb (test_result_state SUSPEND_ABORTED s) then
          match e with
          | Some t => suspend_mark_task_as_pageset t false s
          | None => s
          end
        else s in
      free_attention_list rest (call (kfree K) s1)
  end.

Definition suspend_mark_pages_for_pageset2 (s : state) : state :=
  if test_action_state SUSPEND_NO_PAGESET2 s then s
  else
    let s1 := set_pageset2_map clear_dyn_pageflags s in
    let s2 :=
      if test_action_state SUSPEND_PAGESET2_FULL s1 then pageset2_full s1
      else
        fold_left
          (fun s' p =>
             if negb (task_has_mm p) || task_borrowed_mm p then s'
             else suspend_mark_task_as_pageset p true s')
          (processes K (world s1)) s1 in
    let attention := filter needs_attention (processes K (world s2)) in
    let '(s3, ok, got) := allocate_attention_list (length attention) 0 s2 in
    if ok then
      free_attention_list
        (map Some (filter needs_attention (processes K (world s3)))) s3
    else free_attention_list (repeat None got) s3.

(** *** Recalculating, allocating, freeing ([prepare_image.c]) *)

Definition suspend_recalculate_image_contents (atomic_copy : bool) (s : state)
  : state :=
  let s1 := set_pageset1_map clear_dyn_pageflags s in
  let s2 :=
    if negb atomic_copy then
      suspend_mark_pages_for_pageset2
        (set_pageset1_copy_map
           (fold_left clear_dyn_pageflag
                      (set_pfns (max_pfn C) (pageset2_map s1))
                      (pageset1_copy_map s1))
           s1)
    else s1 in
  let s3 := flag_image_pages atomic_copy s2 in
  if negb atomic_copy then
    display_stats false false
      (set_storage_available (allocator_storage_available K (world s3)) s3)
  else s3.

(** Modelled from the spec: [fls] of the kernel's bit operations, absent
    from the sources: the position, counted from 1, of the most significant
    set bit of a 32-bit word, and 0 for the word 0. *)
Definition fls (x : Z) : Z :=
  let u := x mod 2 ^ 32 in
  if u =? 0 then 0 else Z.log2 u + 1.

(** [while ((1 << order) > num_to_alloc) order--;] *)
Fixpoint lower_order (fuel : nat) (order num_to_alloc : Z) : Z :=
  match fuel with
  | O => order
  | S f =>
      if CInt.shl 1 order >? num_to_alloc
      then lower_order f (CInt.sub order 1) num_to_alloc
      else order
  end.

(** [virt = __get_free_pages(flags, order); while (!virt && order) ...] *)
Fixpoint get_pages_lowering (fuel : nat) (order : Z) (w : W)
  : option Z * Z * W :=
  let '(virt, w1) := get_free_pages K order w in
  match virt, fuel with
  | None, S f =>
      if negb (order =? 0) then get_pages_lowering f (CInt.sub order 1) w1
      else (None, order, w1)
  | _, _ => (virt, order, w1)
  end.

Fixpoint extra_pagedir_loop (fuel : nat) (order num_to_alloc : Z) (s : state)
  : Z * state :=
  match fuel with
  | O => (extra_pages_allocated s, s)
  | S f =>
      if num_to_alloc =? 0 then (extra_pages_allocated s, s)
      else
        let order1 := lower_order (Z.to_nat order) order num_to_alloc in
        let '(entry, w1) := kmalloc K (world s) in
        let s1 := set_world w1 s in
        if negb entry then (extra_pages_allocated s1, s1)
        else
          let '(virt, order2, w2) :=
            get_pages_lowering (Z.to_nat order1) order1 (world s1) in
          let s2 := set_world w2 s1 in
          match virt with
          | None =>
              let s3 := call (kfree K) s2 in (extra_pages_allocated s3, s3)
          | Some newpage =>
              let pages := Z.to_nat (CInt.shl 1 order2) in
              let s3 :=
                set_extras_list (mk_extras newpage order2 :: extras_list s2) s2 in
              let s4 := set_nosave_map (set_run (nosave_map s3) pages newpage) s3 in
              let s5 :=
                set_pageset1_copy_map
                  (set_run (pageset1_copy_map s4) pages newpage) s4 in
              let s6 :=
                set_extra_pages_allocated
                  (CInt.add (extra_pages_allocated s5) (CInt.shl 1 order2)) s5 in
              extra_pagedir_loop f order2
                (CInt.sub num_to_alloc (CInt.shl 1 order2)) s6
          end
  end.

(** [suspend_allocate_extra_pagedir_memory]: pages for the atomic copy of
    pageset 1 where pageset 2 cannot hold it.  Each turn of the loop
    allocates at least one page, so [num_to_alloc] turns are enough
    (lemma [allocate_extra_pagedir_memory_turns]). *)
Definition suspend_allocate_extra_pagedir_memory (extra_pages_needed : Z)
    (s : state) : Z * state :=
  let num_to_alloc := CInt.sub extra_pages_needed (extra_pages_allocated s) in
  if num_to_alloc <? 1 then (0, s)
  else
    let order := fls num_to_alloc in
    let order := if order >=? MAX_ORDER C then CInt.sub (MAX_ORDER C) 1 else order in
    extra_pagedir_loop (Z.to_nat num_to_alloc) order num_to_alloc s.

(** The second half of [update_image]: storage for the image and its
    header, then freeze again and recalculate. *)
Definition update_image_storage (s2 : state) : state :=
  let s3 := call (thaw_kernel_threads K) s2 in
  let s4 :=
    call (allocator_allocate_storage K
            (CInt.min (storage_available s3) (main_storage_needed false false s3)))
         s3 in
  let s5 :=
    set_main_storage_allocated (allocator_storage_allocated K (world s4)) s4 in
  let param_used := header_storage_needed s5 in
  let '(result, w6) := allocator_allocate_header_space K param_used (world s5) in
  let s6 := set_world w6 s5 in
  let s7 :=
    if negb (result =? 0) then emit Message_header_space s6
    else set_header_space_allocated param_used s6 in
  let '(frozen, w8) := freeze_processes K (world s7) in
  let s8 := set_world w8 s7 in
  let s9 :=
    if negb (frozen =? 0) then set_abort_result SUSPEND_FREEZING_FAILED s8
    else s8 in
  suspend_recalculate_image_contents false (call (allocate_checksum_pages K) s9).

(** [update_image]: allocate memory and storage for the image.  The first
    half finds the extra pages pageset 1 needs for its atomic copy. *)
Definition update_image (s : state) : state :=
  let s1 := suspend_recalculate_image_contents false s in
  let wanted :=
    CInt.sub (CInt.add (size (pagedir1 s1)) (extra_pd1_pages_allowance s1))
             (get_lowmem_size (pagedir2 s1)) in
  if wanted >? extra_pages_allocated s1 then
    let '(got, s2) := suspend_allocate_extra_pagedir_memory wanted s1 in
    if wanted <? got then emit (Message_want_extra_pages wanted got) s2
    else update_image_storage s2
  else update_image_storage s1.

(** [attempt_to_freeze]. *)
Definition attempt_to_freeze (s : state) : Z * state :=
  let s1 := call (thaw_processes K) s in
  let '(result, w2) := freeze_processes K (world s1) in
  let s2 := set_world w2 s1 in
  if negb (result =? 0) then (result, set_abort_result SUSPEND_FREEZING_FAILED s2)
  else (result, s2).

(** *** Eating memory and the entry point ([prepare_image.c]) *)

Definition zone_type_free (idx amount_wanted : Z) (s : state) : Z :=
  CInt.max
    (if idx =? ZONE_HIGHMEM C then highpages_ps1_to_free s
     else lowpages_ps1_to_free s)
    amount_wanted.

(** The [for_each_zone] loop of [eat_memory] for zones of type [idx]. *)
Fixpoint shrink_zones (zs : list zone) (idx ztf amount_wanted : Z)
    (did_eat_memory : bool) (s : state) : state * Z * bool :=
  match zs with
  | [] => (s, amount_wanted, did_eat_memory)
  | z :: rest =>
      if negb (zone_idx z =? idx) then
        shrink_zones rest idx ztf amount_wanted did_eat_memory s
      else
        let s1 :=
          emit (Call_shrink_one_zone idx ztf) (call (shrink_one_zone K z ztf) s) in
        let s2 := suspend_recalculate_image_contents false s1 in
        let amount_wanted1 := amount_needed true s2 in
        let ztf1 := zone_type_free idx amount_wanted1 s2 in
        if ztf1 <? 0 then (s2, amount_wanted1, true)
        else shrink_zones rest idx ztf1 amount_wanted1 true s2
  end.

(** The loop over the zone types [0 .. MAX_NR_ZONES - 1]. *)
Fixpoint shrink_zone_types (idxs : list Z) (amount_wanted : Z)
    (did_eat_memory : bool) (s : state) : state * Z * bool :=
  match idxs with
  | [] => (s, amount_wanted, did_eat_memory)
  | idx :: rest =>
      let ztf := zone_type_free idx amount_wanted s in
      if ztf <? 0 then (s, amount_wanted, did_eat_memory)
      else
        let '(s1, amount_wanted1, did1) :=
          shrink_zones (zones K (world s)) idx ztf amount_wanted did_eat_memory s in
        shrink_zone_types rest amount_wanted1 did1 s1
  end.

Definition zone_types : list Z :=
  map Z.of_nat (seq 0 (Z.to_nat (MAX_NR_ZONES C))).

(** [eat_memory]: free memory until the constraints on the image are met,
    as far as [image_size_limit] allows. *)
Definition eat_memory (s : state) : state :=
  let s1 := suspend_recalculate_image_contents false s in
  let amount_wanted := amount_needed true s1 in
  if (image_size_limit s1 =? -1) && (amount_wanted >? 0) then
    set_abort_result SUSPEND_WOULD_EAT_MEMORY s1
  else
    let '(s2, amount_wanted2, did2) :=
      if image_size_limit s1 =? -2 then
        let s' :=
          suspend_recalculate_image_contents false
            (emit Call_drop_pagecache (call (drop_pagecache K) s1)) in
        (s', amount_needed true s', true)
      else (s1, amount_wanted, false) in
    let '(s3, did3) :=
      if (amount_wanted2 >? 0)
         && negb (test_result_state SUSPEND_ABORTED s2)
         && negb (image_size_limit s2 =? -1)
      then
        let s' :=
          call (thaw_kernel_threads K)
               (emit (Status_seeking_to_free amount_wanted2) s2) in
        let '(s'', _, did) := shrink_zone_types zone_types amount_wanted2 did2 s' in
        let s''' := emit Cond_pause s'' in
        let '(frozen, w) := freeze_processes K (world s''') in
        let s4 := set_world w s''' in
        (if negb (frozen =? 0) then set_abort_result SUSPEND_FREEZING_FAILED s4
         else s4, did)
      else (s2, did2) in
    let s5 :=
      if did3 then
        suspend_recalculate_image_contents false
          (set_suspend_state (suspend_state s3) s3)
      else s3 in
    emit Status_update s5.

Definition MAX_TRIES : Z := 2.

(** The [do ... while] loop of [suspend_prepare_image]; [None] when [fuel]
    turns did not end it. *)
Fixpoint prepare_image_loop (fuel : nat) (tries : Z) (s : state) : option state :=
  match fuel with
  | O => None
  | S f =>
      let s1 := eat_memory (emit (Status_preparing_image tries) s) in
      if test_result_state SUSPEND_ABORTED s1 then Some s1
      else
        let s2 := update_image s1 in
        let tries1 := CInt.add tries 1 in
        let '(again, s3) := image_not_ready true s2 in
        if again && (tries1 <=? MAX_TRIES)
           && negb (test_result_state SUSPEND_ABORTED s3)
        then prepare_image_loop f tries1 s3
        else Some s3
  end.

(** What follows the loop: the verdict, and the report or the hand-over. *)
Definition prepare_image_finish (s : state) : Z * state :=
  let '(result, s1) := image_not_ready false s in
  let s2 :=
    if negb (test_result_state SUSPEND_ABORTED s1) then
      if result then
        abort_suspend SUSPEND_UNABLE_TO_PREPARE_IMAGE (display_stats true false s1)
      else emit Cond_pause (emit Call_unlink_lru_lists (call (unlink_lru_lists K) s1))
    else s1 in
  (if result then 1 else 0, s2).

(** The entry of [suspend_prepare_image]: freeze, find the allowance for
    the drivers if there is none yet, ask for the storage available.  The
    first component is 1 when the function returns from here. *)
Definition prepare_image_checks (s : state) : Z * state :=
  let s1 := set_main_storage_allocated 0 (set_header_space_allocated 0 s) in
  let '(failed, s2) := attempt_to_freeze s1 in
  if negb (failed =? 0) then (1, s2)
  else
    let s3 :=
      if extra_pd1_pages_allowance s2 =? 0 then get_extra_pd1_allowance s2
      else s2 in
    let s4 := set_storage_available (allocator_storage_available K (world s3)) s3 in
    if storage_available s4 =? 0 then
      (1, set_abort_result SUSPEND_NOSTORAGE_AVAILABLE (emit Printk_no_storage s4))
    else (0, s4).

(** [suspend_prepare_image], the loop being given [fuel] turns. *)
Definition suspend_prepare_image (fuel : nat) (s : state) : option (Z * state) :=
  let '(returned, s1) := prepare_image_checks s in
  if negb (returned =? 0) then Some (1, s1)
  else
    match prepare_image_loop fuel 1 s1 with
    | None => None
    | Some s2 => Some (prepare_image_finish s2)
    end.

(** *** The atomic copy ([atomic_copy.c]) *)

(** The word loop: [loop] runs from [PAGE_SIZE / sizeof(unsigned long) - 1]
    down to 0. *)
Fixpoint copy_words (n : nat) (orig copy : Z) (mem : Z -> Z -> Z) : Z -> Z -> Z :=
  match n with
  | O => mem
  | S loop =>
      copy_words loop orig copy
        (fun pfn w =>
           if (pfn =? copy) && (w =? Z.of_nat loop) then mem orig (Z.of_nat loop)
           else mem pfn w)
  end.

(** The variables of the [for] loop of [suspend_copy_pageset1]. *)
Record copy_cursor := mk_cursor {
  source_index : Z;
  dest_index : Z;
  memory : Z -> Z -> Z
}.

(** One turn: copy the page at [source_index] to the page at [dest_index]
    and step both indices.  The mapping a high memory page needs does not
    change what is read and written. *)
Definition copy_turn (s : state) (c : copy_cursor) : copy_cursor :=
  {| source_index :=
       get_next_bit_on (max_pfn C) (pageset1_map s) (source_index c);
     dest_index :=
       get_next_bit_on (max_pfn C) (pageset1_copy_map s) (dest_index c);
     memory :=
       copy_words (PAGE_WORDS C) (source_index c) (dest_index c) (memory c) |}.

Definition copy_start (s : state) : copy_cursor :=
  {| source_index := get_next_bit_on (max_pfn C) (pageset1_map s) (max_pfn C + 1);
     dest_index := get_next_bit_on (max_pfn C) (pageset1_copy_map s) (max_pfn C + 1);
     memory := ram s |}.

(** The cursor after [i] turns. *)
Definition copy_after (i : nat) (s : state) : copy_cursor :=
  Nat.iter i (copy_turn s) (copy_start s).

(** [suspend_copy_pageset1]: [pagedir1.size] turns. *)
Definition suspend_copy_pageset1 (s : state) : state :=
  set_ram (memory (copy_after (Z.to_nat (size (pagedir1 s))) s)) s.

(** [__suspend_post_context_save]: what is done once the processor state
    is saved. *)
Definition __suspend_post_context_save (s : state) : Z * state :=
  let old_ps1_size := size (pagedir1 s) in
  let s1 := call (free_checksum_pages K) (call (calculate_check_checksums K 1) s) in
  let s2 := suspend_recalculate_image_contents true s1 in
  let s3 :=
    set_extra_pd1_pages_used (CInt.sub (size (pagedir1 s2)) old_ps1_size) s2 in
  if extra_pd1_pages_used s3 >? extra_pd1_pages_allowance s3 then
    (-1,
     set_abort_result SUSPEND_EXTRA_PAGES_ALLOW_TOO_SMALL
       (emit (Printk_pageset1_grown
                (CInt.sub (size (pagedir1 s3)) old_ps1_size)
                (extra_pd1_pages_allowance s3)) s3))
  else if negb (test_action_state SUSPEND_TEST_FILTER_SPEED s3)
          && negb (test_action_state SUSPEND_TEST_BIO s3)
  then (0, emit Call_suspend_copy_pageset1 (suspend_copy_pageset1 s3))
  else (0, s3).

(** *** Properties of the atomic copy *)

Lemma copy_words_other n orig copy : forall mem pfn w,
  pfn <> copy -> copy_words n orig copy mem pfn w = mem pfn w.
Proof.
  induction n as [|n IH]; intros mem pfn w Hne; [reflexivity|].
  cbn [copy_words]. rewrite IH by exact Hne.
  destruct (Z.eqb_spec pfn copy); [contradiction|reflexivity].
Qed.

Lemma copy_words_high n orig copy : forall mem pfn w,
  Z.of_nat n <= w -> copy_words n orig copy mem pfn w = mem pfn w.
Proof.
  induction n as [|n IH]; intros mem pfn w Hw; [reflexivity|].
  cbn [copy_words]. rewrite IH by lia.
  destruct (Z.eqb_spec w (Z.of_nat n)); [lia|].
  now rewrite andb_false_r.
Qed.

Lemma copy_words_dest n orig copy : forall mem w,
  0 <= w < Z.of_nat n -> copy_words n orig copy mem copy w = mem orig w.
Proof.
  induction n as [|n IH]; intros mem w Hw; [lia|].
  cbn [copy_words]. destruct (Z.eq_dec w (Z.of_nat n)) as [->|Hne].
  - rewrite copy_words_high by lia. now rewrite !Z.eqb_refl.
  - rewrite IH by lia.
    destruct (Z.eqb_spec w (Z.of_nat n)); [contradiction|].
    now rewrite andb_false_r.
Qed.

Lemma hd_nth_0 (d : Z) (l : list Z) : hd d l = nth 0 l d.
Proof. destruct l; reflexivity. Qed.

Lemma copy_after_indices s : 0 <= max_pfn C -> forall i,
  (i <= length (set_pfns (max_pfn C) (pageset1_map s)))%nat ->
  (i <= length (set_pfns (max_pfn C) (pageset1_copy_map s)))%nat ->
  source_index (copy_after i s)
    = nth i (set_pfns (max_pfn C) (pageset1_map s)) (max_pfn C + 1) /\
  dest_index (copy_after i s)
    = nth i (set_pfns (max_pfn C) (pageset1_copy_map s)) (max_pfn C + 1).
Proof.
  intros Hmax. induction i as [|i IH]; intros Hs Hd.
  - unfold copy_after, copy_start. cbn [Nat.iter source_index dest_index].
    now rewrite !get_next_bit_on_first, !hd_nth_0.
  - destruct IH as [IHs IHd]; [lia|lia|].
    change (copy_after (S i) s) with (copy_turn s (copy_after i s)).
    cbn [copy_turn source_index dest_index].
    rewrite IHs, IHd. split; apply get_next_bit_on_nth; try exact Hmax; lia.
Qed.

(** Once the [i]-th destination page is written it keeps its content. *)
Lemma copy_after_keeps s i w : 0 <= max_pfn C ->
  0 <= w < Z.of_nat (PAGE_WORDS C) ->
  forall k, (i < k)%nat ->
    (k <= length (set_pfns (max_pfn C) (pageset1_map s)))%nat ->
    (k <= length (set_pfns (max_pfn C) (pageset1_copy_map s)))%nat ->
    memory (copy_after k s)
      (nth i (set_pfns (max_pfn C) (pageset1_copy_map s)) (max_pfn C + 1)) w
    = memory (copy_after i s)
        (nth i (set_pfns (max_pfn C) (pageset1_map s)) (max_pfn C + 1)) w.
Proof.
  intros Hmax Hw. induction k as [|k IH]; intros Hik Hs Hd; [lia|].
  destruct (copy_after_indices s Hmax k) as [Es Ed]; [lia|lia|].
  change (copy_after (S k) s) with (copy_turn s (copy_after k s)).
  cbn [copy_turn memory]. rewrite Es, Ed.
  destruct (Nat.eq_dec i k) as [->|Hne].
  - now rewrite copy_words_dest.
  - rewrite copy_words_other; [apply IH; lia|].
    intros E. apply Hne.
    apply (proj1 (NoDup_nth _ (max_pfn C + 1))
                 (set_pfns_NoDup (max_pfn C) (pageset1_copy_map s))); [lia|lia|exact E].
Qed.

(** C1.  Atomic copy fidelity: when the bitmaps of pageset 1 and of its
    copy each have at least [pagedir1.size] set bits, turn [i] of
    [suspend_copy_pageset1] pairs the [i]-th set page frame of
    [pageset1_map] with the [i]-th set page frame of [pageset1_copy_map];
    when the function returns every destination page holds, word for word,
    what its source page held when that turn began; and distinct turns write
    distinct destination pages. *)
Theorem suspend_copy_pageset1_fidelity (s : state) :
  0 <= max_pfn C ->
  (Z.to_nat (size (pagedir1 s))
     <= length (set_pfns (max_pfn C) (pageset1_map s)))%nat ->
  (Z.to_nat (size (pagedir1 s))
     <= length (set_pfns (max_pfn C) (pageset1_copy_map s)))%nat ->
  let srcs := set_pfns (max_pfn C) (pageset1_map s) in
  let dsts := set_pfns (max_pfn C) (pageset1_copy_map s) in
  let none := max_pfn C + 1 in
  (forall i, (i < Z.to_nat (size (pagedir1 s)))%nat ->
     source_index (copy_after i s) = nth i srcs none /\
     dest_index (copy_after i s) = nth i dsts none) /\
  (forall i w, (i < Z.to_nat (size (pagedir1 s)))%nat ->
     0 <= w < Z.of_nat (PAGE_WORDS C) ->
     ram (suspend_copy_pageset1 s) (nth i dsts none) w
     = memory (copy_after i s) (nth i srcs none) w) /\
  (forall i j, (i < Z.to_nat (size (pagedir1 s)))%nat ->
     (j < Z.to_nat (size (pagedir1 s)))%nat ->
     i <> j -> nth i dsts none <> nth j dsts none).
Proof.
  intros Hmax Hs Hd srcs dsts none. repeat split.
  - apply copy_after_indices; [exact Hmax|lia|lia].
  - apply copy_after_indices; [exact Hmax|lia|lia].
  - intros i w Hi Hw. unfold suspend_copy_pageset1. cbn [ram set_ram].
    apply copy_after_keeps; assumption.
  - intros i j Hi Hj Hne E. apply Hne.
    apply (proj1 (NoDup_nth _ none) (set_pfns_NoDup (max_pfn C) (pageset1_copy_map s)));
      [lia|lia|exact E].
Qed.

(** *** What the classification leaves alone *)

(** The variables no recalculation of the image contents writes. *)
Definition untouched (s : state) :=
  (ram s, suspend_action s, suspend_state s, header_space_allocated s,
   main_storage_allocated s, extra_pd1_pages_allowance s, image_size_limit s,
   extra_pages_allocated s, extras_list s, extra_pd1_pages_used s, nosave_map s).

(** What the loops of [flag_image_pages] leave alone as well. *)
Definition unflagged (s : state) :=
  (world s, suspend_result s, pageset2_map s, storage_available s, log s).

Lemma fold_left_keeps {A B T : Type} (f : A -> T) (g : A -> B -> A) (l : list B) :
  (forall a x, f (g a x) = f a) -> forall a, f (fold_left g l a) = f a.
Proof.
  intros H. induction l as [|x l IH]; intros a; [reflexivity|].
  cbn [fold_left]. now rewrite IH.
Qed.

Lemma flag_page_untouched z pfn s : untouched (flag_page z pfn s) = untouched s.
Proof.
  unfold flag_page.
  repeat match goal with |- context [if ?c then _ else _] => destruct c end;
    reflexivity.
Qed.

Lemma flag_page_unflagged z pfn s : unflagged (flag_page z pfn s) = unflagged s.
Proof.
  unfold flag_page.
  repeat match goal with |- context [if ?c then _ else _] => destruct c end;
    reflexivity.
Qed.

Lemma flag_page_nosave_free z pfn s :
  nosave_free_map (flag_page z pfn s) = nosave_free_map s.
Proof.
  unfold flag_page.
  repeat match goal with |- context [if ?c then _ else _] => destruct c end;
    reflexivity.
Qed.

Lemma flag_zone_pages_keeps {T : Type} (f : state -> T) :
  (forall z pfn s, f (flag_page z pfn s) = f s) ->
  forall fuel z loop num_free s,
    f (fst (flag_zone_pages fuel z loop num_free s)) = f s.
Proof.
  intros H. induction fuel as [|fuel IH]; intros z loop num_free s; [reflexivity|].
  cbn [flag_zone_pages].
  repeat match goal with |- context [if ?c then _ else _] => destruct c end;
    rewrite ?IH, ?H; reflexivity.
Qed.

Lemma flag_zones_keeps {T : Type} (f : state -> T) :
  (forall z pfn s, f (flag_page z pfn s) = f s) ->
  forall zs acc, f (fst (fold_left flag_zone zs acc)) = f (fst acc).
Proof.
  intros H zs acc.
  apply (fold_left_keeps (fun a => f (fst a)) flag_zone zs).
  intros a z. unfold flag_zone. destruct (negb (populated_zone z)); [reflexivity|].
  apply flag_zone_pages_keeps, H.
Qed.

Lemma flag_image_pages_count_untouched s :
  untouched (fst (flag_image_pages_count s)) = untouched s.
Proof.
  unfold flag_image_pages_count.
  rewrite (flag_zones_keeps untouched flag_page_untouched). reflexivity.
Qed.

Lemma flag_image_pages_count_unflagged s :
  unflagged (fst (flag_image_pages_count s)) = unflagged s.
Proof.
  unfold flag_image_pages_count.
  rewrite (flag_zones_keeps unflagged flag_page_unflagged). reflexivity.
Qed.

Lemma flag_image_pages_untouched a s :
  untouched (flag_image_pages a s) = untouched s.
Proof.
  unfold flag_image_pages. pose proof (flag_image_pages_count_untouched s) as H.
  destruct (flag_image_pages_count s) as [s1 nf]. destruct a; exact H.
Qed.

Lemma flag_image_pages_atomic_unflagged s :
  unflagged (flag_image_pages true s) = unflagged s.
Proof.
  unfold flag_image_pages. pose proof (flag_image_pages_count_unflagged s) as H.
  destruct (flag_image_pages_count s) as [s1 nf]. exact H.
Qed.

(** With [atomic_copy] set the recalculation only reclassifies. *)
Lemma recalculate_atomic_untouched s :
  untouched (suspend_recalculate_image_contents true s) = untouched s.
Proof.
  unfold suspend_recalculate_image_contents. cbn [negb].
  now rewrite flag_image_pages_untouched.
Qed.

Lemma recalculate_atomic_unflagged s :
  unflagged (suspend_recalculate_image_contents true s) = unflagged s.
Proof.
  unfold suspend_recalculate_image_contents. cbn [negb].
  now rewrite flag_image_pages_atomic_unflagged.
Qed.

(** C2.  Allowance violation detection: when the recalculation made after
    the processor state is saved finds [pagedir1.size] grown, over its size
    before, by more than [extra_pd1_pages_allowance], then
    [__suspend_post_context_save] records the abort reason "extra pages
    allowance too small" with the umbrella flag and returns -1, and
    [suspend_copy_pageset1] is not called: memory is as it was and the only
    event is the report of the growth.  Otherwise it returns 0 and the copy
    is made, unless one of the two test action flags is set. *)
Theorem post_context_save_allowance (s : state) :
  let measured :=
    suspend_recalculate_image_contents true
      (call (free_checksum_pages K) (call (calculate_check_checksums K 1) s)) in
  let growth := size (pagedir1 measured) - size (pagedir1 s) in
  let used := set_extra_pd1_pages_used growth measured in
  let testing :=
    test_action_state SUSPEND_TEST_FILTER_SPEED s
    || test_action_state SUSPEND_TEST_BIO s in
  CInt.in_int growth ->
  (growth > extra_pd1_pages_allowance s ->
   fst (__suspend_post_context_save s) = -1 /\
   test_result_state SUSPEND_EXTRA_PAGES_ALLOW_TOO_SMALL
     (snd (__suspend_post_context_save s)) = true /\
   test_result_state SUSPEND_ABORTED (snd (__suspend_post_context_save s)) = true /\
   ram (snd (__suspend_post_context_save s)) = ram s /\
   log (snd (__suspend_post_context_save s))
     = Printk_pageset1_grown growth (extra_pd1_pages_allowance s) :: log s) /\
  (growth <= extra_pd1_pages_allowance s ->
   fst (__suspend_post_context_save s) = 0 /\
   snd (__suspend_post_context_save s)
     = if testing then used
       else emit Call_suspend_copy_pageset1 (suspend_copy_pageset1 used)).
Proof.
  cbv zeta.
  set (s1 := call (free_checksum_pages K) (call (calculate_check_checksums K 1) s)).
  set (measured := suspend_recalculate_image_contents true s1).
  set (growth := size (pagedir1 measured) - size (pagedir1 s)).
  set (used := set_extra_pd1_pages_used growth measured).
  set (testing := test_action_state SUSPEND_TEST_FILTER_SPEED s
                  || test_action_state SUSPEND_TEST_BIO s).
  intros Hfit.
  assert (Hu : untouched measured = untouched s)
    by (unfold measured; now rewrite recalculate_atomic_untouched).
  assert (Hf : unflagged measured = unflagged s1)
    by (unfold measured; now rewrite recalculate_atomic_unflagged).
  assert (Hallow : extra_pd1_pages_allowance measured = extra_pd1_pages_allowance s)
    by (unfold untouched in Hu; congruence).
  assert (Hact : suspend_action measured = suspend_action s)
    by (unfold untouched in Hu; congruence).
  assert (Hram : ram measured = ram s) by (unfold untouched in Hu; congruence).
  assert (Hlog : log measured = log s)
    by (transitivity (log s1); [unfold unflagged in Hf; congruence|reflexivity]).
  unfold __suspend_post_context_save. fold s1. fold measured.
  cbn [pagedir1 extra_pd1_pages_used extra_pd1_pages_allowance set_extra_pd1_pages_used].
  unfold CInt.sub. fold growth. rewrite (CInt.wrap_id _ Hfit). fold used.
  rewrite Hallow. split.
  - intros Hgt.
    replace (growth >? extra_pd1_pages_allowance s) with true
      by (symmetry; apply Z.gtb_lt; lia).
    cbn [fst snd]. repeat split.
    + unfold test_result_state, set_abort_result. cbn [suspend_result set_suspend_result].
      apply Flags.test_set_same. unfold SUSPEND_EXTRA_PAGES_ALLOW_TOO_SMALL. lia.
    + unfold test_result_state, set_abort_result. cbn [suspend_result set_suspend_result].
      apply Flags.test_set_mono; try (unfold SUSPEND_EXTRA_PAGES_ALLOW_TOO_SMALL, SUSPEND_ABORTED; lia).
      apply Flags.test_set_same. unfold SUSPEND_ABORTED. lia.
    + exact Hram.
    + unfold set_abort_result, emit, used.
      cbn [log set_log set_suspend_result set_extra_pd1_pages_used].
      now rewrite Hlog.
  - intros Hle.
    replace (growth >? extra_pd1_pages_allowance s) with false
      by (symmetry; rewrite Z.gtb_ltb; apply Z.ltb_ge; lia).
    unfold testing, test_action_state.
    change (suspend_action used) with (suspend_action measured).
    rewrite Hact.
    destruct (Flags.test_bit SUSPEND_TEST_FILTER_SPEED (suspend_action s));
      destruct (Flags.test_bit SUSPEND_TEST_BIO (suspend_action s));
      split; reflexivity.
Qed.

(** *** Counting the pages of the page space *)

(** The sum of [f] over the [n] page frames from [pfn] on. *)
Fixpoint sum_from (f : Z -> Z) (n : nat) (pfn : Z) : Z :=
  match n with
  | O => 0
  | S k => f pfn + sum_from f k (pfn + 1)
  end.

(** The sum over the pages a populated zone spans, and over the zones. *)
Definition sum_zone (f : zone -> Z -> Z) (z : zone) : Z :=
  if populated_zone z
  then sum_from (f z) (Z.to_nat (spanned_pages z)) (zone_start_pfn z)
  else 0.

Definition sum_pages (f : zone -> Z -> Z) (zs : list zone) : Z :=
  fold_right (fun z acc => sum_zone f z + acc) 0 zs.

(** The number of pages of the page space that satisfy [P]. *)
Definition count_pages (P : zone -> Z -> bool) (zs : list zone) : Z :=
  sum_pages (fun z pfn => Z.b2z (P z pfn)) zs.

(** The classes a page falls in when the loops of [flag_image_pages] run on
    the state [s]. *)
Definition page_valid (s : state) (z : zone) (pfn : Z) : bool :=
  pfn_valid K (world s) pfn.

Definition page_free (s : state) (z : zone) (pfn : Z) : bool :=
  nosave_free_map s pfn.

Definition page_excluded (s : state) (z : zone) (pfn : Z) : bool :=
  negb (if is_highmem z then saveable_highmem_page K (world s) pfn
        else saveable_page K (world s) pfn)
  || nosave_map s pfn.

Definition in_free (s : state) (z : zone) (pfn : Z) : bool :=
  page_valid s z pfn && page_free s z pfn.

Definition in_nosave (s : state) (z : zone) (pfn : Z) : bool :=
  page_valid s z pfn && negb (page_free s z pfn) && page_excluded s z pfn.

Definition in_pageset2 (s : state) (z : zone) (pfn : Z) : bool :=
  page_valid s z pfn && negb (page_free s z pfn) && negb (page_excluded s z pfn)
  && pageset2_map s pfn.

Definition in_resave (s : state) (z : zone) (pfn : Z) : bool :=
  in_pageset2 s z pfn && PageResave K (world s) pfn.

Definition in_pageset1_only (s : state) (z : zone) (pfn : Z) : bool :=
  page_valid s z pfn && negb (page_free s z pfn) && negb (page_excluded s z pfn)
  && negb (pageset2_map s pfn).

(** A page flagged free that is no valid page frame. *)
Definition free_but_invalid (s : state) (z : zone) (pfn : Z) : bool :=
  page_free s z pfn && negb (page_valid s z pfn).

Definition any_page (z : zone) (pfn : Z) : bool := true.

Lemma sum_from_ext f g n : forall pfn,
  (forall i, (i < n)%nat -> f (pfn + Z.of_nat i) = g (pfn + Z.of_nat i)) ->
  sum_from f n pfn = sum_from g n pfn.
Proof.
  induction n as [|n IH]; intros pfn H; [reflexivity|].
  cbn [sum_from]. f_equal.
  - specialize (H O ltac:(lia)). now rewrite Z.add_0_r in H.
  - apply IH. intros i Hi. specialize (H (S i) ltac:(lia)).
    now replace (pfn + 1 + Z.of_nat i) with (pfn + Z.of_nat (S i)) by lia.
Qed.

Lemma sum_from_add f g n : forall pfn,
  sum_from (fun p => f p + g p) n pfn = sum_from f n pfn + sum_from g n pfn.
Proof.
  induction n as [|n IH]; intros pfn; [reflexivity|].
  cbn [sum_from]. rewrite IH. lia.
Qed.

Lemma sum_from_le f g n : forall pfn,
  (forall p, f p <= g p) -> sum_from f n pfn <= sum_from g n pfn.
Proof.
  induction n as [|n IH]; intros pfn H; [reflexivity|].
  cbn [sum_from]. specialize (IH (pfn + 1) H). specialize (H pfn). lia.
Qed.

Lemma sum_from_split f a : forall b pfn,
  sum_from f (a + b) pfn = sum_from f a pfn + sum_from f b (pfn + Z.of_nat a).
Proof.
  induction a as [|a IH]; intros b pfn.
  - cbn. now rewrite Z.add_0_r.
  - cbn [Nat.add sum_from]. rewrite IH.
    replace (pfn + 1 + Z.of_nat a) with (pfn + Z.of_nat (S a)) by lia. lia.
Qed.

Lemma sum_from_zero f n : forall pfn,
  (forall p, 0 <= f p) -> sum_from f n pfn = 0 ->
  forall i, (i < n)%nat -> f (pfn + Z.of_nat i) = 0.
Proof.
  induction n as [|n IH]; intros pfn Hf H i Hi; [lia|].
  cbn [sum_from] in H.
  pose proof (Hf pfn).
  pose proof (sum_from_le (fun _ => 0) f n (pfn + 1) Hf) as Hle.
  assert (E0 : sum_from (fun _ => 0) n (pfn + 1) = 0).
  { clear. generalize (pfn + 1). induction n; intros; cbn; [reflexivity|now rewrite IHn]. }
  rewrite E0 in Hle.
  destruct i as [|i].
  - rewrite Z.add_0_r. lia.
  - replace (pfn + Z.of_nat (S i)) with (pfn + 1 + Z.of_nat i) by lia.
    apply IH; [exact Hf|lia|lia].
Qed.

Lemma sum_from_const0 n : forall pfn, sum_from (fun _ => 0) n pfn = 0.
Proof. induction n as [|n IH]; intros pfn; cbn; [reflexivity|now rewrite IH]. Qed.

Lemma sum_from_tail_zero f n pfn :
  (forall p, 0 <= f p) -> f pfn + sum_from f n (pfn + 1) = 0 ->
  sum_from f n (pfn + 1) = 0.
Proof.
  intros Hf H. pose proof (Hf pfn).
  pose proof (sum_from_le (fun _ => 0) f n (pfn + 1) Hf) as Hle.
  rewrite sum_from_const0 in Hle. lia.
Qed.

Lemma b2z_nonneg (P : Z -> bool) : forall p, 0 <= Z.b2z (P p).
Proof. intros p. destruct (P p); cbn; lia. Qed.

Lemma sum_from_const1 n : forall pfn, sum_from (fun _ => 1) n pfn = Z.of_nat n.
Proof.
  induction n as [|n IH]; intros pfn; [reflexivity|].
  cbn [sum_from]. rewrite IH. lia.
Qed.

Lemma sum_pages_add f g zs :
  sum_pages (fun z p => f z p + g z p) zs = sum_pages f zs + sum_pages g zs.
Proof.
  induction zs as [|z zs IH]; [reflexivity|].
  cbn [sum_pages fold_right]. fold (sum_pages (fun z p => f z p + g z p) zs).
  fold (sum_pages f zs). fold (sum_pages g zs). rewrite IH.
  unfold sum_zone. destruct (populated_zone z); [rewrite sum_from_add|]; lia.
Qed.

Lemma sum_pages_ext f g zs :
  (forall z p, f z p = g z p) -> sum_pages f zs = sum_pages g zs.
Proof.
  intros H. induction zs as [|z zs IH]; [reflexivity|].
  cbn [sum_pages fold_right]. fold (sum_pages f zs). fold (sum_pages g zs).
  rewrite IH. f_equal. unfold sum_zone. destruct (populated_zone z); [|reflexivity].
  apply sum_from_ext. intros; apply H.
Qed.

Lemma sum_pages_le f g zs :
  (forall z p, f z p <= g z p) -> sum_pages f zs <= sum_pages g zs.
Proof.
  intros H. induction zs as [|z zs IH]; [reflexivity|].
  cbn [sum_pages fold_right]. fold (sum_pages f zs). fold (sum_pages g zs).
  assert (sum_zone f z <= sum_zone g z); [|lia].
  unfold sum_zone. destruct (populated_zone z); [|reflexivity].
  apply sum_from_le. intros; apply H.
Qed.

Lemma count_pages_le P Q zs :
  (forall z p, P z p = true -> Q z p = true) -> count_pages P zs <= count_pages Q zs.
Proof.
  intros H. apply sum_pages_le. intros z p. specialize (H z p).
  destruct (P z p), (Q z p); cbn; try lia.
Qed.

Lemma count_pages_nonneg P zs : 0 <= count_pages P zs.
Proof.
  transitivity (sum_pages (fun _ _ => 0) zs).
  - induction zs as [|z zs IH]; [reflexivity|].
    cbn [sum_pages fold_right]. fold (sum_pages (fun _ _ => 0) zs).
    unfold sum_zone. destruct (populated_zone z); [rewrite sum_from_const0|]; lia.
  - apply sum_pages_le. intros z p. destruct (P z p); cbn; lia.
Qed.

(** *** What one classification pass counts *)

(** What the loops of [flag_image_pages] read. *)
Definition reads (s : state) :=
  (world s, nosave_map s, nosave_free_map s, pageset2_map s).

Lemma flag_page_reads z pfn s : reads (flag_page z pfn s) = reads s.
Proof.
  unfold flag_page.
  repeat match goal with |- context [if ?c then _ else _] => destruct c end;
    reflexivity.
Qed.

Lemma reads_classes s s0 :
  reads s = reads s0 ->
  page_valid s = page_valid s0 /\ page_free s = page_free s0 /\
  page_excluded s = page_excluded s0 /\ in_free s = in_free s0 /\
  in_nosave s = in_nosave s0 /\ in_pageset2 s = in_pageset2 s0 /\
  in_resave s = in_resave s0 /\ in_pageset1_only s = in_pageset1_only s0.
Proof.
  unfold reads. intros H. injection H as Hw Hn Hf H2.
  unfold in_free, in_nosave, in_resave, in_pageset2, in_pageset1_only,
    page_valid, page_free, page_excluded.
  rewrite Hw, Hn, Hf, H2. repeat split; reflexivity.
Qed.

(** The counters of the pass, as wrapped values of the counts [c]. *)
Definition tallies (s : state) (num_free : Z) (c : Z * Z * Z * Z) : Prop :=
  let '(nosave, set1, set2, free) := c in
  num_nosave s = CInt.wrap nosave /\
  size (pagedir1 s) = CInt.wrap set1 /\
  size (pagedir2 s) = CInt.wrap set2 /\
  num_free = CInt.wrap free.

(** What a page adds to the counters. *)
Definition adds_nosave (s : state) (z : zone) (pfn : Z) : Z :=
  Z.b2z (in_nosave s z pfn).
Definition adds_set1 (s : state) (z : zone) (pfn : Z) : Z :=
  Z.b2z (in_pageset1_only s z pfn) + Z.b2z (in_resave s z pfn).
Definition adds_set2 (s : state) (z : zone) (pfn : Z) : Z :=
  Z.b2z (in_pageset2 s z pfn).
Definition adds_free (s : state) (z : zone) (pfn : Z) : Z :=
  Z.b2z (in_free s z pfn).

Lemma tallies_eq s nf a b c d a' b' c' d' :
  tallies s nf (a, b, c, d) -> a = a' -> b = b' -> c = c' -> d = d' ->
  tallies s nf (a', b', c', d').
Proof. now intros H <- <- <- <-. Qed.

Lemma flag_page_tallies z pfn s nf a b c d :
  page_valid s z pfn = true -> page_free s z pfn = false ->
  tallies s nf (a, b, c, d) ->
  tallies (flag_page z pfn s) nf
    (a + adds_nosave s z pfn, b + adds_set1 s z pfn, c + adds_set2 s z pfn, d).
Proof.
  intros Hv Hf (Ha & Hb & Hc & Hd).
  unfold adds_nosave, adds_set1, adds_set2, in_nosave, in_resave, in_pageset2,
    in_pageset1_only.
  rewrite Hv, Hf. cbn [negb andb].
  unfold flag_page. fold (page_excluded s z pfn).
  unfold tallies.
  destruct (page_excluded s z pfn); cbn [negb andb Z.b2z].
  - cbn [num_nosave pagedir1 pagedir2 set_num_nosave]. unfold CInt.add.
    rewrite Ha, CInt.wrap_add_l, !Z.add_0_r. auto.
  - destruct (pageset2_map s pfn); cbn [negb andb Z.b2z].
    + destruct (PageHighMem K (world s) pfn), (PageResave K (world s) pfn);
        cbn [num_nosave pagedir1 pagedir2 set_pagedir1 set_pagedir2
             set_pageset1_map set_pageset1_copy_map inc_size inc_highmem_size
             set_size size Z.b2z];
        unfold CInt.add; rewrite ?Hb, ?Hc, ?CInt.wrap_add_l, ?Z.add_0_r; auto.
    + destruct (PageHighMem K (world s) pfn);
        cbn [num_nosave pagedir1 pagedir2 set_pagedir1 set_pagedir2
             set_pageset1_map set_pageset1_copy_map inc_size inc_highmem_size
             set_size size Z.b2z];
        unfold CInt.add; rewrite ?Hb, ?Hc, ?CInt.wrap_add_l, ?Z.add_0_r; auto.
Qed.

Lemma free_run_bounds free m : forall p, 0 <= free_run free m p <= Z.of_nat m.
Proof.
  induction m as [|m IH]; intros p; cbn [free_run]; [lia|].
  destruct (free p); [specialize (IH (p + 1))|]; lia.
Qed.

Lemma free_run_all free m : forall p i,
  (i < Z.to_nat (free_run free m p))%nat -> free (p + Z.of_nat i) = true.
Proof.
  induction m as [|m IH]; intros p i Hi; cbn [free_run] in Hi; [cbn in Hi; lia|].
  destruct (free p) eqn:E; [|cbn in Hi; lia].
  destruct i as [|i]; [now rewrite Z.add_0_r|].
  replace (p + Z.of_nat (S i)) with (p + 1 + Z.of_nat i) by lia.
  apply IH. pose proof (free_run_bounds free m (p + 1)). lia.
Qed.

Lemma free_run_zero free m p : free_run free (S m) p = 0 -> free p = false.
Proof.
  cbn [free_run]. destruct (free p); [|reflexivity].
  pose proof (free_run_bounds free m (p + 1)). lia.
Qed.

(** The loop over a zone adds to each counter the pages of its class among
    the pages from [loop] to the end of the zone, provided no page flagged
    free there is an invalid page frame. *)
Lemma flag_zone_pages_tallies s0 z :
  spanned_pages z <= CInt.int_max ->
  forall fuel loop nf s a b c d,
    0 <= loop ->
    (Z.to_nat (spanned_pages z - loop) <= fuel)%nat ->
    reads s = reads s0 ->
    sum_from (fun p => Z.b2z (free_but_invalid s0 z p))
             (Z.to_nat (spanned_pages z - loop)) (zone_start_pfn z + loop) = 0 ->
    tallies s nf (a, b, c, d) ->
    let n := Z.to_nat (spanned_pages z - loop) in
    let p0 := zone_start_pfn z + loop in
    tallies (fst (flag_zone_pages fuel z loop nf s))
            (snd (flag_zone_pages fuel z loop nf s))
            (a + sum_from (adds_nosave s0 z) n p0,
             b + sum_from (adds_set1 s0 z) n p0,
             c + sum_from (adds_set2 s0 z) n p0,
             d + sum_from (adds_free s0 z) n p0)
    /\ reads (fst (flag_zone_pages fuel z loop nf s)) = reads s0.
Proof.
  intros Hspan. induction fuel as [|fuel IH];
    intros loop nf s a b c d Hloop Hfuel Hreads Hbad Htal n p0.
  - replace n with O by lia. cbn [sum_from flag_zone_pages fst snd].
    rewrite !Z.add_0_r. now split.
  - cbn [flag_zone_pages]. destruct (Z.ltb_spec loop (spanned_pages z)) as [Hlt|Hge].
    2:{ replace n with O by lia. cbn [sum_from fst snd]. rewrite !Z.add_0_r. now split. }
    destruct (reads_classes s s0 Hreads) as (Ev & Ef & Ee & Efr & Ens & E2 & Er & E1).
    assert (Hn : n = S (Z.to_nat (spanned_pages z - (loop + 1)))) by lia.
    change (Z.to_nat (spanned_pages z - loop)) with n in Hbad.
    change (zone_start_pfn z + loop) with p0 in Hbad.
    fold p0. fold (page_valid s z p0). rewrite Ev.
    destruct (page_valid s0 z p0) eqn:Hvalid; cbn [negb].
    + (* a valid page *)
      unfold size_of_free_region.
      replace (Z.to_nat (zone_start_pfn z + spanned_pages z - p0)) with n by lia.
      change (nosave_free_map s) with (page_free s z). rewrite Ef.
      pose proof (free_run_bounds (page_free s0 z) n p0) as Hk.
      rewrite CInt.wrap_id by (unfold CInt.in_int, CInt.int_min, CInt.int_max in *; lia).
      destruct (Z.eqb_spec (free_run (page_free s0 z) n p0) 0) as [Hzero|Hrun];
        cbn [negb].
      * (* not free: the page is classified *)
        rewrite Hn in Hzero. apply free_run_zero in Hzero.
        assert (Htal' := flag_page_tallies z p0 s nf a b c d
                           ltac:(now rewrite Ev) ltac:(now rewrite Ef) Htal).
        unfold adds_nosave, adds_set1, adds_set2 in Htal'.
        rewrite Ens, E1, Er, E2 in Htal'.
        rewrite Hn in Hbad. cbn [sum_from] in Hbad.
        assert (Hbad' : sum_from (fun p => Z.b2z (free_but_invalid s0 z p))
                  (Z.to_nat (spanned_pages z - (loop + 1)))
                  (zone_start_pfn z + (loop + 1)) = 0).
        { replace (zone_start_pfn z + (loop + 1)) with (p0 + 1) by lia.
          apply (sum_from_tail_zero _ _ _ (b2z_nonneg _) Hbad). }
        assert (Hfuel' : (Z.to_nat (spanned_pages z - (loop + 1)) <= fuel)%nat) by lia.
        assert (Hreads' : reads (flag_page z p0 s) = reads s0)
          by now rewrite flag_page_reads.
        destruct (IH (loop + 1) nf (flag_page z p0 s) _ _ _ _
                     ltac:(lia) Hfuel' Hreads' Hbad' Htal') as [IHt IHr].
        split; [|exact IHr].
        rewrite Hn. cbn [sum_from].
        replace (zone_start_pfn z + (loop + 1)) with (p0 + 1) in IHt by lia.
        unfold adds_free at 1, in_free. rewrite Hvalid, Hzero. cbn [andb Z.b2z].
        unfold adds_nosave at 1, adds_set1 at 1, adds_set2 at 1.
        apply (tallies_eq _ _ _ _ _ _ _ _ _ _ IHt); lia.
      * (* a run of free pages *)
        set (k := free_run (page_free s0 z) n p0) in *.
        assert (Hsplit : n = (Z.to_nat k + Z.to_nat (spanned_pages z - (loop + k)))%nat) by lia.
        assert (Hfree : forall i, (i < Z.to_nat k)%nat ->
                  page_free s0 z (p0 + Z.of_nat i) = true)
          by (intros i Hi; now apply free_run_all with (m := n)).
        assert (Hval : forall i, (i < n)%nat ->
                  free_but_invalid s0 z (p0 + Z.of_nat i) = false).
        { intros i Hi.
          pose proof (sum_from_zero (fun p => Z.b2z (free_but_invalid s0 z p)) n p0
                        (b2z_nonneg _) Hbad i Hi) as E.
          cbn beta in E. destruct (free_but_invalid s0 z (p0 + Z.of_nat i)); [discriminate|reflexivity]. }
        assert (Hrunv : forall i, (i < Z.to_nat k)%nat ->
                  page_valid s0 z (p0 + Z.of_nat i) = true).
        { intros i Hi. specialize (Hval i ltac:(lia)). specialize (Hfree i Hi).
          unfold free_but_invalid in Hval. rewrite Hfree in Hval.
          destruct (page_valid s0 z (p0 + Z.of_nat i)); [reflexivity|discriminate]. }
        assert (Hbad' : sum_from (fun p => Z.b2z (free_but_invalid s0 z p))
                  (Z.to_nat (spanned_pages z - (loop + k)))
                  (zone_start_pfn z + (loop + k)) = 0).
        { rewrite (sum_from_ext _ (fun _ => 0)); [apply sum_from_const0|].
          intros i Hi.
          replace (zone_start_pfn z + (loop + k) + Z.of_nat i)
            with (p0 + Z.of_nat (Z.to_nat k + i)) by lia.
          rewrite Hval by lia. reflexivity. }
        assert (Htal' : tallies s (CInt.add nf k) (a, b, c, d + k)).
        { destruct Htal as (Ha & Hb & Hc & Hd). repeat split; try assumption.
          unfold CInt.add. now rewrite Hd, CInt.wrap_add_l. }
        replace (loop + (k - 1) + 1) with (loop + k) by lia.
        assert (Hfuel' : (Z.to_nat (spanned_pages z - (loop + k)) <= fuel)%nat) by lia.
        destruct (IH (loop + k) (CInt.add nf k) s _ _ _ _
                     ltac:(lia) Hfuel' Hreads Hbad' Htal') as [IHt IHr].
        split; [|exact IHr].
        rewrite Hsplit, !sum_from_split.
        replace (p0 + Z.of_nat (Z.to_nat k)) with (zone_start_pfn z + (loop + k)) by lia.
        rewrite (sum_from_ext (adds_nosave s0 z) (fun _ => 0) (Z.to_nat k)),
                (sum_from_ext (adds_set1 s0 z) (fun _ => 0) (Z.to_nat k)),
                (sum_from_ext (adds_set2 s0 z) (fun _ => 0) (Z.to_nat k)),
                (sum_from_ext (adds_free s0 z) (fun _ => 1) (Z.to_nat k)).
        -- rewrite !sum_from_const0, sum_from_const1.
           apply (tallies_eq _ _ _ _ _ _ _ _ _ _ IHt); lia.
        -- intros i Hi. unfold adds_free, in_free.
           now rewrite Hrunv, Hfree.
        -- intros i Hi. unfold adds_set2, in_pageset2.
           now rewrite Hrunv, Hfree.
        -- intros i Hi. unfold adds_set1, in_resave, in_pageset2, in_pageset1_only.
           now rewrite Hrunv, Hfree.
        -- intros i Hi. unfold adds_nosave, in_nosave.
           now rewrite Hrunv, Hfree.
    + (* an invalid page frame *)
      rewrite Hn in Hbad. cbn [sum_from] in Hbad.
      assert (Hbad' : sum_from (fun p => Z.b2z (free_but_invalid s0 z p))
                (Z.to_nat (spanned_pages z - (loop + 1)))
                (zone_start_pfn z + (loop + 1)) = 0).
      { replace (zone_start_pfn z + (loop + 1)) with (p0 + 1) by lia.
        apply (sum_from_tail_zero _ _ _ (b2z_nonneg _) Hbad). }
      assert (Hfuel' : (Z.to_nat (spanned_pages z - (loop + 1)) <= fuel)%nat) by lia.
      destruct (IH (loop + 1) nf s _ _ _ _ ltac:(lia) Hfuel' Hreads Hbad' Htal)
        as [IHt IHr].
      split; [|exact IHr].
      rewrite Hn. cbn [sum_from].
      replace (zone_start_pfn z + (loop + 1)) with (p0 + 1) in IHt by lia.
      unfold adds_nosave at 1, adds_set1 at 1, adds_set2 at 1, adds_free at 1,
        in_nosave, in_resave, in_pageset2, in_pageset1_only, in_free.
      rewrite Hvalid. cbn [andb Z.b2z].
      apply (tallies_eq _ _ _ _ _ _ _ _ _ _ IHt); lia.
Qed.

Lemma sum_zone_nonneg f z : (forall z p, 0 <= f z p) -> 0 <= sum_zone f z.
Proof.
  intros Hf. unfold sum_zone. destruct (populated_zone z); [|lia].
  pose proof (sum_from_le (fun _ => 0) (f z) (Z.to_nat (spanned_pages z))
                (zone_start_pfn z) (Hf z)) as H.
  now rewrite sum_from_const0 in H.
Qed.

Lemma sum_pages_nonneg f zs : (forall z p, 0 <= f z p) -> 0 <= sum_pages f zs.
Proof.
  intros Hf. induction zs as [|z zs IH]; [reflexivity|].
  cbn [sum_pages fold_right]. fold (sum_pages f zs).
  pose proof (sum_zone_nonneg f z Hf). lia.
Qed.

Lemma sum_pages_cons f z zs : sum_pages f (z :: zs) = sum_zone f z + sum_pages f zs.
Proof. reflexivity. Qed.

Lemma count_any_zone z :
  populated_zone z = true -> sum_zone (fun _ _ => 1) z = Z.of_nat (Z.to_nat (spanned_pages z)).
Proof. intros H. unfold sum_zone. rewrite H. apply sum_from_const1. Qed.

(** The loops over all zones add to each counter the pages of its class. *)
Lemma flag_zones_tallies s0 zs : forall acc a b c d,
  sum_pages (fun _ _ => 1) zs <= CInt.int_max ->
  reads (fst acc) = reads s0 ->
  count_pages (free_but_invalid s0) zs = 0 ->
  tallies (fst acc) (snd acc) (a, b, c, d) ->
  tallies (fst (fold_left flag_zone zs acc)) (snd (fold_left flag_zone zs acc))
          (a + sum_pages (adds_nosave s0) zs, b + sum_pages (adds_set1 s0) zs,
           c + sum_pages (adds_set2 s0) zs, d + sum_pages (adds_free s0) zs)
  /\ reads (fst (fold_left flag_zone zs acc)) = reads s0.
Proof.
  induction zs as [|z zs IH]; intros acc a b c d Hfit Hreads Hbad Htal.
  - cbn [fold_left sum_pages fold_right]. rewrite !Z.add_0_r. now split.
  - cbn [fold_left]. rewrite !sum_pages_cons. rewrite sum_pages_cons in Hfit.
    unfold count_pages in Hbad. rewrite sum_pages_cons in Hbad.
    pose proof (sum_zone_nonneg (fun _ _ => 1) z ltac:(intros; lia)) as Hz1.
    pose proof (sum_pages_nonneg (fun _ _ => 1) zs ltac:(intros; lia)) as Hzs1.
    pose proof (sum_zone_nonneg (fun z p => Z.b2z (free_but_invalid s0 z p)) z
                  ltac:(intros z' p; apply (b2z_nonneg (free_but_invalid s0 z')))) as Hzb.
    pose proof (sum_pages_nonneg (fun z p => Z.b2z (free_but_invalid s0 z p)) zs
                  ltac:(intros z' p; apply (b2z_nonneg (free_but_invalid s0 z')))) as Hzsb.
    assert (Hstep :
      tallies (fst (flag_zone acc z)) (snd (flag_zone acc z))
              (a + sum_zone (adds_nosave s0) z, b + sum_zone (adds_set1 s0) z,
               c + sum_zone (adds_set2 s0) z, d + sum_zone (adds_free s0) z)
      /\ reads (fst (flag_zone acc z)) = reads s0).
    { unfold flag_zone, sum_zone in *. destruct (populated_zone z) eqn:Hpop; cbn [negb].
      - rewrite sum_from_const1 in Hz1, Hfit.
        assert (Hspan : spanned_pages z <= CInt.int_max) by lia.
        assert (Hbadz : sum_from (fun p => Z.b2z (free_but_invalid s0 z p))
                          (Z.to_nat (spanned_pages z - 0)) (zone_start_pfn z + 0) = 0)
          by (rewrite Z.sub_0_r, Z.add_0_r; lia).
        pose proof (flag_zone_pages_tallies s0 z Hspan (Z.to_nat (spanned_pages z)) 0
                      (snd acc) (fst acc) a b c d ltac:(lia)
                      ltac:(rewrite Z.sub_0_r; lia) Hreads Hbadz Htal) as H.
        cbv zeta in H. rewrite Z.sub_0_r, Z.add_0_r in H. exact H.
      - rewrite !Z.add_0_r. now split. }
    destruct Hstep as [Hstep Hr].
    destruct (IH (flag_zone acc z) _ _ _ _ ltac:(lia) Hr ltac:(unfold count_pages; lia) Hstep)
      as [IHt IHr].
    split; [|exact IHr].
    apply (tallies_eq _ _ _ _ _ _ _ _ _ _ IHt); lia.
Qed.

Lemma generate_free_page_map_reads s :
  world (generate_free_page_map s) = world s /\
  nosave_map (generate_free_page_map s) = nosave_map s /\
  pageset2_map (generate_free_page_map s) = pageset2_map s.
Proof. repeat split. Qed.

(** The pass as a whole: every counter is the number of pages of its class,
    the classes being read off the state in which the free page map has
    just been generated, as long as no page flagged free is an invalid
    page frame and the page space is not too large for an [int]. *)
Lemma flag_image_pages_count_classes s :
  let s0 := generate_free_page_map s in
  let zs := zones K (world s) in
  count_pages (free_but_invalid s0) zs = 0 ->
  count_pages any_page zs <= CInt.int_max ->
  num_nosave (fst (flag_image_pages_count s)) = count_pages (in_nosave s0) zs /\
  size (pagedir1 (fst (flag_image_pages_count s)))
    = count_pages (in_pageset1_only s0) zs + count_pages (in_resave s0) zs /\
  size (pagedir2 (fst (flag_image_pages_count s))) = count_pages (in_pageset2 s0) zs /\
  snd (flag_image_pages_count s) = count_pages (in_free s0) zs.
Proof.
  intros s0 zs Hbad Hfit. unfold flag_image_pages_count.
  set (s6 := set_pageset1_map _ _).
  change (world (generate_free_page_map s6)) with (world s). fold zs.
  assert (Hreads : reads (generate_free_page_map s6) = reads s0) by reflexivity.
  assert (Htal : tallies (generate_free_page_map s6) 0 (0, 0, 0, 0))
    by (repeat split).
  destruct (flag_zones_tallies s0 zs (generate_free_page_map s6, 0) 0 0 0 0
              Hfit Hreads Hbad Htal) as [(Ha & Hb & Hc & Hd) _].
  rewrite Z.add_0_l in Ha, Hb, Hc, Hd.
  assert (Hle : forall P, 0 <= count_pages P zs <= CInt.int_max).
  { intros P. split; [apply count_pages_nonneg|].
    etransitivity; [|exact Hfit]. apply count_pages_le. reflexivity. }
  assert (Hset1 : sum_pages (adds_set1 s0) zs
                  = count_pages (in_pageset1_only s0) zs + count_pages (in_resave s0) zs)
    by apply sum_pages_add.
  assert (Hset1le : sum_pages (adds_set1 s0) zs <= CInt.int_max).
  { etransitivity; [|exact Hfit]. apply sum_pages_le. intros z p.
    unfold adds_set1, in_resave, in_pageset1_only, in_pageset2, any_page.
    destruct (page_valid s0 z p), (page_free s0 z p), (page_excluded s0 z p),
      (pageset2_map s0 p), (PageResave K (world s0) p); cbn; lia. }
  pose proof (Hle (in_pageset1_only s0)). pose proof (Hle (in_resave s0)).
  pose proof (Hle (in_nosave s0)). pose proof (Hle (in_pageset2 s0)).
  pose proof (Hle (in_free s0)).
  rewrite Ha, Hb, Hc, Hd, Hset1 in *.
  unfold adds_nosave, adds_set2, adds_free. fold (count_pages (in_nosave s0) zs).
  fold (count_pages (in_pageset2 s0) zs). fold (count_pages (in_free s0) zs).
  rewrite !CInt.wrap_id
    by (unfold CInt.in_int, CInt.int_min, CInt.int_max in *; lia).
  repeat split.
Qed.

(** When every page frame of the page space is valid and none is flagged
    free, only the exclusions and the pageset 2 marks decide the class. *)
Lemma count_all_valid_nonfree s0 zs (P : zone -> Z -> bool) :
  count_pages (page_valid s0) zs = count_pages any_page zs ->
  count_pages (page_free s0) zs = 0 ->
  count_pages (fun z p => page_valid s0 z p && negb (page_free s0 z p) && P z p) zs
  = count_pages P zs.
Proof.
  intros Hvalid Hfree.
  set (G := fun z p => page_valid s0 z p && negb (page_free s0 z p)).
  assert (Hsplit : count_pages P zs
                   = count_pages (fun z p => G z p && P z p) zs
                     + count_pages (fun z p => negb (G z p) && P z p) zs).
  { unfold count_pages. rewrite <- sum_pages_add. apply sum_pages_ext.
    intros z p. destruct (G z p), (P z p); reflexivity. }
  assert (Hinv : count_pages any_page zs
                 = count_pages (page_valid s0) zs
                   + count_pages (fun z p => negb (page_valid s0 z p)) zs).
  { unfold count_pages. rewrite <- sum_pages_add. apply sum_pages_ext.
    intros z p. unfold any_page. destruct (page_valid s0 z p); reflexivity. }
  assert (Hrest : count_pages (fun z p => negb (G z p) && P z p) zs
                  <= count_pages (fun z p => negb (page_valid s0 z p)) zs
                     + count_pages (page_free s0) zs).
  { unfold count_pages. rewrite <- sum_pages_add. apply sum_pages_le.
    intros z p. unfold G.
    destruct (page_valid s0 z p), (page_free s0 z p), (P z p); cbn; lia. }
  pose proof (count_pages_nonneg (fun z p => negb (G z p) && P z p) zs).
  change (count_pages (fun z p => G z p && P z p) zs = count_pages P zs).
  lia.
Qed.

(** The sizes of the pagesets after a pass over a page space whose page
    frames are all valid and none of them free. *)
Lemma classification_sizes s :
  let s0 := generate_free_page_map s in
  let zs := zones K (world s) in
  count_pages any_page zs <= CInt.int_max ->
  count_pages (page_valid s0) zs = count_pages any_page zs ->
  count_pages (page_free s0) zs = 0 ->
  size (pagedir1 (fst (flag_image_pages_count s)))
    = count_pages any_page zs
      - count_pages (page_excluded s0) zs
      - count_pages (fun z p => negb (page_excluded s0 z p) && pageset2_map s0 p) zs
      + count_pages (fun z p => negb (page_excluded s0 z p) && pageset2_map s0 p
                                && PageResave K (world s0) p) zs /\
  size (pagedir2 (fst (flag_image_pages_count s)))
    = count_pages (fun z p => negb (page_excluded s0 z p) && pageset2_map s0 p) zs.
Proof.
  intros s0 zs Hfit Hvalid Hfree.
  assert (Hbad : count_pages (free_but_invalid s0) zs = 0).
  { pose proof (count_pages_nonneg (free_but_invalid s0) zs).
    pose proof (count_pages_le (free_but_invalid s0) (page_free s0) zs) as Hle.
    assert (count_pages (free_but_invalid s0) zs <= count_pages (page_free s0) zs); [|lia].
    apply Hle. intros z p. unfold free_but_invalid.
    destruct (page_free s0 z p); [reflexivity|discriminate]. }
  destruct (flag_image_pages_count_classes s Hbad Hfit) as (_ & H1 & H2 & _).
  fold s0 in H1, H2. fold zs in H1, H2. rewrite H1, H2.
  pose proof (count_all_valid_nonfree s0 zs
                (fun z p => negb (page_excluded s0 z p) && pageset2_map s0 p)
                Hvalid Hfree) as E2.
  pose proof (count_all_valid_nonfree s0 zs
                (fun z p => negb (page_excluded s0 z p) && pageset2_map s0 p
                            && PageResave K (world s0) p)
                Hvalid Hfree) as Er.
  pose proof (count_all_valid_nonfree s0 zs
                (fun z p => negb (page_excluded s0 z p) && negb (pageset2_map s0 p))
                Hvalid Hfree) as E1.
  assert (Hparts : count_pages any_page zs
                   = count_pages (page_excluded s0) zs
                     + count_pages (fun z p => negb (page_excluded s0 z p) && pageset2_map s0 p) zs
                     + count_pages (fun z p => negb (page_excluded s0 z p)
                                               && negb (pageset2_map s0 p)) zs).
  { unfold count_pages. rewrite <- !sum_pages_add. apply sum_pages_ext.
    intros z p. unfold any_page.
    destruct (page_excluded s0 z p), (pageset2_map s0 p); reflexivity. }
  assert (F2 : count_pages (in_pageset2 s0) zs
               = count_pages (fun z p => page_valid s0 z p && negb (page_free s0 z p)
                    && (negb (page_excluded s0 z p) && pageset2_map s0 p)) zs).
  { apply sum_pages_ext. intros z p. unfold in_pageset2.
    now rewrite <- !andb_assoc. }
  assert (Fr : count_pages (in_resave s0) zs
               = count_pages (fun z p => page_valid s0 z p && negb (page_free s0 z p)
                    && (negb (page_excluded s0 z p) && pageset2_map s0 p
                        && PageResave K (world s0) p)) zs).
  { apply sum_pages_ext. intros z p. unfold in_resave, in_pageset2.
    now rewrite <- !andb_assoc. }
  assert (F1 : count_pages (in_pageset1_only s0) zs
               = count_pages (fun z p => page_valid s0 z p && negb (page_free s0 z p)
                    && (negb (page_excluded s0 z p) && negb (pageset2_map s0 p))) zs).
  { apply sum_pages_ext. intros z p. unfold in_pageset1_only.
    now rewrite <- !andb_assoc. }
  rewrite F2, Fr, F1, E2, Er, E1. split; lia.
Qed.

(** C4.  The resave scenario: on a page space of 1000 page frames, all of
    them valid and none free, of which 50 are excluded, 300 are marked for
    pageset 2, 10 of these being flagged for resaving, one classification
    pass gives [pagedir1.size = 660] and [pagedir2.size = 300]. *)
Theorem resave_scenario (s : state) (atomic_copy : bool) :
  let s0 := generate_free_page_map s in
  let zs := zones K (world s) in
  count_pages any_page zs = 1000 ->
  count_pages (page_valid s0) zs = 1000 ->
  count_pages (page_free s0) zs = 0 ->
  count_pages (page_excluded s0) zs = 50 ->
  count_pages (fun z p => negb (page_excluded s0 z p) && pageset2_map s0 p) zs = 300 ->
  count_pages (fun z p => negb (page_excluded s0 z p) && pageset2_map s0 p
                          && PageResave K (world s0) p) zs = 10 ->
  size (pagedir1 (flag_image_pages atomic_copy s)) = 660 /\
  size (pagedir2 (flag_image_pages atomic_copy s)) = 300.
Proof.
  intros s0 zs Hall Hvalid Hfree Hexcl Hps2 Hres.
  destruct (classification_sizes s) as [H1 H2].
  - fold zs. rewrite Hall. unfold CInt.int_max. lia.
  - fold s0. fold zs. lia.
  - exact Hfree.
  - fold s0 in H1, H2. fold zs in H1, H2.
    rewrite Hall, Hexcl, Hps2, Hres in H1. rewrite Hps2 in H2.
    unfold flag_image_pages.
    destruct (flag_image_pages_count s) as [s1 nf]. cbn [fst] in H1, H2.
    destruct atomic_copy; cbn [emit set_log pagedir1 pagedir2]; split; lia.
Qed.

(** C3, as the code has it.  After one classification pass over a page
    space in which the pages flagged free are valid page frames and which
    an [int] can count: [num_nosave], [pagedir2.size] and the free count
    are the numbers of excluded, pageset 2 and free pages; [pagedir1.size]
    is the number of pages that are neither, plus the number of pageset 2
    pages flagged for resaving, which are counted in both pagesets; every
    valid page frame is free, excluded, in pageset 2 or in none of these,
    and in one only; and the four counters add up to the number of valid
    page frames plus the number of resaved pageset 2 pages. *)
Theorem classification_partition (s : state) :
  let s0 := generate_free_page_map s in
  let zs := zones K (world s) in
  let s1 := fst (flag_image_pages_count s) in
  let num_free := snd (flag_image_pages_count s) in
  count_pages (free_but_invalid s0) zs = 0 ->
  count_pages any_page zs <= CInt.int_max ->
  (forall z p, page_valid s0 z p = true ->
     Z.b2z (in_free s0 z p) + Z.b2z (in_nosave s0 z p)
     + Z.b2z (in_pageset2 s0 z p) + Z.b2z (in_pageset1_only s0 z p) = 1) /\
  (forall z p, in_resave s0 z p = true -> in_pageset2 s0 z p = true) /\
  num_nosave s1 = count_pages (in_nosave s0) zs /\
  size (pagedir2 s1) = count_pages (in_pageset2 s0) zs /\
  size (pagedir1 s1)
    = count_pages (in_pageset1_only s0) zs + count_pages (in_resave s0) zs /\
  num_free = count_pages (in_free s0) zs /\
  size (pagedir1 s1) + size (pagedir2 s1) + num_nosave s1 + num_free
    = count_pages (page_valid s0) zs + count_pages (in_resave s0) zs.
Proof.
  intros s0 zs s1 num_free Hbad Hfit.
  destruct (flag_image_pages_count_classes s Hbad Hfit) as (Hn & H1 & H2 & Hf).
  fold s0 in Hn, H1, H2, Hf. fold zs in Hn, H1, H2, Hf.
  fold s1 in Hn, H1, H2. fold num_free in Hf.
  assert (Hparts : count_pages (page_valid s0) zs
                   = count_pages (in_free s0) zs + count_pages (in_nosave s0) zs
                     + count_pages (in_pageset2 s0) zs
                     + count_pages (in_pageset1_only s0) zs).
  { unfold count_pages. rewrite <- !sum_pages_add. apply sum_pages_ext.
    intros z p. unfold in_free, in_nosave, in_pageset2, in_pageset1_only.
    destruct (page_valid s0 z p), (page_free s0 z p), (page_excluded s0 z p),
      (pageset2_map s0 p); reflexivity. }
  repeat split; try assumption; try lia.
  - intros z p Hv. unfold in_free, in_nosave, in_pageset2, in_pageset1_only.
    rewrite Hv.
    destruct (page_free s0 z p), (page_excluded s0 z p), (pageset2_map s0 p);
      reflexivity.
  - intros z p. unfold in_resave. intros H. now apply andb_true_iff in H.
Qed.

(** *** The derived quantities, as the design states them *)

(** The least integer [c] with [n <= 2 * c]: the ceiling of [n / 2]. *)
Definition ceil_half (n : Z) : Z := (n + 1) / 2.

Lemma ceil_half_spec n : n <= 2 * ceil_half n < n + 2.
Proof. unfold ceil_half. Z.to_euclidean_division_equations. lia. Qed.

Definition low (p : pagedir) : Z := size p - highmem_size p.

Definition stated_highpages_to_free (s : state) : Z :=
  Z.max 0
    (ceil_half (highmem_size (pagedir1 s) - highmem_size (pagedir2 s))
     - real_nr_free_high_pages s).

Definition stated_lowpages_to_free (s : state) : Z :=
  Z.max 0
    (ceil_half
       (low (pagedir1 s) + extra_pd1_pages_allowance s + MIN_FREE_RAM C
        + suspend_memory_for_modules K (world s)
        - low (pagedir2 s) - real_nr_free_low_pages s - extra_pages_allocated s)).

(** The storage the image is expected to take: both pagesets, with the
    expected compression ratio, a percentage, applied. *)
Definition projected_storage_need (s : state) : Z :=
  Z.quot ((size (pagedir1 s) + size (pagedir2 s))
          * suspend_expected_compression_ratio K (world s)) 100.

Definition stated_storage_shortfall (s : state) : Z :=
  Z.max 0 (projected_storage_need s - storage_available s).

(** The cap is in megabytes: 256 pages each. *)
Definition stated_user_limit_shortfall (use_limit : bool) (s : state) : Z :=
  if use_limit && (0 <? image_size_limit s)
  then Z.max 0 (size (pagedir1 s) + size (pagedir2 s) + header_space_allocated s
                - image_size_limit s * 256)
  else 0.

Definition stated_amount_needed (use_limit : bool) (s : state) : Z :=
  Z.max (stated_highpages_to_free s + stated_lowpages_to_free s)
        (Z.max (stated_storage_shortfall s) (stated_user_limit_shortfall use_limit s)).

(** Page counts that a machine of up to 2^23 pages can show, a compression
    ratio that is a percentage, and a cap below 2^22 megabytes. *)
Record counts_in_range (s : state) : Prop := mk_in_range {
  range_high1 : 0 <= highmem_size (pagedir1 s) <= size (pagedir1 s);
  range_size1 : size (pagedir1 s) <= 2 ^ 23;
  range_high2 : 0 <= highmem_size (pagedir2 s) <= size (pagedir2 s);
  range_size2 : size (pagedir2 s) <= 2 ^ 23;
  range_allowance : 0 <= extra_pd1_pages_allowance s <= 2 ^ 23;
  range_min_free : 0 <= MIN_FREE_RAM C <= 2 ^ 23;
  range_modules : 0 <= suspend_memory_for_modules K (world s) <= 2 ^ 23;
  range_free_high : 0 <= real_nr_free_high_pages s <= 2 ^ 23;
  range_free_low : 0 <= real_nr_free_low_pages s <= 2 ^ 23;
  range_extra : 0 <= extra_pages_allocated s <= 2 ^ 23;
  range_header : 0 <= header_space_allocated s <= 2 ^ 23;
  range_storage : 0 <= storage_available s <= CInt.int_max;
  range_ratio : 0 <= suspend_expected_compression_ratio K (world s) <= 100;
  range_limit : CInt.int_min <= image_size_limit s < 2 ^ 22
}.

Ltac unwrap :=
  repeat match goal with
    | |- context [CInt.wrap ?x] =>
        rewrite (CInt.wrap_id x)
          by (unfold CInt.in_int, CInt.int_min, CInt.int_max in *;
              Z.to_euclidean_division_equations; nia)
    end.

Lemma highpages_ps1_to_free_stated s :
  counts_in_range s -> highpages_ps1_to_free s = stated_highpages_to_free s.
Proof.
  intros []. unfold highpages_ps1_to_free, stated_highpages_to_free,
    get_highmem_size, CInt.DIV_ROUND_UP, CInt.div, CInt.sub, CInt.add, ceil_half.
  rewrite CInt.max_spec. unwrap.
  Z.to_euclidean_division_equations. lia.
Qed.

Lemma lowpages_ps1_to_free_stated s :
  counts_in_range s -> lowpages_ps1_to_free s = stated_lowpages_to_free s.
Proof.
  intros []. unfold lowpages_ps1_to_free, stated_lowpages_to_free,
    get_lowmem_size, low, CInt.DIV_ROUND_UP, CInt.div, CInt.sub, CInt.add, ceil_half.
  rewrite CInt.max_spec. unwrap.
  Z.to_euclidean_division_equations. lia.
Qed.

Lemma main_storage_needed_projected s :
  counts_in_range s -> main_storage_needed true true s = projected_storage_need s.
Proof.
  intros []. unfold main_storage_needed, projected_storage_need,
    CInt.div, CInt.mul, CInt.add.
  rewrite Z.add_0_r. unwrap. reflexivity.
Qed.

Lemma projected_storage_need_range s :
  counts_in_range s -> 0 <= projected_storage_need s <= 2 ^ 24.
Proof.
  intros []. unfold projected_storage_need.
  Z.to_euclidean_division_equations. nia.
Qed.

Lemma any_to_free_stated use_limit s :
  counts_in_range s ->
  any_to_free use_limit s
  = Z.max (stated_storage_shortfall s) (stated_user_limit_shortfall use_limit s).
Proof.
  intros Hr. unfold any_to_free.
  rewrite (main_storage_needed_projected s Hr).
  pose proof (projected_storage_need_range s Hr) as Hp.
  destruct Hr.
  unfold stated_storage_shortfall, stated_user_limit_shortfall, current_image_size,
    CInt.shl, CInt.sub, CInt.add.
  rewrite Z.shiftl_mul_pow2 by lia. change (2 ^ 8) with 256.
  rewrite !CInt.max_spec, Z.gtb_ltb.
  destruct (use_limit && (0 <? image_size_limit s)) eqn:E.
  - apply andb_true_iff in E as [_ E]. apply Z.ltb_lt in E.
    unwrap. lia.
  - unwrap. lia.
Qed.

(** C6.  The derived quantities: over the range of plausible counts,
    [amount_needed] is the larger of the pages to free for the atomic copy,
    high plus low, and of the larger of the storage shortfall and the
    shortfall against the user's cap; the pages to free of either class are
    the stated halves, rounded up and not below zero; the storage
    shortfall is what the projected storage need exceeds the storage
    available by; and the shortfall against the cap counts only when the
    limit is used and the cap, taken in megabytes, is positive. *)
Theorem amount_needed_formulas (use_limit : bool) (s : state) :
  counts_in_range s ->
  highpages_ps1_to_free s = stated_highpages_to_free s /\
  lowpages_ps1_to_free s = stated_lowpages_to_free s /\
  any_to_free use_limit s
    = Z.max (stated_storage_shortfall s) (stated_user_limit_shortfall use_limit s) /\
  amount_needed use_limit s = stated_amount_needed use_limit s.
Proof.
  intros Hr.
  pose proof (highpages_ps1_to_free_stated s Hr) as Hh.
  pose proof (lowpages_ps1_to_free_stated s Hr) as Hl.
  pose proof (any_to_free_stated use_limit s Hr) as Ha.
  repeat split; try assumption.
  unfold amount_needed, stated_amount_needed.
  rewrite Hh, Hl, Ha, CInt.max_spec. f_equal.
  unfold CInt.add. apply CInt.wrap_id.
  pose proof (ceil_half_spec (highmem_size (pagedir1 s) - highmem_size (pagedir2 s))).
  pose proof (ceil_half_spec
                (low (pagedir1 s) + extra_pd1_pages_allowance s + MIN_FREE_RAM C
                 + suspend_memory_for_modules K (world s)
                 - low (pagedir2 s) - real_nr_free_low_pages s - extra_pages_allocated s)).
  destruct Hr. unfold stated_highpages_to_free, stated_lowpages_to_free, low in *.
  unfold CInt.in_int, CInt.int_min, CInt.int_max. lia.
Qed.

(** *** The events of the image preparation *)

(** [s'] has the log of [s] with events added that all satisfy [P]. *)
Definition log_adds (P : event -> bool) (s s' : state) : Prop :=
  exists l, log s' = l ++ log s /\ Forall (fun e => P e = true) l.

Lemma log_adds_same P s s' : log s' = log s -> log_adds P s s'.
Proof. intros H. exists []. split; [exact H|constructor]. Qed.

Lemma log_adds_trans P s1 s2 s3 :
  log_adds P s1 s2 -> log_adds P s2 s3 -> log_adds P s1 s3.
Proof.
  intros (l1 & E1 & F1) (l2 & E2 & F2). exists (l2 ++ l1). split.
  - now rewrite E2, E1, app_assoc.
  - apply Forall_app. now split.
Qed.

Lemma log_adds_emit P e s s' :
  P e = true -> log_adds P s s' -> log_adds P s (emit e s').
Proof.
  intros He (l & E & F). exists (e :: l). split.
  - cbn. now rewrite E.
  - now constructor.
Qed.

Lemma log_adds_weaken (P Q : event -> bool) s s' :
  (forall e, P e = true -> Q e = true) -> log_adds P s s' -> log_adds Q s s'.
Proof.
  intros H (l & E & F). exists l. split; [exact E|].
  eapply Forall_impl; [|exact F]. exact H.
Qed.

(** The events of a recalculation of the image contents. *)
Definition measuring (e : event) : bool :=
  match e with
  | Message_count_data_pages _ _ _ _ | Printk_attention_list
  | Display_stats false => true
  | _ => false
  end.

(** The events inside a turn of the loop of [suspend_prepare_image]. *)
Definition within_try (e : event) : bool :=
  match e with
  | Status_preparing_image _ | Call_unlink_lru_lists | Display_stats true
  | Abort_message _ => false
  | _ => true
  end.

Lemma measuring_within_try e : measuring e = true -> within_try e = true.
Proof. destruct e as [| | | | | |[]| | | | | | | | |]; cbn; congruence. Qed.

Lemma mark_task_log t b s : log (suspend_mark_task_as_pageset t b s) = log s.
Proof.
  unfold suspend_mark_task_as_pageset. apply (fold_left_keeps log).
  intros a vma. unfold mark_vma.
  destruct (vm_special vma); [reflexivity|].
  destruct (vm_start vma =? 0); [reflexivity|].
  apply (fold_left_keeps log). intros a' page. now destruct b.
Qed.

Lemma pageset2_full_log s : log (pageset2_full s) = log s.
Proof.
  unfold pageset2_full. apply (fold_left_keeps log). intros a z.
  destruct (negb (nr_inactive K (world a) z =? 0));
    destruct (negb (nr_active K (world a) z =? 0)); reflexivity.
Qed.

Lemma free_attention_list_log entries : forall s,
  log (free_attention_list entries s) = log s.
Proof.
  induction entries as [|e rest IH]; intros s; [reflexivity|].
  cbn [free_attention_list]. rewrite IH. unfold call. cbn [log set_world].
  destruct (negb (test_result_state SUSPEND_ABORTED s)); [|reflexivity].
  destruct e; [apply mark_task_log|reflexivity].
Qed.

Lemma allocate_attention_list_log count : forall got s,
  log_adds measuring s (fst (fst (allocate_attention_list count got s))).
Proof.
  induction count as [|k IH]; intros got s; [now apply log_adds_same|].
  cbn [allocate_attention_list]. destruct (kmalloc K (world s)) as [ok w].
  destruct ok.
  - eapply log_adds_trans; [|apply IH]. now apply log_adds_same.
  - cbn [fst]. exists [Printk_attention_list]. split; [reflexivity|].
    repeat constructor.
Qed.

Lemma mark_pages_for_pageset2_log s :
  log_adds measuring s (suspend_mark_pages_for_pageset2 s).
Proof.
  unfold suspend_mark_pages_for_pageset2.
  destruct (test_action_state SUSPEND_NO_PAGESET2 s); [now apply log_adds_same|].
  set (s2 := if test_action_state SUSPEND_PAGESET2_FULL _ then _ else _).
  assert (H2 : log s2 = log s).
  { unfold s2. destruct (test_action_state SUSPEND_PAGESET2_FULL _).
    - now rewrite pageset2_full_log.
    - rewrite (fold_left_keeps log); [reflexivity|].
      intros a p. destruct (negb (task_has_mm p) || task_borrowed_mm p);
        [reflexivity|apply mark_task_log]. }
  pose proof (allocate_attention_list_log
                (length (filter needs_attention (processes K (world s2)))) 0 s2) as H3.
  destruct (allocate_attention_list _ 0 s2) as [[s3 ok] got]. cbn [fst] in H3.
  apply log_adds_trans with (s2 := s2); [now apply log_adds_same|].
  apply log_adds_trans with (s2 := s3); [exact H3|].
  apply log_adds_same. destruct ok; apply free_attention_list_log.
Qed.

Lemma flag_image_pages_log a s : log_adds measuring s (flag_image_pages a s).
Proof.
  unfold flag_image_pages.
  pose proof (flag_image_pages_count_unflagged s) as H.
  destruct (flag_image_pages_count s) as [s1 nf]. cbn [fst] in H.
  assert (Hl : log s1 = log s) by (unfold unflagged in H; congruence).
  destruct a; [now apply log_adds_same|].
  apply log_adds_emit; [reflexivity|now apply log_adds_same].
Qed.

Lemma recalculate_log a s :
  log_adds measuring s (suspend_recalculate_image_contents a s).
Proof.
  unfold suspend_recalculate_image_contents. destruct a; cbn [negb].
  - eapply log_adds_trans; [|apply flag_image_pages_log]. now apply log_adds_same.
  - unfold display_stats. apply log_adds_emit; [reflexivity|].
    eapply log_adds_trans; [|apply log_adds_same; reflexivity].
    eapply log_adds_trans; [|apply flag_image_pages_log].
    eapply log_adds_trans; [|apply mark_pages_for_pageset2_log].
    now apply log_adds_same.
Qed.

Lemma mark_task_untouched t b s :
  untouched (suspend_mark_task_as_pageset t b s) = untouched s.
Proof.
  unfold suspend_mark_task_as_pageset. apply (fold_left_keeps untouched).
  intros a vma. unfold mark_vma.
  destruct (vm_special vma); [reflexivity|].
  destruct (vm_start vma =? 0); [reflexivity|].
  apply (fold_left_keeps untouched). intros a' page. now destruct b.
Qed.

Lemma free_attention_list_untouched entries : forall s,
  untouched (free_attention_list entries s) = untouched s.
Proof.
  induction entries as [|e rest IH]; intros s; [reflexivity|].
  cbn [free_attention_list]. rewrite IH.
  change (untouched (call (kfree K) ?x)) with (untouched x).
  destruct (negb (test_result_state SUSPEND_ABORTED s)); [|reflexivity].
  destruct e; [apply mark_task_untouched|reflexivity].
Qed.

Lemma allocate_attention_list_untouched count : forall got s,
  untouched (fst (fst (allocate_attention_list count got s))) = untouched s.
Proof.
  induction count as [|k IH]; intros got s; [reflexivity|].
  cbn [allocate_attention_list]. destruct (kmalloc K (world s)) as [ok w].
  destruct ok; [now rewrite IH|reflexivity].
Qed.

Lemma mark_pages_for_pageset2_untouched s :
  untouched (suspend_mark_pages_for_pageset2 s) = untouched s.
Proof.
  unfold suspend_mark_pages_for_pageset2.
  destruct (test_action_state SUSPEND_NO_PAGESET2 s); [reflexivity|].
  set (s2 := if test_action_state SUSPEND_PAGESET2_FULL _ then _ else _).
  assert (H2 : untouched s2 = untouched s).
  { unfold s2. destruct (test_action_state SUSPEND_PAGESET2_FULL _).
    - unfold pageset2_full. rewrite (fold_left_keeps untouched); [reflexivity|].
      intros a z.
      destruct (negb (nr_inactive K (world a) z =? 0));
        destruct (negb (nr_active K (world a) z =? 0)); reflexivity.
    - rewrite (fold_left_keeps untouched); [reflexivity|].
      intros a p. destruct (negb (task_has_mm p) || task_borrowed_mm p);
        [reflexivity|apply mark_task_untouched]. }
  pose proof (allocate_attention_list_untouched
                (length (filter needs_attention (processes K (world s2)))) 0 s2) as H3.
  destruct (allocate_attention_list _ 0 s2) as [[s3 ok] got]. cbn [fst] in H3.
  destruct ok; rewrite free_attention_list_untouched, H3; exact H2.
Qed.

Lemma recalculate_untouched a s :
  untouched (suspend_recalculate_image_contents a s) = untouched s.
Proof.
  destruct a; [apply recalculate_atomic_untouched|].
  unfold suspend_recalculate_image_contents. cbn [negb]. unfold display_stats.
  change (untouched (emit ?e (set_storage_available ?v ?x))) with (untouched x).
  now rewrite flag_image_pages_untouched, mark_pages_for_pageset2_untouched.
Qed.

Lemma recalculate_image_size_limit a s :
  image_size_limit (suspend_recalculate_image_contents a s) = image_size_limit s.
Proof.
  pose proof (recalculate_untouched a s) as H. unfold untouched in H. congruence.
Qed.

Lemma extra_pagedir_loop_log fuel : forall order n s,
  log (snd (extra_pagedir_loop fuel order n s)) = log s.
Proof.
  induction fuel as [|fuel IH]; intros order n s; [reflexivity|].
  cbn [extra_pagedir_loop]. destruct (n =? 0); [reflexivity|].
  destruct (kmalloc K (world s)) as [entry w1]. destruct entry; cbn [negb];
    [|reflexivity].
  destruct (get_pages_lowering _ _ _) as [[virt order2] w2].
  destruct virt; [|reflexivity]. now rewrite IH.
Qed.

Lemma allocate_extra_pagedir_memory_log n s :
  log (snd (suspend_allocate_extra_pagedir_memory n s)) = log s.
Proof.
  unfold suspend_allocate_extra_pagedir_memory.
  destruct (_ <? 1); [reflexivity|apply extra_pagedir_loop_log].
Qed.

(** *** The turns of [suspend_allocate_extra_pagedir_memory]

    The loops of the function are given as many turns as they can take:
    more turns change nothing. *)

Lemma shl_order order : 0 <= order <= 30 -> CInt.shl 1 order = 2 ^ order.
Proof.
  intros H. unfold CInt.shl. rewrite Z.shiftl_1_l. apply CInt.wrap_id.
  unfold CInt.in_int, CInt.int_min, CInt.int_max.
  pose proof (Z.pow_le_mono_r 2 order 30 ltac:(lia) ltac:(lia)).
  pose proof (Z.pow_pos_nonneg 2 order ltac:(lia) ltac:(lia)).
  change (2 ^ 30) with 1073741824 in *. lia.
Qed.

Lemma order_down order : 1 <= order <= 30 -> CInt.sub order 1 = order - 1.
Proof.
  intros H. unfold CInt.sub. apply CInt.wrap_id.
  unfold CInt.in_int, CInt.int_min, CInt.int_max. lia.
Qed.

Lemma lower_order_turns f1 : forall f2 order n,
  0 <= order <= 30 -> 1 <= n ->
  (Z.to_nat order <= f1)%nat -> (Z.to_nat order <= f2)%nat ->
  lower_order f1 order n = lower_order f2 order n /\
  0 <= lower_order f1 order n <= order /\
  2 ^ lower_order f1 order n <= n.
Proof.
  assert (Hzero : forall f n, 1 <= n -> lower_order f 0 n = 0).
  { intros [|f] n Hn; [reflexivity|]. cbn [lower_order].
    rewrite shl_order by lia. change (2 ^ 0) with 1.
    destruct (Z.gtb_spec 1 n); [lia|reflexivity]. }
  induction f1 as [|f1 IH]; intros f2 order n Ho Hn H1 H2.
  - assert (order = 0) by lia. subst order.
    rewrite !Hzero by exact Hn. change (2 ^ 0) with 1. lia.
  - destruct f2 as [|f2].
    + assert (order = 0) by lia. subst order.
      rewrite !Hzero by exact Hn. change (2 ^ 0) with 1. lia.
    + cbn [lower_order]. rewrite shl_order by exact Ho.
      destruct (Z.gtb_spec (2 ^ order) n) as [Hgt|Hle].
      * assert (order <> 0) by (intros ->; change (2 ^ 0) with 1 in Hgt; lia).
        rewrite order_down by lia.
        destruct (IH f2 (order - 1) n) as (E & Hr & Hp); [lia|lia|lia|lia|].
        split; [exact E|]. split; [lia|exact Hp].
      * split; [reflexivity|]. split; [lia|exact Hle].
Qed.

Lemma get_pages_lowering_turns f1 : forall f2 order w,
  0 <= order <= 30 ->
  (Z.to_nat order <= f1)%nat -> (Z.to_nat order <= f2)%nat ->
  get_pages_lowering f1 order w = get_pages_lowering f2 order w /\
  0 <= snd (fst (get_pages_lowering f1 order w)) <= order.
Proof.
  assert (Hzero : forall f w,
            get_pages_lowering f 0 w
            = (fst (get_free_pages K 0 w), 0, snd (get_free_pages K 0 w))).
  { intros [|f] w; cbn [get_pages_lowering];
      destruct (get_free_pages K 0 w) as [[v|] w1]; reflexivity. }
  induction f1 as [|f1 IH]; intros f2 order w Ho H1 H2.
  - assert (order = 0) by lia. subst order. rewrite !Hzero. cbn [fst snd].
      split; [reflexivity|lia].
  - destruct f2 as [|f2].
    + assert (order = 0) by lia. subst order. rewrite !Hzero. cbn [fst snd].
      split; [reflexivity|lia].
    + cbn [get_pages_lowering].
      destruct (get_free_pages K order w) as [[v|] w1];
        [cbn [fst snd]; split; [reflexivity|lia]|].
      destruct (Z.eqb_spec order 0) as [->|Hne]; cbn [negb];
        [cbn [fst snd]; split; [reflexivity|lia]|].
      rewrite order_down by lia.
      destruct (IH f2 (order - 1) w1) as [E Hr]; [lia|lia|lia|].
      split; [exact E|lia].
Qed.

Lemma extra_pagedir_loop_turns f1 : forall f2 order n s,
  0 <= order <= 30 -> 0 <= n <= CInt.int_max ->
  (Z.to_nat n <= f1)%nat -> (Z.to_nat n <= f2)%nat ->
  extra_pagedir_loop f1 order n s = extra_pagedir_loop f2 order n s.
Proof.
  assert (Hzero : forall f order s,
            extra_pagedir_loop f order 0 s = (extra_pages_allocated s, s)).
  { intros [|f] order s; reflexivity. }
  induction f1 as [|f1 IH]; intros f2 order n s Ho Hn H1 H2.
  - assert (n = 0) by lia. subst n. now rewrite !Hzero.
  - destruct f2 as [|f2].
    + assert (n = 0) by lia. subst n. now rewrite !Hzero.
    + cbn [extra_pagedir_loop].
      destruct (Z.eqb_spec n 0) as [->|Hne]; [reflexivity|].
      destruct (lower_order_turns (Z.to_nat order) (Z.to_nat order) order n)
        as (_ & Hr1 & Hp1); [exact Ho|lia|lia|lia|].
      set (order1 := lower_order (Z.to_nat order) order n) in *.
      destruct (kmalloc K (world s)) as [entry w1]. destruct entry; cbn [negb];
        [|reflexivity].
      destruct (get_pages_lowering_turns (Z.to_nat order1) (Z.to_nat order1) order1
                  (world (set_world w1 s))) as [_ Hr2]; [lia|lia|lia|].
      destruct (get_pages_lowering _ order1 _) as [[virt order2] w2].
      cbn [fst snd] in Hr2.
      destruct virt as [newpage|]; [|reflexivity].
      rewrite shl_order by lia.
      pose proof (Z.pow_le_mono_r 2 order2 order1 ltac:(lia) ltac:(lia)) as Hp2.
      pose proof (Z.pow_pos_nonneg 2 order2 ltac:(lia) ltac:(lia)) as Hp3.
      assert (Hsub : CInt.sub n (2 ^ order2) = n - 2 ^ order2).
      { unfold CInt.sub. apply CInt.wrap_id.
        unfold CInt.in_int, CInt.int_min, CInt.int_max in *. lia. }
      rewrite Hsub. apply IH; lia.
Qed.

Lemma fls_range n : 1 <= n <= CInt.int_max -> 1 <= fls n <= 31.
Proof.
  intros Hn. unfold fls, CInt.int_max in *.
  rewrite Z.mod_small by lia.
  destruct (Z.eqb_spec n 0); [lia|].
  pose proof (Z.log2_nonneg n).
  assert (Z.log2 n < 31) by (apply Z.log2_lt_pow2; lia). lia.
Qed.

(** The turns [suspend_allocate_extra_pagedir_memory] is given are enough:
    with more of them the loop gives what the function gives. *)
Lemma allocate_extra_pagedir_memory_turns extra_pages_needed s fuel :
  1 <= MAX_ORDER C <= 31 ->
  let num_to_alloc := CInt.sub extra_pages_needed (extra_pages_allocated s) in
  let order := fls num_to_alloc in
  let order := if order >=? MAX_ORDER C then CInt.sub (MAX_ORDER C) 1 else order in
  1 <= num_to_alloc ->
  (Z.to_nat num_to_alloc <= fuel)%nat ->
  extra_pagedir_loop fuel order num_to_alloc s
  = suspend_allocate_extra_pagedir_memory extra_pages_needed s.
Proof.
  intros Hmax n order0 order Hn Hfuel.
  unfold suspend_allocate_extra_pagedir_memory. fold n. fold order0. fold order.
  destruct (Z.ltb_spec n 1); [lia|].
  assert (Hint : n <= CInt.int_max).
  { pose proof (CInt.wrap_in_int (extra_pages_needed - extra_pages_allocated s)) as H1.
    unfold CInt.in_int in H1. unfold n, CInt.sub. lia. }
  pose proof (fls_range n ltac:(lia)) as Hfls. fold order0 in Hfls.
  apply extra_pagedir_loop_turns; [|lia|lia|lia].
  unfold order. destruct (Z.geb_spec order0 (MAX_ORDER C)).
  - unfold CInt.sub. rewrite CInt.wrap_id;
      [lia|unfold CInt.in_int, CInt.int_min, CInt.int_max; lia].
  - lia.
Qed.

Lemma update_image_log s : log_adds within_try s (update_image s).
Proof.
  unfold update_image.
  set (s1 := suspend_recalculate_image_contents false s).
  assert (H1 : log_adds within_try s s1)
    by (apply (log_adds_weaken measuring); [apply measuring_within_try|apply recalculate_log]).
  assert (Hfin : forall s2, log_adds within_try s2 (update_image_storage s2)).
  { intros s2. unfold update_image_storage.
    destruct (allocator_allocate_header_space K _ _) as [result w6].
    destruct (freeze_processes K _) as [frozen w8].
    eapply log_adds_trans;
      [|apply (log_adds_weaken measuring);
        [apply measuring_within_try|apply recalculate_log]].
    destruct (negb (frozen =? 0)); destruct (negb (result =? 0));
      first [ now apply log_adds_same
            | exists [Message_header_space]; split; [reflexivity|repeat constructor] ]. }
  destruct (_ >? _).
  - pose proof (allocate_extra_pagedir_memory_log
                  (CInt.sub (CInt.add (size (pagedir1 s1)) (extra_pd1_pages_allowance s1))
                            (get_lowmem_size (pagedir2 s1))) s1) as Hx.
    destruct (suspend_allocate_extra_pagedir_memory _ s1) as [got s2]. cbn [snd] in Hx.
    apply log_adds_trans with (s2 := s1); [exact H1|].
    apply log_adds_trans with (s2 := s2); [now apply log_adds_same|].
    destruct (_ <? got).
    + apply log_adds_emit; [reflexivity|now apply log_adds_same].
    + apply Hfin.
  - apply log_adds_trans with (s2 := s1); [exact H1|apply Hfin].
Qed.

Lemma shrink_zones_log zs : forall idx ztf aw did s,
  log_adds within_try s (fst (fst (shrink_zones zs idx ztf aw did s))).
Proof.
  induction zs as [|z zs IH]; intros idx ztf aw did s; [now apply log_adds_same|].
  cbn [shrink_zones]. destruct (negb (zone_idx z =? idx)); [apply IH|].
  set (s2 := suspend_recalculate_image_contents false _).
  assert (H2 : log_adds within_try s s2).
  { unfold s2.
    eapply log_adds_trans;
      [|apply (log_adds_weaken measuring);
        [apply measuring_within_try|apply recalculate_log]].
    apply log_adds_emit; [reflexivity|now apply log_adds_same]. }
  destruct (_ <? 0); cbn [fst]; [exact H2|].
  eapply log_adds_trans; [exact H2|apply IH].
Qed.

Lemma shrink_zone_types_log idxs : forall aw did s,
  log_adds within_try s (fst (fst (shrink_zone_types idxs aw did s))).
Proof.
  induction idxs as [|idx rest IH]; intros aw did s; [now apply log_adds_same|].
  cbn [shrink_zone_types]. destruct (_ <? 0); [now apply log_adds_same|].
  pose proof (shrink_zones_log (zones K (world s)) idx
                (zone_type_free idx aw s) aw did s) as H.
  destruct (shrink_zones _ _ _ _ _ _) as [[s1 aw1] did1]. cbn [fst] in H.
  eapply log_adds_trans; [exact H|apply IH].
Qed.

Lemma eat_memory_log s : log_adds within_try s (eat_memory s).
Proof.
  unfold eat_memory.
  set (s1 := suspend_recalculate_image_contents false s).
  assert (H1 : log_adds within_try s s1)
    by (apply (log_adds_weaken measuring); [apply measuring_within_try|apply recalculate_log]).
  destruct (_ && _); [eapply log_adds_trans; [exact H1|now apply log_adds_same]|].
  set (p2 := if image_size_limit s1 =? -2 then _ else _).
  assert (H2 : log_adds within_try s (fst (fst p2))).
  { unfold p2. destruct (image_size_limit s1 =? -2); cbn [fst]; [|exact H1].
    eapply log_adds_trans; [exact H1|].
    eapply log_adds_trans;
      [|apply (log_adds_weaken measuring);
        [apply measuring_within_try|apply recalculate_log]].
    apply log_adds_emit; [reflexivity|now apply log_adds_same]. }
  destruct p2 as [[s2 aw2] did2]. cbn [fst] in H2.
  set (p3 := if _ && _ && _ then _ else _).
  assert (H3 : log_adds within_try s (fst p3)).
  { unfold p3. destruct (_ && _ && _); cbn [fst]; [|exact H2].
    pose proof (shrink_zone_types_log zone_types aw2 did2
                  (call (thaw_kernel_threads K) (emit (Status_seeking_to_free aw2) s2)))
      as Hs.
    destruct (shrink_zone_types _ _ _ _) as [[s'' aw''] did]. cbn [fst] in Hs.
    destruct (freeze_processes K _) as [frozen w]. cbn [fst].
    eapply log_adds_trans; [exact H2|].
    apply log_adds_trans with (s2 := emit Cond_pause s'').
    - apply log_adds_emit; [reflexivity|].
      eapply log_adds_trans; [|exact Hs].
      apply log_adds_emit; [reflexivity|now apply log_adds_same].
    - destruct (negb (frozen =? 0)); now apply log_adds_same. }
  destruct p3 as [s3 did3]. cbn [fst] in H3.
  apply log_adds_emit; [reflexivity|].
  destruct did3; [|exact H3].
  eapply log_adds_trans; [exact H3|].
  eapply log_adds_trans;
    [|apply (log_adds_weaken measuring);
      [apply measuring_within_try|apply recalculate_log]].
  now apply log_adds_same.
Qed.

(** *** The policies of [eat_memory] and the verdict of the negotiator *)

Definition reclaiming (e : event) : bool :=
  match e with
  | Call_shrink_one_zone _ _ | Call_drop_pagecache => true
  | _ => false
  end.

Lemma set_abort_result_flags bit s :
  0 <= bit ->
  test_result_state bit (set_abort_result bit s) = true /\
  test_result_state SUSPEND_ABORTED (set_abort_result bit s) = true.
Proof.
  intros Hbit. unfold test_result_state, set_abort_result.
  cbn [suspend_result set_suspend_result]. split.
  - now apply Flags.test_set_same.
  - apply Flags.test_set_mono; [exact Hbit|unfold SUSPEND_ABORTED; lia|].
    apply Flags.test_set_same. unfold SUSPEND_ABORTED. lia.
Qed.

(** C8, as the code has it.  With [image_size_limit] at -1, when the amount
    needed after the recalculation is positive, [eat_memory] records the
    reason "would eat memory" with the umbrella flag and returns the
    recalculated state otherwise unchanged: no zone is shrunk and the page
    cache is not dropped.  When the amount needed is not positive,
    [eat_memory] flags no abort of its own: the result state is the one
    the recalculation left, and again nothing is reclaimed. *)
Theorem eat_memory_dont_eat (s : state) :
  image_size_limit s = -1 ->
  let s1 := suspend_recalculate_image_contents false s in
  (amount_needed true s1 > 0 ->
   eat_memory s = set_abort_result SUSPEND_WOULD_EAT_MEMORY s1 /\
   test_result_state SUSPEND_WOULD_EAT_MEMORY (eat_memory s) = true /\
   test_result_state SUSPEND_ABORTED (eat_memory s) = true) /\
  (amount_needed true s1 <= 0 ->
   eat_memory s = emit Status_update s1 /\
   suspend_result (eat_memory s) = suspend_result s1) /\
  log_adds (fun e => negb (reclaiming e)) s (eat_memory s).
Proof.
  intros Hlimit s1.
  assert (Hl1 : image_size_limit s1 = -1)
    by (unfold s1; now rewrite recalculate_image_size_limit).
  assert (Hlog1 : log_adds (fun e => negb (reclaiming e)) s s1).
  { apply (log_adds_weaken measuring); [|apply recalculate_log].
    intros e. destruct e as [| | | | | |[]| | | | | | | | |]; cbn; congruence. }
  assert (Hpos : amount_needed true s1 > 0 ->
                 eat_memory s = set_abort_result SUSPEND_WOULD_EAT_MEMORY s1).
  { intros H. unfold eat_memory. fold s1. rewrite Hl1.
    replace (amount_needed true s1 >? 0) with true by (symmetry; apply Z.gtb_lt; lia).
    reflexivity. }
  assert (Hneg : amount_needed true s1 <= 0 -> eat_memory s = emit Status_update s1).
  { intros H.
    assert (E : (amount_needed true s1 >? 0) = false)
      by (rewrite Z.gtb_ltb; apply Z.ltb_ge; lia).
    unfold eat_memory. fold s1. rewrite Hl1, E.
    change (-1 =? -1) with true. change (-1 =? -2) with false.
    cbv beta iota zeta. rewrite E. reflexivity. }
  repeat split.
  - now apply Hpos.
  - rewrite (Hpos H). apply set_abort_result_flags. unfold SUSPEND_WOULD_EAT_MEMORY. lia.
  - rewrite (Hpos H). apply set_abort_result_flags. unfold SUSPEND_WOULD_EAT_MEMORY. lia.
  - now apply Hneg.
  - now rewrite (Hneg H).
  - destruct (Z_gt_le_dec (amount_needed true s1) 0) as [H|H].
    + rewrite (Hpos H). eapply log_adds_trans; [exact Hlog1|now apply log_adds_same].
    + rewrite (Hneg H). apply log_adds_emit; [reflexivity|exact Hlog1].
Qed.

(** The verdict of [image_not_ready]. *)
Lemma not_ready_false_iff use_limit s :
  not_ready use_limit s = false <->
  amount_needed use_limit s <= 0 /\
  header_storage_needed s <= header_space_allocated s /\
  main_storage_needed true true s <= main_storage_allocated s.
Proof.
  unfold not_ready. rewrite !orb_false_iff, Z.gtb_ltb, !Z.ltb_ge. tauto.
Qed.

Lemma log_emit e s : log (emit e s) = e :: log s.
Proof. reflexivity. Qed.

Lemma test_result_state_emit bit e s :
  test_result_state bit (emit e s) = test_result_state bit s.
Proof. reflexivity. Qed.

(** A turn of the loop begins with the status line that carries its
    number, and nothing is ever taken off the record of events. *)
Lemma prepare_image_loop_begins fuel : forall tries s s',
  prepare_image_loop fuel tries s = Some s' ->
  exists l, log s' = l ++ Status_preparing_image tries :: log s.
Proof.
  induction fuel as [|f IH]; intros tries s s' H; [discriminate|].
  destruct (eat_memory_log (emit (Status_preparing_image tries) s)) as (l1 & E1 & _).
  rewrite log_emit in E1.
  destruct (update_image_log (eat_memory (emit (Status_preparing_image tries) s)))
    as (l2 & E2 & _).
  assert (E3 : log (emit Cond_pause
                      (update_image
                         (eat_memory (emit (Status_preparing_image tries) s))))
               = (Cond_pause :: l2 ++ l1) ++ Status_preparing_image tries :: log s).
  { rewrite log_emit, E2, E1. cbn [app]. now rewrite app_assoc. }
  revert H. cbn [prepare_image_loop].
  destruct (test_result_state SUSPEND_ABORTED
              (eat_memory (emit (Status_preparing_image tries) s))).
  - intros H. injection H as <-. exists l1. exact E1.
  - unfold image_not_ready.
    destruct (_ && _ && _).
    + intros H. apply IH in H as (l & E).
      exists (l ++ Status_preparing_image (CInt.add tries 1) :: Cond_pause :: l2 ++ l1).
      rewrite E, E3. rewrite <- app_assoc. reflexivity.
    + intros H. injection H as <-. eexists. exact E3.
Qed.

(** C5, as the code has it.  [image_not_ready] finds the image ready
    exactly when the amount needed is not positive, the header storage
    allocated covers the header storage needed and the main storage
    allocated covers the main storage needed with the expected compression
    ratio applied.  A turn of the loop of [suspend_prepare_image] in which
    [eat_memory] flags an abort ends the loop at once; otherwise the loop
    goes on to another turn, which begins with its status line, exactly
    when the image is not ready with the user's cap taken into the amount
    needed, the number of the next try is at most [MAX_TRIES] and no abort
    is flagged, and it ends after [update_image] and the test when one of
    the three fails.  The result of [suspend_prepare_image] is the verdict
    with the cap left out of the amount needed. *)
Theorem readiness_condition :
  (forall use_limit s,
     not_ready use_limit s = false <->
     amount_needed use_limit s <= 0 /\
     header_storage_needed s <= header_space_allocated s /\
     main_storage_needed true true s <= main_storage_allocated s) /\
  (forall fuel tries s,
     let s1 := eat_memory (emit (Status_preparing_image tries) s) in
     let s2 := update_image s1 in
     let s3 := emit Cond_pause s2 in
     let goes_on :=
       not_ready true s2 = true /\
       CInt.add tries 1 <= MAX_TRIES /\
       test_result_state SUSPEND_ABORTED s2 = false in
     (test_result_state SUSPEND_ABORTED s1 = true ->
      prepare_image_loop (S fuel) tries s = Some s1) /\
     (test_result_state SUSPEND_ABORTED s1 = false ->
      (goes_on ->
       prepare_image_loop (S fuel) tries s
       = prepare_image_loop fuel (CInt.add tries 1) s3 /\
       forall s',
         prepare_image_loop fuel (CInt.add tries 1) s3 = Some s' ->
         exists l,
           log s' = l ++ Status_preparing_image (CInt.add tries 1) :: log s3) /\
      (~ goes_on -> prepare_image_loop (S fuel) tries s = Some s3))) /\
  (forall s, fst (prepare_image_finish s) = 0 <-> not_ready false s = false) /\
  (forall fuel s r s',
     suspend_prepare_image fuel s = Some (r, s') ->
     fst (prepare_image_checks s) = 0 ->
     exists s5,
       prepare_image_loop fuel 1 (snd (prepare_image_checks s)) = Some s5 /\
       (r = 0 <->
        amount_needed false s5 <= 0 /\
        header_storage_needed s5 <= header_space_allocated s5 /\
        main_storage_needed true true s5 <= main_storage_allocated s5)).
Proof.
  split; [exact not_ready_false_iff|]. split; [|split].
  - intros fuel tries s s1 s2 s3 goes_on. split.
    + intros Hab. cbn [prepare_image_loop]. fold s1. now rewrite Hab.
    + intros Hab.
      assert (Hloop : prepare_image_loop (S fuel) tries s
                      = if not_ready true s2 && (CInt.add tries 1 <=? MAX_TRIES)
                           && negb (test_result_state SUSPEND_ABORTED s2)
                        then prepare_image_loop fuel (CInt.add tries 1) s3
                        else Some s3).
      { assert (Hs3 : test_result_state SUSPEND_ABORTED s3
                      = test_result_state SUSPEND_ABORTED s2)
          by apply test_result_state_emit.
        cbn [prepare_image_loop]. fold s1. rewrite Hab.
        unfold image_not_ready. fold s2. fold s3. rewrite Hs3. reflexivity. }
      split.
      * intros (Hnot & Htries & Hquiet). split.
        -- rewrite Hloop, Hnot, Hquiet.
           replace (CInt.add tries 1 <=? MAX_TRIES) with true
             by (symmetry; now apply Z.leb_le).
           reflexivity.
        -- intros s'. apply prepare_image_loop_begins.
      * intros Hstop. rewrite Hloop.
        destruct (not_ready true s2) eqn:Hnot; [|reflexivity].
        destruct (CInt.add tries 1 <=? MAX_TRIES) eqn:Htries; [|reflexivity].
        destruct (test_result_state SUSPEND_ABORTED s2) eqn:Hquiet; [reflexivity|].
        exfalso. apply Hstop. apply Z.leb_le in Htries. now repeat split.
  - intros s. unfold prepare_image_finish, image_not_ready.
    destruct (not_ready false s); cbn [fst]; split; congruence.
  - intros fuel s r s' Hrun Hpass. unfold suspend_prepare_image in Hrun.
    destruct (prepare_image_checks s) as [returned s4]. cbn [fst snd] in *.
    subst returned. cbn [negb Z.eqb] in Hrun.
    destruct (prepare_image_loop fuel 1 s4) as [s5|]; [|discriminate].
    exists s5. split; [reflexivity|].
    pose proof (f_equal (fun o => match o with Some x => fst x | None => 0 end) Hrun)
      as Hr.
    cbv beta iota in Hr. change (fst (r, s')) with r in Hr.
    rewrite <- not_ready_false_iff. rewrite <- Hr.
    unfold prepare_image_finish, image_not_ready.
    destruct (not_ready false s5); cbn [fst]; split; congruence.
Qed.

(** *** The bound on the retries *)

Definition is_try (e : event) : bool :=
  match e with Status_preparing_image _ => true | _ => false end.

(** How many turns of the loop of [suspend_prepare_image] a log shows. *)
Definition tries_in (l : list event) : nat := length (filter is_try l).

(** [s'] has the log of [s] with at most [n] turns begun and nothing that
    belongs after the loop. *)
Definition turns_added (n : nat) (s s' : state) : Prop :=
  exists l, log s' = l ++ log s /\ (tries_in l <= n)%nat /\
            Forall (fun e => is_try e = true \/ within_try e = true) l.

Lemma tries_in_app l1 l2 : tries_in (l1 ++ l2) = (tries_in l1 + tries_in l2)%nat.
Proof. unfold tries_in. now rewrite filter_app, length_app. Qed.

Lemma within_try_no_tries l :
  Forall (fun e => within_try e = true) l -> tries_in l = O.
Proof.
  induction 1 as [|e l He _ IH]; [reflexivity|].
  unfold tries_in in *. cbn [filter].
  destruct e; cbn in He |- *; try discriminate; exact IH.
Qed.

Lemma turns_added_within s s' :
  log_adds within_try s s' -> turns_added 0 s s'.
Proof.
  intros (l & E & F). exists l. split; [exact E|]. split.
  - now rewrite within_try_no_tries.
  - eapply Forall_impl; [|exact F]. intros e He. now right.
Qed.

Lemma turns_added_trans n m s1 s2 s3 :
  turns_added n s1 s2 -> turns_added m s2 s3 -> turns_added (n + m) s1 s3.
Proof.
  intros (l1 & E1 & T1 & F1) (l2 & E2 & T2 & F2). exists (l2 ++ l1). split.
  - now rewrite E2, E1, app_assoc.
  - split; [rewrite tries_in_app; lia|]. apply Forall_app. now split.
Qed.

Lemma turns_added_le n m s s' : (n <= m)%nat -> turns_added n s s' -> turns_added m s s'.
Proof. intros H (l & E & T & F). exists l. repeat split; try assumption. lia. Qed.

(** One turn of the loop, up to its test. *)
Lemma turn_log tries s :
  turns_added 1 s (eat_memory (emit (Status_preparing_image tries) s)) /\
  turns_added 1 s
    (emit Cond_pause
       (update_image (eat_memory (emit (Status_preparing_image tries) s)))).
Proof.
  assert (H0 : turns_added 1 s (emit (Status_preparing_image tries) s)).
  { exists [Status_preparing_image tries]. repeat split.
    - unfold tries_in. cbn. lia.
    - repeat constructor. }
  assert (H1 : turns_added 1 s (eat_memory (emit (Status_preparing_image tries) s))).
  { apply (turns_added_trans 1 0 _ _ _ H0), turns_added_within, eat_memory_log. }
  split; [exact H1|].
  apply (turns_added_trans 1 0 _ _ _ H1), turns_added_within.
  apply log_adds_emit; [reflexivity|apply update_image_log].
Qed.

(** The last turn: with [tries] at [MAX_TRIES] the loop ends. *)
Lemma prepare_image_loop_last fuel s :
  exists s', prepare_image_loop (S fuel) MAX_TRIES s = Some s' /\ turns_added 1 s s'.
Proof.
  destruct (turn_log MAX_TRIES s) as [H1 H2].
  cbn [prepare_image_loop].
  destruct (test_result_state SUSPEND_ABORTED _); [eexists; split; [reflexivity|exact H1]|].
  unfold image_not_ready.
  change (CInt.add MAX_TRIES 1 <=? MAX_TRIES) with false.
  rewrite andb_false_r. cbn [andb]. eexists; split; [reflexivity|exact H2].
Qed.

(** Two turns of fuel are enough, and no more than two turns begin. *)
Lemma prepare_image_loop_bounded fuel s :
  (2 <= fuel)%nat ->
  exists s', prepare_image_loop fuel 1 s = Some s' /\ turns_added 2 s s'.
Proof.
  intros Hfuel. destruct fuel as [|[|fuel]]; [lia|lia|].
  destruct (turn_log 1 s) as [H1 H2].
  cbn [prepare_image_loop].
  destruct (test_result_state SUSPEND_ABORTED _);
    [eexists; split; [reflexivity|apply (turns_added_le 1); [lia|exact H1]]|].
  unfold image_not_ready at 1.
  change (CInt.add 1 1) with MAX_TRIES.
  destruct (_ && _ && _).
  - destruct (prepare_image_loop_last fuel
                (emit Cond_pause (update_image (eat_memory (emit (Status_preparing_image 1) s)))))
      as (s' & E & T).
    exists s'. split; [exact E|]. exact (turns_added_trans 1 1 _ _ _ H2 T).
  - eexists; split; [reflexivity|apply (turns_added_le 1); [lia|exact H2]].
Qed.

Lemma prepare_image_checks_log s :
  fst (prepare_image_checks s) = 0 -> log (snd (prepare_image_checks s)) = log s.
Proof.
  unfold prepare_image_checks, attempt_to_freeze.
  destruct (freeze_processes K _) as [result w2].
  destruct (result =? 0) eqn:E; cbn [negb]; cbv beta iota zeta; rewrite E;
    cbn [negb fst snd]; [|discriminate].
  destruct (storage_available _ =? 0); cbn [fst snd]; [discriminate|].
  intros _. cbn [log set_storage_available].
  destruct (extra_pd1_pages_allowance _ =? 0); reflexivity.
Qed.

Lemma suspend_prepare_image_past_checks fuel s s5 :
  fst (prepare_image_checks s) = 0 ->
  prepare_image_loop fuel 1 (snd (prepare_image_checks s)) = Some s5 ->
  suspend_prepare_image fuel s = Some (prepare_image_finish s5).
Proof.
  intros Hpass Hloop. unfold suspend_prepare_image.
  destruct (prepare_image_checks s) as [ret s4]. cbn [fst snd] in Hpass, Hloop.
  rewrite Hpass, Hloop. reflexivity.
Qed.

(** The three ways [suspend_prepare_image] ends after its loop. *)
Lemma prepare_image_finish_cases s :
  let r := fst (prepare_image_finish s) in
  let s' := snd (prepare_image_finish s) in
  (test_result_state SUSPEND_ABORTED s = true /\
   log s' = Cond_pause :: log s /\
   test_result_state SUSPEND_ABORTED s' = true) \/
  (test_result_state SUSPEND_ABORTED s = false /\ not_ready false s = true /\
   r = 1 /\
   test_result_state SUSPEND_UNABLE_TO_PREPARE_IMAGE s' = true /\
   test_result_state SUSPEND_ABORTED s' = true /\
   log s' = Abort_message SUSPEND_UNABLE_TO_PREPARE_IMAGE
              :: Display_stats true :: Cond_pause :: log s) \/
  (test_result_state SUSPEND_ABORTED s = false /\ not_ready false s = false /\
   r = 0 /\
   test_result_state SUSPEND_ABORTED s' = false /\
   log s' = Cond_pause :: Call_unlink_lru_lists :: Cond_pause :: log s).
Proof.
  unfold prepare_image_finish, image_not_ready.
  change (test_result_state SUSPEND_ABORTED (emit Cond_pause s))
    with (test_result_state SUSPEND_ABORTED s).
  destruct (test_result_state SUSPEND_ABORTED s) eqn:Eab; cbn [negb fst snd].
  - left. repeat split. exact Eab.
  - right. destruct (not_ready false s) eqn:Enr; cbn [fst snd].
    + left. repeat split.
      * apply set_abort_result_flags. unfold SUSPEND_UNABLE_TO_PREPARE_IMAGE. lia.
      * apply set_abort_result_flags. unfold SUSPEND_UNABLE_TO_PREPARE_IMAGE. lia.
    + right. repeat split. exact Eab.
Qed.

(** C7.  Bounded retries and the report of failure: once
    [suspend_prepare_image] is past its entry checks, its loop ends within
    two turns whatever fuel of at least two turns it is given, and begins at
    most [MAX_TRIES] = 2 turns; if then the image is not ready and no abort
    is flagged, the statistics are displayed and the abort "unable to
    prepare image" is produced, and the result is 1; and
    [unlink_lru_lists] is called exactly when the result is 0 and no abort
    is flagged. *)
Theorem prepare_image_bounded (fuel : nat) (s : state) :
  (2 <= fuel)%nat ->
  fst (prepare_image_checks s) = 0 ->
  exists s5 r s' new,
    prepare_image_loop fuel 1 (snd (prepare_image_checks s)) = Some s5 /\
    suspend_prepare_image fuel s = Some (r, s') /\
    log s' = new ++ log s /\
    Z.of_nat (tries_in new) <= MAX_TRIES /\
    (test_result_state SUSPEND_ABORTED s5 = false -> not_ready false s5 = true ->
     r = 1 /\
     test_result_state SUSPEND_UNABLE_TO_PREPARE_IMAGE s' = true /\
     test_result_state SUSPEND_ABORTED s' = true /\
     log s' = Abort_message SUSPEND_UNABLE_TO_PREPARE_IMAGE
                :: Display_stats true :: Cond_pause :: log s5) /\
    (In Call_unlink_lru_lists new <->
     r = 0 /\ test_result_state SUSPEND_ABORTED s' = false).
Proof.
  intros Hfuel Hpass.
  pose proof (prepare_image_checks_log s Hpass) as Hlog4.
  destruct (prepare_image_loop_bounded fuel (snd (prepare_image_checks s)) Hfuel)
    as (s5 & Hloop & (l & El & Tl & Fl)).
  rewrite Hlog4 in El.
  assert (Hnounlink : ~ In Call_unlink_lru_lists l).
  { intros Hin. rewrite Forall_forall in Fl. destruct (Fl _ Hin); discriminate. }
  pose proof (suspend_prepare_image_past_checks fuel s s5 Hpass Hloop) as Hrun.
  rewrite (surjective_pairing (prepare_image_finish s5)) in Hrun.
  assert (Htries : forall pre, tries_in pre = O -> Z.of_nat (tries_in (pre ++ l)) <= MAX_TRIES)
    by (intros pre Hpre; rewrite tries_in_app, Hpre; unfold MAX_TRIES; lia).
  destruct (prepare_image_finish_cases s5)
    as [(Eab & Elog & Eab') | [(Eab & Enr & Er & Eu & Ea & Elog)
                              | (Eab & Enr & Er & Ea & Elog)]].
  - exists s5, (fst (prepare_image_finish s5)), (snd (prepare_image_finish s5)),
      ([Cond_pause] ++ l).
    split; [exact Hloop|]. split; [exact Hrun|].
    split; [rewrite Elog, El; reflexivity|].
    split; [now apply Htries|].
    split; [intros H; rewrite Eab in H; discriminate H|]. split.
    + intros [Hin|Hin]; [discriminate Hin|contradiction].
    + intros [_ H]. rewrite Eab' in H. discriminate H.
  - exists s5, (fst (prepare_image_finish s5)), (snd (prepare_image_finish s5)),
      ([Abort_message SUSPEND_UNABLE_TO_PREPARE_IMAGE; Display_stats true; Cond_pause]
         ++ l).
    split; [exact Hloop|]. split; [exact Hrun|].
    split; [rewrite Elog, El; reflexivity|].
    split; [now apply Htries|].
    split; [intros _ _; repeat split; assumption|]. split.
    + intros [Hin|[Hin|[Hin|Hin]]]; try discriminate Hin; contradiction.
    + intros [H _]. rewrite Er in H. discriminate H.
  - exists s5, (fst (prepare_image_finish s5)), (snd (prepare_image_finish s5)),
      ([Cond_pause; Call_unlink_lru_lists; Cond_pause] ++ l).
    split; [exact Hloop|]. split; [exact Hrun|].
    split; [rewrite Elog, El; reflexivity|].
    split; [now apply Htries|].
    split; [intros _ H; rewrite Enr in H; discriminate H|]. split.
    + intros _. split; assumption.
    + intros _. right. now left.
Qed.

(** *** The entry checks of [suspend_prepare_image] *)



(** *** The extra pages for the atomic copy ([prepare_image.c]) *)

Lemma set_run_spec n : forall map pfn p,
  set_run map n pfn p = map p || ((pfn <=? p) && (p <? pfn + Z.of_nat n)).
Proof.
  induction n as [|n IH]; intros map pfn p.
  - cbn [set_run]. destruct (map p); cbn [orb]; [reflexivity|].
    destruct (Z.leb_spec pfn p), (Z.ltb_spec p (pfn + Z.of_nat 0)); cbn; lia.
  - cbn [set_run]. rewrite IH. unfold set_dyn_pageflag.
    destruct (Z.eqb_spec p pfn) as [->|Hne].
    + cbn [orb]. destruct (map pfn); cbn [orb]; [reflexivity|].
      destruct (Z.leb_spec pfn pfn), (Z.ltb_spec pfn (pfn + Z.of_nat (S n)));
        cbn; lia.
    + destruct (map p); cbn [orb]; [reflexivity|].
      destruct (Z.leb_spec (pfn + 1) p), (Z.ltb_spec p (pfn + 1 + Z.of_nat n)),
        (Z.leb_spec pfn p), (Z.ltb_spec p (pfn + Z.of_nat (S n))); cbn; lia.
Qed.

Lemma clear_run_spec n : forall map pfn p,
  clear_run map n pfn p = map p && negb ((pfn <=? p) && (p <? pfn + Z.of_nat n)).
Proof.
  induction n as [|n IH]; intros map pfn p.
  - cbn [clear_run]. destruct (map p); cbn [andb]; [|reflexivity].
    destruct (Z.leb_spec pfn p), (Z.ltb_spec p (pfn + Z.of_nat 0)); cbn; lia.
  - cbn [clear_run]. rewrite IH. unfold clear_dyn_pageflag.
    destruct (Z.eqb_spec p pfn) as [->|Hne].
    + cbn [andb]. destruct (map pfn); cbn [andb]; [|reflexivity].
      destruct (Z.leb_spec pfn pfn), (Z.ltb_spec pfn (pfn + Z.of_nat (S n)));
        cbn; lia.
    + destruct (map p); cbn [andb]; [|reflexivity].
      destruct (Z.leb_spec (pfn + 1) p), (Z.ltb_spec p (pfn + 1 + Z.of_nat n)),
        (Z.leb_spec pfn p), (Z.ltb_spec p (pfn + Z.of_nat (S n))); cbn; lia.
Qed.

(** The pages of the blocks on [extras_list], and whether [p] is one of
    the pages of the block [e]. *)
Definition extras_pages (l : list extras) : Z :=
  fold_right (fun e acc => 2 ^ extras_order e + acc) 0 l.

Definition in_block (e : extras) (p : Z) : bool :=
  (extras_page e <=? p) && (p <? extras_page e + 2 ^ extras_order e).

(** The books of the extra pages are in order: [extra_pages_allocated] is
    the number of pages of the blocks on [extras_list], and every page of
    every block is flagged [Nosave] and [Pageset1Copy]. *)
Record extras_accounted (s : state) : Prop := mk_accounted {
  accounted_total : extra_pages_allocated s = extras_pages (extras_list s);
  accounted_orders : Forall (fun e => 0 <= extras_order e <= 30) (extras_list s);
  accounted_flags :
    forall e p, In e (extras_list s) -> in_block e p = true ->
                nosave_map s p = true /\ pageset1_copy_map s p = true
}.

Lemma extras_accounted_ext s s' :
  extra_pages_allocated s' = extra_pages_allocated s ->
  extras_list s' = extras_list s ->
  nosave_map s' = nosave_map s ->
  pageset1_copy_map s' = pageset1_copy_map s ->
  extras_accounted s -> extras_accounted s'.
Proof.
  intros H1 H2 H3 H4 [Ht Ho Hf]. constructor.
  - now rewrite H1, H2.
  - now rewrite H2.
  - intros e p. rewrite H2, H3, H4. apply Hf.
Qed.

Lemma pow_order_range order :
  0 <= order <= 30 -> 1 <= 2 ^ order <= 2 ^ 30.
Proof.
  intros H.
  pose proof (Z.pow_le_mono_r 2 order 30 ltac:(lia) ltac:(lia)).
  pose proof (Z.pow_pos_nonneg 2 order ltac:(lia) ltac:(lia)). lia.
Qed.

(** What the loop of [suspend_allocate_extra_pagedir_memory] does to the
    books: it adds blocks in front of the list, counts their pages, and
    never gets more than it was asked for. *)
Lemma extra_pagedir_loop_accounts fuel : forall order n s,
  0 <= order <= 30 -> 0 <= n ->
  0 <= extra_pages_allocated s -> extra_pages_allocated s + n <= CInt.int_max ->
  let r := extra_pagedir_loop fuel order n s in
  fst r = extra_pages_allocated (snd r) /\
  extra_pages_allocated s <= fst r <= extra_pages_allocated s + n /\
  (exists new, extras_list (snd r) = new ++ extras_list s) /\
  (extras_accounted s -> extras_accounted (snd r)).
Proof.
  induction fuel as [|fuel IH]; intros order n s Ho Hn Ha Hfit; cbn zeta.
  - cbn [extra_pagedir_loop fst snd]. split; [reflexivity|]. split; [lia|].
    split; [now exists []|tauto].
  - cbn [extra_pagedir_loop].
    destruct (Z.eqb_spec n 0) as [->|Hne].
    { cbn [fst snd]. split; [reflexivity|]. split; [lia|].
      split; [now exists []|tauto]. }
    destruct (lower_order_turns (Z.to_nat order) (Z.to_nat order) order n)
      as (_ & Hr1 & Hp1); [exact Ho|lia|lia|lia|].
    set (order1 := lower_order (Z.to_nat order) order n) in *.
    destruct (kmalloc K (world s)) as [entry w1]. destruct entry; cbn [negb].
    2:{ cbn [fst snd]. split; [reflexivity|]. split; [cbn; lia|].
        split; [now exists []|]. now apply extras_accounted_ext. }
    destruct (get_pages_lowering_turns (Z.to_nat order1) (Z.to_nat order1) order1
                (world (set_world w1 s))) as [_ Hr2]; [lia|lia|lia|].
    destruct (get_pages_lowering _ order1 _) as [[virt order2] w2].
    cbn [fst snd] in Hr2.
    destruct virt as [newpage|].
    2:{ cbn [fst snd]. split; [reflexivity|]. split; [cbn; lia|].
        split; [now exists []|]. now apply extras_accounted_ext. }
    rewrite shl_order by lia.
    pose proof (pow_order_range order2 ltac:(lia)) as Hp2.
    pose proof (Z.pow_le_mono_r 2 order2 order1 ltac:(lia) ltac:(lia)) as Hp3.
    assert (Hsub : CInt.sub n (2 ^ order2) = n - 2 ^ order2).
    { unfold CInt.sub. apply CInt.wrap_id.
      unfold CInt.in_int, CInt.int_min, CInt.int_max in *. lia. }
    rewrite Hsub.
    match goal with
    | |- context [extra_pagedir_loop fuel order2 _ ?x] => set (s6 := x)
    end.
    assert (Ha6 : extra_pages_allocated s6 = extra_pages_allocated s + 2 ^ order2).
    { unfold s6. cbn. unfold CInt.add. apply CInt.wrap_id.
      unfold CInt.in_int, CInt.int_min, CInt.int_max in *. lia. }
    assert (Hl6 : extras_list s6 = mk_extras newpage order2 :: extras_list s)
      by reflexivity.
    assert (Hn6 : forall p, nosave_map s6 p
                            = nosave_map s p
                              || ((newpage <=? p) && (p <? newpage + 2 ^ order2))).
    { intros p. unfold s6. cbn. rewrite set_run_spec, Z2Nat.id by lia. reflexivity. }
    assert (Hc6 : forall p, pageset1_copy_map s6 p
                            = pageset1_copy_map s p
                              || ((newpage <=? p) && (p <? newpage + 2 ^ order2))).
    { intros p. unfold s6. cbn. rewrite set_run_spec, Z2Nat.id by lia. reflexivity. }
    destruct (IH order2 (n - 2 ^ order2) s6) as (E & Hb & [new Hnew] & Hacc);
      [lia|lia|lia|lia|].
    split; [exact E|]. split; [lia|].
    split; [exists (new ++ [mk_extras newpage order2]);
            rewrite Hnew, Hl6, <- app_assoc; reflexivity|].
    intros [Ht Hor Hf]. apply Hacc. constructor.
    + rewrite Ha6, Hl6. cbn [extras_pages fold_right extras_order].
      fold (extras_pages (extras_list s)). lia.
    + rewrite Hl6. constructor; [cbn; lia|exact Hor].
    + intros e p. rewrite Hl6, Hn6, Hc6. intros [<-|Hin] Hp.
      * unfold in_block in Hp. cbn [extras_page extras_order] in Hp.
        rewrite Hp, !orb_true_r. now split.
      * destruct (Hf e p Hin Hp) as [-> ->]. now split.
Qed.

Lemma allocate_extra_pagedir_memory_outcome (extra_pages_needed : Z) (s : state) :
  1 <= MAX_ORDER C <= 31 ->
  0 <= extra_pages_allocated s <= CInt.int_max ->
  0 <= extra_pages_needed <= CInt.int_max ->
  let r := suspend_allocate_extra_pagedir_memory extra_pages_needed s in
  (extras_accounted s -> extras_accounted (snd r)) /\
  (extra_pages_needed <= extra_pages_allocated s -> r = (0, s)) /\
  (extra_pages_allocated s < extra_pages_needed ->
   fst r = extra_pages_allocated (snd r) /\
   extra_pages_allocated s <= fst r <= extra_pages_needed /\
   exists new, extras_list (snd r) = new ++ extras_list s).
Proof.
  intros Hmax Ha Hneed. cbn zeta.
  unfold suspend_allocate_extra_pagedir_memory.
  assert (Hn : CInt.sub extra_pages_needed (extra_pages_allocated s)
               = extra_pages_needed - extra_pages_allocated s).
  { unfold CInt.sub. apply CInt.wrap_id.
    unfold CInt.in_int, CInt.int_min, CInt.int_max in *. lia. }
  rewrite Hn.
  destruct (Z.ltb_spec (extra_pages_needed - extra_pages_allocated s) 1) as [Hlt|Hge].
  - cbn [fst snd]. split; [tauto|]. split; [reflexivity|]. intros H. lia.
  - set (n := extra_pages_needed - extra_pages_allocated s) in *.
    pose proof (fls_range n ltac:(unfold CInt.int_max in *; lia)) as Hfls.
    match goal with
    | |- context [extra_pagedir_loop _ ?o n s] => set (order := o)
    end.
    assert (Ho : 0 <= order <= 30).
    { unfold order. destruct (Z.geb_spec (fls n) (MAX_ORDER C)).
      - unfold CInt.sub. rewrite CInt.wrap_id;
          [lia|unfold CInt.in_int, CInt.int_min, CInt.int_max; lia].
      - lia. }
    destruct (extra_pagedir_loop_accounts (Z.to_nat n) order n s)
      as (E & Hb & Hnew & Hkeep); [exact Ho|lia|lia|unfold n; lia|].
    split; [exact Hkeep|]. split; [intros H; lia|]. intros _.
    split; [exact E|]. split; [|exact Hnew].
    assert (n = extra_pages_needed - extra_pages_allocated s) by reflexivity. lia.
Qed.

(** X2.  [suspend_allocate_extra_pagedir_memory] keeps the books of the
    extra pages in order.  Asked for no more than is allocated already it
    returns 0 and changes nothing; asked for more it returns the new value
    of [extra_pages_allocated], which is at least the old one and never
    above what was asked for, it puts the new blocks in front of
    [extras_list], and afterwards [extra_pages_allocated] is again the
    number of pages on the list, every one of them flagged [Nosave] and
    [Pageset1Copy]. *)
Theorem allocate_extra_pagedir_memory_accounts (extra_pages_needed : Z)
    (s : state) :
  1 <= MAX_ORDER C <= 31 ->
  0 <= extra_pages_allocated s <= CInt.int_max ->
  0 <= extra_pages_needed <= CInt.int_max ->
  extras_accounted s ->
  let r := suspend_allocate_extra_pagedir_memory extra_pages_needed s in
  extras_accounted (snd r) /\
  (extra_pages_needed <= extra_pages_allocated s -> r = (0, s)) /\
  (extra_pages_allocated s < extra_pages_needed ->
   fst r = extra_pages_allocated (snd r) /\
   extra_pages_allocated s <= fst r <= extra_pages_needed /\
   exists new, extras_list (snd r) = new ++ extras_list s).
Proof.
  intros Hmax Ha Hneed Hacc.
  destruct (allocate_extra_pagedir_memory_outcome extra_pages_needed s Hmax Ha Hneed)
    as (H1 & H2 & H3).
  split; [now apply H1|]. split; [exact H2|exact H3].
Qed.

Definition wants_extra_pages (e : event) : bool :=
  match e with
  | Message_want_extra_pages _ _ => true
  | _ => false
  end.

Lemma update_image_storage_quiet s2 :
  log_adds (fun e => negb (wants_extra_pages e)) s2 (update_image_storage s2).
Proof.
  unfold update_image_storage.
  destruct (allocator_allocate_header_space K _ _) as [result w6].
  destruct (freeze_processes K _) as [frozen w8].
  eapply log_adds_trans;
    [|apply (log_adds_weaken measuring); [|apply recalculate_log]].
  - destruct (negb (frozen =? 0)); destruct (negb (result =? 0));
      first [ now apply log_adds_same
            | exists [Message_header_space]; split; [reflexivity|repeat constructor] ].
  - intros e. destruct e as [| | | | | |[]| | | | | | | | |]; cbn; congruence.
Qed.

(** X3.  [update_image] never stops at its report "Want %d extra pages for
    pageset1, got %d": the number of extra pages allocated never exceeds
    the number wanted, so the function always goes on to allocate storage
    for the image and its header, to freeze the processes again and to
    recalculate; a shortfall of extra pages is not noticed here. *)
Theorem update_image_reaches_storage (s : state) :
  1 <= MAX_ORDER C <= 31 ->
  0 <= extra_pages_allocated s <= CInt.int_max ->
  let s1 := suspend_recalculate_image_contents false s in
  let wanted :=
    CInt.sub (CInt.add (size (pagedir1 s1)) (extra_pd1_pages_allowance s1))
             (get_lowmem_size (pagedir2 s1)) in
  update_image s
  = update_image_storage
      (if wanted >? extra_pages_allocated s1
       then snd (suspend_allocate_extra_pagedir_memory wanted s1)
       else s1) /\
  log_adds (fun e => negb (wants_extra_pages e)) s (update_image s).
Proof.
  intros Hmax Ha s1 wanted.
  assert (Ha1 : extra_pages_allocated s1 = extra_pages_allocated s).
  { pose proof (recalculate_untouched false s) as H. fold s1 in H.
    unfold untouched in H. congruence. }
  assert (H1 : log_adds (fun e => negb (wants_extra_pages e)) s s1).
  { apply (log_adds_weaken measuring); [|apply recalculate_log].
    intros e. destruct e as [| | | | | |[]| | | | | | | | |]; cbn; congruence. }
  assert (E : update_image s
              = update_image_storage
                  (if wanted >? extra_pages_allocated s1
                   then snd (suspend_allocate_extra_pagedir_memory wanted s1)
                   else s1)).
  { unfold update_image. fold s1. fold wanted.
    destruct (Z.gtb_spec wanted (extra_pages_allocated s1)) as [Hgt|Hle];
      [|reflexivity].
    pose proof (CInt.wrap_in_int
                  (CInt.add (size (pagedir1 s1)) (extra_pd1_pages_allowance s1)
                   - get_lowmem_size (pagedir2 s1))) as Hw.
    fold (CInt.sub (CInt.add (size (pagedir1 s1)) (extra_pd1_pages_allowance s1))
                   (get_lowmem_size (pagedir2 s1))) in Hw. fold wanted in Hw.
    unfold CInt.in_int in Hw.
    destruct (allocate_extra_pagedir_memory_outcome wanted s1 Hmax)
      as (_ & _ & H); [lia|lia|].
    destruct (H ltac:(lia)) as (_ & Hb & _).
    destruct (suspend_allocate_extra_pagedir_memory wanted s1) as [got s2].
    cbn [fst snd] in *.
    destruct (Z.ltb_spec wanted got); [lia|reflexivity]. }
  split; [exact E|]. rewrite E.
  eapply log_adds_trans; [|apply update_image_storage_quiet].
  destruct (wanted >? extra_pages_allocated s1); [|exact H1].
  eapply log_adds_trans; [exact H1|]. apply log_adds_same.
  apply allocate_extra_pagedir_memory_log.
Qed.



(** [suspend_free_extra_pagedir_memory]: every block on [extras_list] is
    taken off the list, its pages lose the [Nosave] flag, the block goes
    back to the page allocator and its entry is freed. *)
Fixpoint free_extras (l : list extras) (s : state) : state :=
  match l with
  | [] => s
  | this :: next =>
      let s1 := set_extras_list next s in
      let s2 :=
        set_nosave_map
          (clear_run (nosave_map s1)
                     (Z.to_nat (CInt.shl 1 (extras_order this))) (extras_page this))
          s1 in
      free_extras next
        (call (kfree K)
              (call (free_pages K (extras_page this) (extras_order this)) s2))
  end.

Definition suspend_free_extra_pagedir_memory (s : state) : state :=
  set_extra_pages_allocated 0 (free_extras (extras_list s) s).

Lemma free_extras_spec l : forall s,
  Forall (fun e => 0 <= extras_order e <= 30) l ->
  extras_list s = l ->
  extras_list (free_extras l s) = [] /\
  (forall p, nosave_map (free_extras l s) p
             = nosave_map s p && negb (existsb (fun e => in_block e p) l)) /\
  pageset1_copy_map (free_extras l s) = pageset1_copy_map s /\
  pageset1_map (free_extras l s) = pageset1_map s /\
  pageset2_map (free_extras l s) = pageset2_map s /\
  suspend_result (free_extras l s) = suspend_result s /\
  log (free_extras l s) = log s.
Proof.
  induction l as [|this next IH]; intros s Ho Hl.
  - cbn [free_extras existsb negb]. split; [exact Hl|].
    split; [intros p; now rewrite andb_true_r|]. repeat split.
  - cbn [free_extras]. inversion Ho as [|? ? Hthis Hnext]; subst.
    match goal with |- context [free_extras next ?x] => set (s3 := x) end.
    destruct (IH s3 Hnext) as (H1 & H2 & H3 & H4 & H5 & H6 & H7); [reflexivity|].
    split; [exact H1|]. split; [|now repeat split].
    intros p. rewrite H2. unfold s3. cbn [nosave_map call set_world set_nosave_map
                                           set_extras_list].
    rewrite clear_run_spec, shl_order by exact Hthis.
    pose proof (pow_order_range _ Hthis).
    rewrite Z2Nat.id by lia. cbn [existsb]. unfold in_block at 2.
    rewrite negb_orb, andb_assoc. reflexivity.
Qed.

(** X4.  [suspend_free_extra_pagedir_memory] closes the books of the extra
    pages: afterwards [extras_list] is empty and [extra_pages_allocated] is
    0, the pages of the blocks that were on the list have lost the
    [Nosave] flag and no other page has; the [Pageset1Copy] flags, which
    the allocation had set on the same pages, are left as they are. *)
Theorem free_extra_pagedir_memory_resets (s : state) :
  extras_accounted s ->
  let s' := suspend_free_extra_pagedir_memory s in
  extras_list s' = [] /\
  extra_pages_allocated s' = 0 /\
  extras_accounted s' /\
  (forall p, nosave_map s' p
             = nosave_map s p
               && negb (existsb (fun e => in_block e p) (extras_list s))) /\
  pageset1_copy_map s' = pageset1_copy_map s /\
  (forall e p, In e (extras_list s) -> in_block e p = true ->
               nosave_map s' p = false /\ pageset1_copy_map s' p = true).
Proof.
  intros [Ht Ho Hf] s'.
  destruct (free_extras_spec (extras_list s) s Ho eq_refl)
    as (H1 & H2 & H3 & _).
  assert (Hl : extras_list s' = []) by exact H1.
  assert (Hn : forall p, nosave_map s' p
                         = nosave_map s p
                           && negb (existsb (fun e => in_block e p) (extras_list s)))
    by exact H2.
  assert (Hc : pageset1_copy_map s' = pageset1_copy_map s) by exact H3.
  split; [exact Hl|]. split; [reflexivity|].
  split; [|split; [exact Hn|split; [exact Hc|]]].
  - constructor.
    + rewrite Hl. reflexivity.
    + rewrite Hl. constructor.
    + rewrite Hl. intros e p [].
  - intros e p Hin Hp. rewrite Hn, Hc. split; [|now apply (Hf e p)].
    replace (existsb (fun e0 => in_block e0 p) (extras_list s)) with true.
    + apply andb_false_r.
    + symmetry. apply existsb_exists. now exists e.
Qed.

(** *** Pageset 1 and the pages of its atomic copy *)














(** *** The tasks that run through the freeze *)

(** The pages [suspend_mark_task_as_pageset] finds in the address space of
    a task: those of the areas that are not special and do not start at
    0. *)
Definition task_pages (t : task) : list Z :=
  flat_map
    (fun vma =>
       if vm_special vma then [] else if vm_start vma =? 0 then [] else vm_pages vma)
    (task_mmap t).

Lemma mark_task_pageset1_spec t s p :
  pageset2_map (suspend_mark_task_as_pageset t false s) p
  = pageset2_map s p && negb (existsb (Z.eqb p) (task_pages t)).
Proof.
  unfold suspend_mark_task_as_pageset, task_pages.
  revert s. induction (task_mmap t) as [|vma rest IH]; intros s.
  - cbn. now rewrite andb_true_r.
  - cbn [fold_left flat_map]. rewrite IH, existsb_app, negb_orb, andb_assoc.
    f_equal. unfold mark_vma.
    destruct (vm_special vma); [cbn; now rewrite andb_true_r|].
    destruct (vm_start vma =? 0); [cbn; now rewrite andb_true_r|].
    generalize (vm_pages vma) as pages. clear. intros pages. revert s.
    induction pages as [|x pages IH]; intros s.
    + cbn. now rewrite andb_true_r.
    + cbn [fold_left existsb]. rewrite IH.
      cbn [pageset2_map set_pageset1_map set_pageset2_map].
      unfold clear_dyn_pageflag.
      destruct (p =? x); cbn [orb negb andb]; [now rewrite andb_false_r|reflexivity].
Qed.

Lemma mark_task_result t b s :
  suspend_result (suspend_mark_task_as_pageset t b s) = suspend_result s.
Proof.
  unfold suspend_mark_task_as_pageset. apply (fold_left_keeps suspend_result).
  intros a vma. unfold mark_vma.
  destruct (vm_special vma); [reflexivity|].
  destruct (vm_start vma =? 0); [reflexivity|].
  apply (fold_left_keeps suspend_result). intros a' page. now destruct b.
Qed.

Lemma free_attention_list_marks tasks : forall s,
  test_result_state SUSPEND_ABORTED s = false ->
  forall p,
    pageset2_map (free_attention_list (map Some tasks) s) p
    = pageset2_map s p
      && negb (existsb (fun t => existsb (Z.eqb p) (task_pages t)) tasks).
Proof.
  induction tasks as [|t tasks IH]; intros s Hab p.
  - cbn. now rewrite andb_true_r.
  - cbn [map free_attention_list existsb]. rewrite Hab. cbn [negb].
    rewrite IH.
    + unfold call. cbn [pageset2_map set_world].
      rewrite mark_task_pageset1_spec, negb_orb, andb_assoc. reflexivity.
    + unfold test_result_state, call in *. cbn [suspend_result set_world].
      now rewrite mark_task_result.
Qed.

Lemma free_attention_list_result entries : forall s,
  suspend_result (free_attention_list entries s) = suspend_result s.
Proof.
  induction entries as [|e rest IH]; intros s; [reflexivity|].
  cbn [free_attention_list]. rewrite IH. unfold call. cbn [suspend_result set_world].
  destruct (negb (test_result_state SUSPEND_ABORTED s)); [|reflexivity].
  destruct e; [apply mark_task_result|reflexivity].
Qed.

Lemma allocate_attention_list_cases count : forall got s,
  (forall w, processes K (snd (kmalloc K w)) = processes K w) ->
  let r := allocate_attention_list count got s in
  processes K (world (fst (fst r))) = processes K (world s) /\
  pageset2_map (fst (fst r)) = pageset2_map s /\
  (if snd (fst r) then suspend_result (fst (fst r)) = suspend_result s
   else test_result_state SUSPEND_ABORTED (fst (fst r)) = true /\
        test_result_state SUSPEND_UNABLE_TO_PREPARE_IMAGE (fst (fst r)) = true).
Proof.
  induction count as [|k IH]; intros got s Hkeep; cbn zeta.
  - cbn. repeat split.
  - cbn [allocate_attention_list]. pose proof (Hkeep (world s)) as Hw.
    destruct (kmalloc K (world s)) as [ok w]. cbn [snd] in Hw. destruct ok.
    + destruct (IH (S got) (set_world w s) Hkeep) as (H1 & H2 & H3).
      split; [now rewrite H1|]. split; [now rewrite H2|exact H3].
    + cbn [fst snd]. split; [exact Hw|]. split; [reflexivity|].
      split; apply set_abort_result_flags; unfold SUSPEND_UNABLE_TO_PREPARE_IMAGE; lia.
Qed.

(** X6.  The tasks that have to run while the image is written are kept
    out of pageset 2.  When [suspend_mark_pages_for_pageset2] has marked
    pageset 2 and no abort is flagged afterwards, no page of the address
    space of the current task or of a task with [PF_NOFREEZE] is a page of
    pageset 2, whatever the marking of the processes or of the LRU lists
    had said of it. *)
Theorem attention_tasks_out_of_pageset2 (s : state) :
  test_action_state SUSPEND_NO_PAGESET2 s = false ->
  (forall w, processes K (snd (kmalloc K w)) = processes K w) ->
  test_result_state SUSPEND_ABORTED (suspend_mark_pages_for_pageset2 s) = false ->
  forall t p,
    In t (processes K (world s)) -> needs_attention t = true ->
    In p (task_pages t) ->
    pageset2_map (suspend_mark_pages_for_pageset2 s) p = false.
Proof.
  intros Hon Hkeep Hab t p Ht Hneeds Hp. revert Hab.
  unfold suspend_mark_pages_for_pageset2. rewrite Hon.
  set (s2 := if test_action_state SUSPEND_PAGESET2_FULL _ then _ else _).
  assert (Hw2 : world s2 = world s).
  { unfold s2. destruct (test_action_state SUSPEND_PAGESET2_FULL _).
    - unfold pageset2_full. rewrite (fold_left_keeps world); [reflexivity|].
      intros a z.
      destruct (negb (nr_inactive K (world a) z =? 0));
        destruct (negb (nr_active K (world a) z =? 0)); reflexivity.
    - rewrite (fold_left_keeps world); [reflexivity|].
      intros a q. destruct (negb (task_has_mm q) || task_borrowed_mm q);
        [reflexivity|].
      unfold suspend_mark_task_as_pageset. apply (fold_left_keeps world).
      intros a' vma. unfold mark_vma.
      destruct (vm_special vma); [reflexivity|].
      destruct (vm_start vma =? 0); [reflexivity|].
      now apply (fold_left_keeps world). }
  destruct (allocate_attention_list_cases
              (length (filter needs_attention (processes K (world s2)))) 0%nat s2 Hkeep)
    as (Hproc & _ & Hres).
  destruct (allocate_attention_list _ 0 s2) as [[s3 ok] got]. cbn [fst snd] in *.
  destruct ok.
  - intros Hab.
    assert (Hab3 : test_result_state SUSPEND_ABORTED s3 = false).
    { unfold test_result_state in *. now rewrite free_attention_list_result in Hab. }
    rewrite free_attention_list_marks by exact Hab3.
    replace (existsb (fun t0 => existsb (Z.eqb p) (task_pages t0))
                     (filter needs_attention (processes K (world s3)))) with true;
      [apply andb_false_r|].
    symmetry. apply existsb_exists. exists t. split.
    + apply filter_In. rewrite Hproc, Hw2. now split.
    + apply existsb_exists. exists p. split; [exact Hp|apply Z.eqb_refl].
  - intros Hab. destruct Hres as [Hres _].
    unfold test_result_state in *. rewrite free_attention_list_result in Hab.
    congruence.
Qed.

(** *** What [eat_memory] reclaims, and when *)

Definition drops_pagecache (e : event) : bool :=
  match e with
  | Call_drop_pagecache => true
  | _ => false
  end.

Definition shrinks_zone (e : event) : bool :=
  match e with
  | Call_shrink_one_zone _ _ => true
  | _ => false
  end.

(** A flagged abort stays flagged through a recalculation. *)
Lemma mark_pages_for_pageset2_aborted s :
  test_result_state SUSPEND_ABORTED s = true ->
  test_result_state SUSPEND_ABORTED (suspend_mark_pages_for_pageset2 s) = true.
Proof.
  intros Hab. unfold suspend_mark_pages_for_pageset2.
  destruct (test_action_state SUSPEND_NO_PAGESET2 s); [exact Hab|].
  set (s2 := if test_action_state SUSPEND_PAGESET2_FULL _ then _ else _).
  assert (E2 : suspend_result s2 = suspend_result s).
  { unfold s2. destruct (test_action_state SUSPEND_PAGESET2_FULL _).
    - unfold pageset2_full. rewrite (fold_left_keeps suspend_result); [reflexivity|].
      intros a z.
      destruct (negb (nr_inactive K (world a) z =? 0));
        destruct (negb (nr_active K (world a) z =? 0)); reflexivity.
    - rewrite (fold_left_keeps suspend_result); [reflexivity|].
      intros a q. destruct (negb (task_has_mm q) || task_borrowed_mm q);
        [reflexivity|apply mark_task_result]. }
  assert (G : forall count got x,
            test_result_state SUSPEND_ABORTED x = true ->
            test_result_state SUSPEND_ABORTED
              (fst (fst (allocate_attention_list count got x))) = true).
  { induction count as [|k IH]; intros got x Hx; [exact Hx|].
    cbn [allocate_attention_list]. destruct (kmalloc K (world x)) as [ok w].
    destruct ok; [now apply IH|]. cbn [fst].
    apply set_abort_result_flags. unfold SUSPEND_UNABLE_TO_PREPARE_IMAGE. lia. }
  pose proof (G (length (filter needs_attention (processes K (world s2)))) 0%nat s2) as H3.
  destruct (allocate_attention_list _ 0 s2) as [[s3 ok] got]. cbn [fst] in H3.
  unfold test_result_state in *.
  destruct ok; rewrite free_attention_list_result; apply H3; now rewrite E2.
Qed.

Lemma recalculate_aborted a s :
  test_result_state SUSPEND_ABORTED s = true ->
  test_result_state SUSPEND_ABORTED (suspend_recalculate_image_contents a s) = true.
Proof.
  intros Hab. unfold suspend_recalculate_image_contents.
  assert (Hflag : forall b x,
            test_result_state SUSPEND_ABORTED x = true ->
            test_result_state SUSPEND_ABORTED (flag_image_pages b x) = true).
  { intros b x Hx. unfold flag_image_pages.
    pose proof (flag_image_pages_count_unflagged x) as H.
    destruct (flag_image_pages_count x) as [x1 nf]. cbn [fst] in H.
    assert (E : suspend_result x1 = suspend_result x)
      by (unfold unflagged in H; congruence).
    unfold test_result_state in *. destruct b; cbn [suspend_result emit set_log];
      now rewrite E. }
  destruct a; cbn [negb].
  - now apply Hflag.
  - unfold display_stats.
    change (test_result_state SUSPEND_ABORTED
              (flag_image_pages false
                 (suspend_mark_pages_for_pageset2
                    (set_pageset1_copy_map
                       (fold_left clear_dyn_pageflag
                          (set_pfns (max_pfn C)
                             (pageset2_map (set_pageset1_map clear_dyn_pageflags s)))
                          (pageset1_copy_map (set_pageset1_map clear_dyn_pageflags s)))
                       (set_pageset1_map clear_dyn_pageflags s)))) = true).
    apply Hflag, mark_pages_for_pageset2_aborted. exact Hab.
Qed.

Lemma shrink_zones_adds (P : event -> bool) :
  (forall e, measuring e = true -> P e = true) ->
  (forall i a, P (Call_shrink_one_zone i a) = true) ->
  forall zs idx ztf aw did s,
    log_adds P s (fst (fst (shrink_zones zs idx ztf aw did s))).
Proof.
  intros Hm Hs.
  induction zs as [|z zs IH]; intros idx ztf aw did s; [now apply log_adds_same|].
  cbn [shrink_zones]. destruct (negb (zone_idx z =? idx)); [apply IH|].
  set (s2 := suspend_recalculate_image_contents false _).
  assert (H2 : log_adds P s s2).
  { unfold s2.
    eapply log_adds_trans;
      [|apply (log_adds_weaken measuring); [exact Hm|apply recalculate_log]].
    apply log_adds_emit; [apply Hs|now apply log_adds_same]. }
  destruct (_ <? 0); cbn [fst]; [exact H2|].
  eapply log_adds_trans; [exact H2|apply IH].
Qed.

Lemma shrink_zone_types_adds (P : event -> bool) :
  (forall e, measuring e = true -> P e = true) ->
  (forall i a, P (Call_shrink_one_zone i a) = true) ->
  forall idxs aw did s,
    log_adds P s (fst (fst (shrink_zone_types idxs aw did s))).
Proof.
  intros Hm Hs.
  induction idxs as [|idx rest IH]; intros aw did s; [now apply log_adds_same|].
  cbn [shrink_zone_types]. destruct (_ <? 0); [now apply log_adds_same|].
  pose proof (shrink_zones_adds P Hm Hs (zones K (world s)) idx
                (zone_type_free idx aw s) aw did s) as H.
  destruct (shrink_zones _ _ _ _ _ _) as [[s1 aw1] did1]. cbn [fst] in H.
  eapply log_adds_trans; [exact H|apply IH].
Qed.

(** What [eat_memory] does once the page cache is dealt with: from the
    state [s2] on, with what is still wanted and whether memory was eaten
    so far. *)
Definition eat_memory_rest (s2 : state) (amount_wanted2 : Z) (did2 : bool)
  : state :=
  let '(s3, did3) :=
    if (amount_wanted2 >? 0)
       && negb (test_result_state SUSPEND_ABORTED s2)
       && negb (image_size_limit s2 =? -1)
    then
      let s' :=
        call (thaw_kernel_threads K)
             (emit (Status_seeking_to_free amount_wanted2) s2) in
      let '(s'', _, did) := shrink_zone_types zone_types amount_wanted2 did2 s' in
      let s''' := emit Cond_pause s'' in
      let '(frozen, w) := freeze_processes K (world s''') in
      let s4 := set_world w s''' in
      (if negb (frozen =? 0) then set_abort_result SUSPEND_FREEZING_FAILED s4
       else s4, did)
    else (s2, did2) in
  let s5 :=
    if did3 then
      suspend_recalculate_image_contents false
        (set_suspend_state (suspend_state s3) s3)
    else s3 in
  emit Status_update s5.

Lemma eat_memory_unfold s :
  eat_memory s
  = let s1 := suspend_recalculate_image_contents false s in
    if (image_size_limit s1 =? -1) && (amount_needed true s1 >? 0) then
      set_abort_result SUSPEND_WOULD_EAT_MEMORY s1
    else if image_size_limit s1 =? -2 then
      let s' :=
        suspend_recalculate_image_contents false
          (emit Call_drop_pagecache (call (drop_pagecache K) s1)) in
      eat_memory_rest s' (amount_needed true s') true
    else eat_memory_rest s1 (amount_needed true s1) false.
Proof.
  unfold eat_memory, eat_memory_rest. cbv zeta.
  destruct (_ && _); [reflexivity|].
  destruct (image_size_limit _ =? -2); reflexivity.
Qed.

Lemma eat_memory_rest_adds (P : event -> bool) s2 aw2 did2 :
  (forall e, measuring e = true -> P e = true) ->
  P Status_update = true ->
  (image_size_limit s2 <> -1 -> test_result_state SUSPEND_ABORTED s2 = false ->
   P Cond_pause = true /\
   (forall a, P (Status_seeking_to_free a) = true) /\
   (forall i a, P (Call_shrink_one_zone i a) = true)) ->
  log_adds P s2 (eat_memory_rest s2 aw2 did2).
Proof.
  intros Hm Hu Hshrink. unfold eat_memory_rest.
  set (p3 := if _ && _ && _ then _ else _).
  assert (H3 : log_adds P s2 (fst p3)).
  { unfold p3.
    destruct (aw2 >? 0); cbn [andb]; [|now apply log_adds_same].
    destruct (test_result_state SUSPEND_ABORTED s2) eqn:Eab; cbn [negb andb];
      [now apply log_adds_same|].
    destruct (Z.eqb_spec (image_size_limit s2) (-1)) as [E|Hne]; cbn [negb];
      [now apply log_adds_same|].
    destruct (Hshrink Hne eq_refl) as (Hc & Hs & Hz).
    pose proof (shrink_zone_types_adds P Hm Hz zone_types aw2 did2
                  (call (thaw_kernel_threads K) (emit (Status_seeking_to_free aw2) s2)))
      as Hl.
    destruct (shrink_zone_types _ _ _ _) as [[s'' aw''] did]. cbn [fst] in Hl.
    destruct (freeze_processes K _) as [frozen w]. cbn [fst].
    apply log_adds_trans with (s2 := emit Cond_pause s'').
    - apply log_adds_emit; [exact Hc|].
      eapply log_adds_trans; [|exact Hl].
      apply log_adds_emit; [apply Hs|now apply log_adds_same].
    - destruct (negb (frozen =? 0)); now apply log_adds_same. }
  destruct p3 as [s3 did3]. cbn [fst] in H3.
  apply log_adds_emit; [exact Hu|].
  destruct did3; [|exact H3].
  eapply log_adds_trans; [exact H3|].
  eapply log_adds_trans;
    [|apply (log_adds_weaken measuring); [exact Hm|apply recalculate_log]].
  now apply log_adds_same.
Qed.

(** X7.  What [eat_memory] reclaims, and when.  The page cache is dropped
    under the policy "free caches only" ([image_size_limit] = -2) and under
    no other; under that policy it is dropped once, before any zone is
    shrunk, and shrinking the zones may still follow.  No zone is shrunk
    under the policy "don't eat any memory" ([image_size_limit] = -1), nor
    when an abort is flagged already as [eat_memory] is entered. *)
Theorem eat_memory_reclaim_policy (s : state) :
  (image_size_limit s <> -2 ->
   log_adds (fun e => negb (drops_pagecache e)) s (eat_memory s)) /\
  (image_size_limit s = -2 ->
   exists post pre,
     log (eat_memory s) = post ++ Call_drop_pagecache :: pre ++ log s /\
     Forall (fun e => reclaiming e = false) pre /\
     Forall (fun e => drops_pagecache e = false) post) /\
  (image_size_limit s = -1 \/ test_result_state SUSPEND_ABORTED s = true ->
   log_adds (fun e => negb (shrinks_zone e)) s (eat_memory s)).
Proof.
  rewrite eat_memory_unfold. cbv zeta.
  set (s1 := suspend_recalculate_image_contents false s).
  assert (Hl1 : image_size_limit s1 = image_size_limit s)
    by apply recalculate_image_size_limit.
  pose proof (recalculate_log false s) as Hlog1. fold s1 in Hlog1.
  assert (Hm_drop : forall e, measuring e = true -> negb (drops_pagecache e) = true)
    by (intros e; destruct e as [| | | | | |[]| | | | | | | | |]; cbn; congruence).
  assert (Hm_shrink : forall e, measuring e = true -> negb (shrinks_zone e) = true)
    by (intros e; destruct e as [| | | | | |[]| | | | | | | | |]; cbn; congruence).
  assert (Hm_reclaim : forall e, measuring e = true -> reclaiming e = false)
    by (intros e; destruct e as [| | | | | |[]| | | | | | | | |]; cbn; congruence).
  split; [|split].
  - intros Hne. rewrite Hl1.
    destruct (_ && _).
    { eapply log_adds_trans;
        [apply (log_adds_weaken measuring); [exact Hm_drop|exact Hlog1]
        |now apply log_adds_same]. }
    destruct (Z.eqb_spec (image_size_limit s) (-2)) as [E|_]; [now elim Hne|].
    eapply log_adds_trans;
      [apply (log_adds_weaken measuring); [exact Hm_drop|exact Hlog1]|].
    apply eat_memory_rest_adds; [exact Hm_drop|reflexivity|].
    intros _ _. repeat split.
  - intros E. rewrite Hl1, E.
    change (-2 =? -1) with false. change (-2 =? -2) with true.
    cbn [andb]. cbv iota.
    set (sd := emit Call_drop_pagecache (call (drop_pagecache K) s1)).
    set (s' := suspend_recalculate_image_contents false sd).
    destruct Hlog1 as (pre & Epre & Fpre).
    assert (Hrest : log_adds (fun e => negb (drops_pagecache e)) sd
                      (eat_memory_rest s' (amount_needed true s') true)).
    { eapply log_adds_trans;
        [apply (log_adds_weaken measuring); [exact Hm_drop|apply recalculate_log]|].
      apply eat_memory_rest_adds; [exact Hm_drop|reflexivity|].
      intros _ _. repeat split. }
    destruct Hrest as (post & Epost & Fpost).
    exists post, pre. split; [|split].
    + rewrite Epost. unfold sd. cbn [log emit set_log call set_world].
      now rewrite Epre.
    + eapply Forall_impl; [|exact Fpre]. exact Hm_reclaim.
    + eapply Forall_impl; [|exact Fpost]. intros e He.
      now apply negb_true_iff in He.
  - intros Hstop.
    destruct (_ && _).
    { eapply log_adds_trans;
        [apply (log_adds_weaken measuring); [exact Hm_shrink|exact Hlog1]
        |now apply log_adds_same]. }
    assert (Hab1 : test_result_state SUSPEND_ABORTED s = true ->
                   test_result_state SUSPEND_ABORTED s1 = true)
      by apply recalculate_aborted.
    destruct (image_size_limit s1 =? -2).
    + set (sd := emit Call_drop_pagecache (call (drop_pagecache K) s1)).
      set (s' := suspend_recalculate_image_contents false sd).
      eapply log_adds_trans;
        [apply (log_adds_weaken measuring); [exact Hm_shrink|exact Hlog1]|].
      apply log_adds_trans with (s2 := sd);
        [apply log_adds_emit; [reflexivity|now apply log_adds_same]|].
      eapply log_adds_trans;
        [apply (log_adds_weaken measuring); [exact Hm_shrink|apply recalculate_log]|].
      apply eat_memory_rest_adds; [exact Hm_shrink|reflexivity|].
      intros Hne Hnab. exfalso. destruct Hstop as [E|Hab].
      * apply Hne. unfold s'. rewrite recalculate_image_size_limit.
        unfold sd. cbn [image_size_limit emit set_log call set_world]. congruence.
      * assert (test_result_state SUSPEND_ABORTED s' = true); [|congruence].
        apply recalculate_aborted. unfold sd, test_result_state.
        cbn [suspend_result emit set_log call set_world]. now apply Hab1.
    + eapply log_adds_trans;
        [apply (log_adds_weaken measuring); [exact Hm_shrink|exact Hlog1]|].
      apply eat_memory_rest_adds; [exact Hm_shrink|reflexivity|].
      intros Hne Hnab. exfalso. destruct Hstop as [E|Hab].
      * apply Hne. congruence.
      * apply Hab1 in Hab. congruence.
Qed.

End WithKernel.

(** ** A small machine

    A concrete rest-of-the-kernel on which the routines above run: the
    zones and the page attributes are given, the freezer and the devices
    always succeed, reclaiming frees nothing, the page allocator has no
    block to give, [kmalloc] succeeds a given number of times, and the
    storage backend grants what it is asked for. *)

Record machine := mk_machine {
  m_zones : list zone;
  m_valid : Z -> bool;
  m_saveable : Z -> bool;
  m_highmem : Z -> bool;
  m_resave : Z -> bool;
  m_free_pages : Z;
  m_processes : list task;
  m_kmalloc_left : nat;
  m_storage_available : Z;
  m_storage_allocated : Z;
  m_compression_ratio : Z
}.

Definition machine_kmalloc (w : machine) : bool * machine :=
  match m_kmalloc_left w with
  | O => (false, w)
  | S k =>
      (true,
       mk_machine (m_zones w) (m_valid w) (m_saveable w) (m_highmem w) (m_resave w)
                  (m_free_pages w) (m_processes w) k (m_storage_available w)
                  (m_storage_allocated w) (m_compression_ratio w))
  end.

Definition machine_allocate_storage (n : Z) (w : machine) : machine :=
  mk_machine (m_zones w) (m_valid w) (m_saveable w) (m_highmem w) (m_resave w)
             (m_free_pages w) (m_processes w) (m_kmalloc_left w)
             (m_storage_available w) n (m_compression_ratio w).

Definition machine_ops : collaborators machine :=
  {| zones := m_zones;
     pfn_valid := m_valid;
     saveable_page := m_saveable;
     saveable_highmem_page := m_saveable;
     PageHighMem := m_highmem;
     PageResave := m_resave;
     free_list := fun _ _ _ => [];
     zone_pcp := fun _ _ => [];
     nr_free_pages := fun w _ => m_free_pages w;
     nr_inactive := fun _ _ => 0;
     nr_active := fun _ _ => 0;
     inactive_list := fun _ _ => [];
     active_list := fun _ _ => [];
     processes := m_processes;
     kmalloc := machine_kmalloc;
     kfree := fun w => w;
     get_free_pages := fun _ w => (None, w);
     free_pages := fun _ _ w => w;
     shrink_one_zone := fun _ _ w => w;
     drop_pagecache := fun w => w;
     unlink_lru_lists := fun w => w;
     freeze_processes := fun w => (0, w);
     thaw_processes := fun w => w;
     thaw_kernel_threads := fun w => w;
     suspend_console := fun w => w;
     device_suspend := fun w => w;
     local_irq_disable := fun w => w;
     device_power_down := fun w => w;
     device_power_up := fun w => w;
     local_irq_enable := fun w => w;
     device_resume := fun w => w;
     resume_console := fun w => w;
     allocator_storage_available := m_storage_available;
     allocator_allocate_storage := machine_allocate_storage;
     allocator_storage_allocated := m_storage_allocated;
     allocator_allocate_header_space := fun _ w => (0, w);
     suspend_expected_compression_ratio := m_compression_ratio;
     suspend_header_storage_for_modules := fun _ => 0;
     suspend_pageflags_space_needed := fun _ => 0;
     suspend_memory_for_modules := fun _ => 0;
     allocate_checksum_pages := fun w => w;
     calculate_check_checksums := fun _ w => w;
     free_checksum_pages := fun w => w |}.

(** A 32-bit configuration with pages of 4096 bytes. *)
Definition pc_constants (max : Z) : constants :=
  {| max_pfn := max;
     MAX_ORDER := 11;
     MAX_NR_ZONES := 4;
     ZONE_HIGHMEM := 2;
     PAGE_SIZE := 4096;
     PAGE_WORDS := 1024;
     BITS_PER_LONG := 32;
     MIN_FREE_RAM := 100;
     MIN_EXTRA_PAGES_ALLOWANCE := 500;
     sizeof_suspend_header := 512 |}.

(** One populated zone of low memory with [n] page frames from 0. *)
Definition low_zone (n : Z) : zone :=
  {| zone_start_pfn := 0; spanned_pages := n; present_pages := n;
     zone_idx := 0; is_highmem := false |}.

Definition between (a b : Z) : dyn_pageflags := fun p => (a <=? p) && (p <? b).

(** A machine of [n] valid page frames of low memory of which the first
    [excluded] cannot be saved and those from [resave_from] to [resave_to]
    are flagged for resaving. *)
Definition plain_machine (n excluded resave_from resave_to free : Z)
    (tasks : list task) (allocations : nat) : machine :=
  {| m_zones := [low_zone n];
     m_valid := between 0 n;
     m_saveable := fun p => negb (p <? excluded);
     m_highmem := fun _ => false;
     m_resave := between resave_from resave_to;
     m_free_pages := free;
     m_processes := tasks;
     m_kmalloc_left := allocations;
     m_storage_available := 100000;
     m_storage_allocated := 0;
     m_compression_ratio := 100 |}.

(** A session at its start on the machine [w], with the given marks for
    pagesets 1 and 2 and for the copy of pageset 1. *)
Definition session (w : machine) (limit allowance size1 : Z)
    (set1 copy1 set2 : dyn_pageflags) : state :=
  {| world := w;
     ram := fun pfn word => pfn * 4096 + word;
     suspend_result := 0;
     suspend_action := 0;
     suspend_state := 0;
     pagedir1 := mk_pagedir size1 0;
     pagedir2 := mk_pagedir 0 0;
     num_nosave := 0;
     header_space_allocated := 0;
     main_storage_allocated := 0;
     storage_available := 0;
     extra_pd1_pages_allowance := allowance;
     image_size_limit := limit;
     extra_pages_allocated := 0;
     extras_list := [];
     extra_pd1_pages_used := 0;
     nosave_map := clear_dyn_pageflags;
     nosave_free_map := clear_dyn_pageflags;
     pageset1_map := set1;
     pageset1_copy_map := copy1;
     pageset2_map := set2;
     log := [] |}.

(** ** The properties on the small machine *)

Ltac evaluate := vm_compute; repeat split; first [reflexivity | discriminate | lia].

(** Eight page frames; pageset 1 is frames 1 and 2, its copy goes to frames
    5 and 6. *)
Definition copy_session : state :=
  session (plain_machine 8 0 0 0 0 [] 0) 0 0 2
          (between 1 3) (between 5 7) clear_dyn_pageflags.

Lemma suspend_copy_pageset1_fidelity_witness :
  ram (suspend_copy_pageset1 (pc_constants 7) copy_session) 5 0
    = ram copy_session 1 0 /\
  ram (suspend_copy_pageset1 (pc_constants 7) copy_session) 6 1023
    = memory (copy_after (pc_constants 7) 1 copy_session) 2 1023.
Proof.
  destruct (suspend_copy_pageset1_fidelity (pc_constants 7) copy_session)
    as (_ & H & _); [evaluate | evaluate | evaluate |].
  split.
  - apply (H 0%nat 0); evaluate.
  - apply (H 1%nat 1023); evaluate.
Defined.

(** Four page frames found in pageset 1 where none was before, with an
    allowance of one page. *)
Definition grown_session : state :=
  session (plain_machine 4 0 0 0 0 [] 0) 0 1 0
          clear_dyn_pageflags clear_dyn_pageflags clear_dyn_pageflags.

Lemma post_context_save_allowance_witness :
  fst (__suspend_post_context_save machine_ops (pc_constants 3) grown_session) = -1 /\
  test_result_state SUSPEND_EXTRA_PAGES_ALLOW_TOO_SMALL
    (snd (__suspend_post_context_save machine_ops (pc_constants 3) grown_session))
  = true /\
  log (snd (__suspend_post_context_save machine_ops (pc_constants 3) grown_session))
  = [Printk_pageset1_grown 4 1].
Proof.
  destruct (post_context_save_allowance machine_ops (pc_constants 3) grown_session)
    as [H _]; [evaluate|].
  destruct H as (H1 & H2 & _ & _ & H5); [evaluate|].
  split; [exact H1|split; [exact H2|exact H5]].
Defined.

(** The scenario of the design: 1000 page frames, 50 excluded, 300 marked
    for pageset 2 of which 10 are flagged for resaving. *)
Definition scenario_session : state :=
  session (plain_machine 1000 50 50 60 5000 [] 0) 0 10 0
          clear_dyn_pageflags clear_dyn_pageflags (between 50 350).

Lemma resave_scenario_witness :
  size (pagedir1 (flag_image_pages machine_ops (pc_constants 999) false scenario_session))
    = 660 /\
  size (pagedir2 (flag_image_pages machine_ops (pc_constants 999) false scenario_session))
    = 300.
Proof.
  apply (resave_scenario machine_ops (pc_constants 999) scenario_session false);
    evaluate.
Defined.

(** One page frame, marked for pageset 2 and flagged for resaving. *)
Definition resave_session : state :=
  session (plain_machine 1 0 0 1 0 [] 0) 0 0 0
          clear_dyn_pageflags clear_dyn_pageflags (between 0 1).

(** C3 as stated fails: the one valid page of this page space is counted
    in pageset 1 and in pageset 2, and the four counters add up to 2. *)
Lemma classification_partition_counterexample :
  let pass := flag_image_pages_count machine_ops (pc_constants 0) resave_session in
  let scanned := generate_free_page_map machine_ops (pc_constants 0) resave_session in
  count_pages (page_valid machine_ops scanned) (m_zones (world resave_session)) = 1 /\
  size (pagedir1 (fst pass)) = 1 /\
  size (pagedir2 (fst pass)) = 1 /\
  size (pagedir1 (fst pass)) + size (pagedir2 (fst pass))
    + num_nosave (fst pass) + snd pass
  <> count_pages (page_valid machine_ops scanned) (m_zones (world resave_session)).
Proof. evaluate. Qed.

Lemma classification_partition_witness :
  let pass := flag_image_pages_count machine_ops (pc_constants 0) resave_session in
  let scanned := generate_free_page_map machine_ops (pc_constants 0) resave_session in
  size (pagedir1 (fst pass)) + size (pagedir2 (fst pass))
    + num_nosave (fst pass) + snd pass
  = count_pages (page_valid machine_ops scanned) (m_zones (world resave_session))
    + count_pages (in_resave machine_ops scanned) (m_zones (world resave_session)).
Proof.
  destruct (classification_partition machine_ops (pc_constants 0) resave_session)
    as (_ & _ & _ & _ & _ & _ & H); [evaluate | evaluate | exact H].
Defined.

(** 300 page frames, all of pageset 1, plenty of free memory and storage,
    and a cap of one megabyte on the image. *)
Definition capped_session : state :=
  session (plain_machine 300 0 0 0 5000 [] 0) 1 10 0
          clear_dyn_pageflags clear_dyn_pageflags clear_dyn_pageflags.

(** C5 as stated fails: the preparation succeeds, [unlink_lru_lists] is
    called and no abort is flagged, while the amount needed with the user's
    cap taken in is 45 pages. *)
Lemma readiness_condition_counterexample :
  option_map
    (fun out =>
       (fst out,
        existsb (fun e => match e with Call_unlink_lru_lists => true | _ => false end)
                (log (snd out)),
        test_result_state SUSPEND_ABORTED (snd out),
        amount_needed machine_ops (pc_constants 299) true (snd out),
        not_ready machine_ops (pc_constants 299) true (snd out)))
    (suspend_prepare_image machine_ops (pc_constants 299) 2 capped_session)
  = Some (0, true, false, 45, true).
Proof. vm_compute. reflexivity. Qed.

(** The capped session once its pages are counted. *)
Definition measured_session : state :=
  suspend_recalculate_image_contents machine_ops (pc_constants 299) false
    capped_session.

Lemma amount_needed_formulas_witness :
  (highpages_ps1_to_free machine_ops (pc_constants 299) measured_session
   = stated_highpages_to_free machine_ops (pc_constants 299) measured_session /\
   lowpages_ps1_to_free machine_ops (pc_constants 299) measured_session
   = stated_lowpages_to_free machine_ops (pc_constants 299) measured_session /\
   any_to_free machine_ops true measured_session
   = Z.max (stated_storage_shortfall machine_ops measured_session)
           (stated_user_limit_shortfall true measured_session) /\
   amount_needed machine_ops (pc_constants 299) true measured_session
   = stated_amount_needed machine_ops (pc_constants 299) true measured_session) /\
  amount_needed machine_ops (pc_constants 299) true measured_session = 44.
Proof.
  split; [|evaluate].
  apply (amount_needed_formulas machine_ops (pc_constants 299) true measured_session).
  constructor; evaluate.
Defined.

(** A session in which pageset 1 counts 30 000 000 pages. *)
Definition crowded_session : state :=
  session (plain_machine 300 0 0 0 5000 [] 0) 0 10 30000000
          clear_dyn_pageflags clear_dyn_pageflags clear_dyn_pageflags.

(** C6 as stated fails where the [int] arithmetic overflows: with
    30 000 000 pages in pageset 1 and a compression ratio of 100 the product
    of [main_storage_needed] wraps to a negative value, the code finds no
    storage shortfall and asks for the 14 997 555 pages that have to be
    freed for the atomic copy, where the formula gives 30 000 000. *)
Lemma amount_needed_formulas_counterexample :
  size (pagedir1 crowded_session) = 30000000 /\
  main_storage_needed machine_ops true true crowded_session = -12949672 /\
  any_to_free machine_ops false crowded_session = 0 /\
  Z.max (stated_storage_shortfall machine_ops crowded_session)
        (stated_user_limit_shortfall false crowded_session) = 30000000 /\
  amount_needed machine_ops (pc_constants 299) false crowded_session = 14997555 /\
  stated_amount_needed machine_ops (pc_constants 299) false crowded_session
  = 30000000.
Proof. evaluate. Qed.

Lemma prepare_image_bounded_witness :
  exists r s',
    suspend_prepare_image machine_ops (pc_constants 299) 2 capped_session
    = Some (r, s').
Proof.
  destruct (prepare_image_bounded machine_ops (pc_constants 299) 2 capped_session)
    as (s5 & r & s' & new & _ & H & _); [lia | evaluate |].
  exists r, s'. exact H.
Defined.

(** No free memory and the policy not to eat any. *)
Definition dont_eat_session : state :=
  session (plain_machine 300 0 0 0 0 [] 0) (-1) 10 0
          clear_dyn_pageflags clear_dyn_pageflags clear_dyn_pageflags.

Lemma eat_memory_dont_eat_witness :
  test_result_state SUSPEND_WOULD_EAT_MEMORY
    (eat_memory machine_ops (pc_constants 299) dont_eat_session) = true /\
  test_result_state SUSPEND_ABORTED
    (eat_memory machine_ops (pc_constants 299) dont_eat_session) = true.
Proof.
  destruct (eat_memory_dont_eat machine_ops (pc_constants 299) dont_eat_session)
    as (H & _ & _); [evaluate|].
  destruct H as (_ & H1 & H2); [evaluate|]. split; assumption.
Defined.

(** Plenty of free memory, the policy not to eat any, one task that has to
    run through the freeze, and a [kmalloc] that fails. *)
Definition current_task : task :=
  {| task_has_mm := true; task_borrowed_mm := false; task_nofreeze := false;
     task_is_current := true; task_mmap := [] |}.

Definition starved_session : state :=
  session (plain_machine 300 0 0 0 5000 [current_task] 0) (-1) 10 0
          clear_dyn_pageflags clear_dyn_pageflags clear_dyn_pageflags.

(** C8 as stated fails in its last part: nothing has to be freed, and yet
    the call flags an abort, for the attention list could not be
    allocated. *)
Lemma eat_memory_dont_eat_counterexample :
  image_size_limit starved_session = -1 /\
  test_result_state SUSPEND_ABORTED starved_session = false /\
  amount_needed machine_ops (pc_constants 299) true
    (suspend_recalculate_image_contents machine_ops (pc_constants 299) false
       starved_session) <= 0 /\
  test_result_state SUSPEND_ABORTED
    (eat_memory machine_ops (pc_constants 299) starved_session) = true /\
  test_result_state SUSPEND_UNABLE_TO_PREPARE_IMAGE
    (eat_memory machine_ops (pc_constants 299) starved_session) = true.
Proof. evaluate. Qed.

(** The state with which the loop is entered in the capped session. *)
Definition capped_start : state :=
  snd (prepare_image_checks machine_ops (pc_constants 299) capped_session).

Lemma readiness_condition_witness :
  prepare_image_loop machine_ops (pc_constants 299) 2 1 capped_start
  = prepare_image_loop machine_ops (pc_constants 299) 1 (CInt.add 1 1)
      (emit Cond_pause
         (update_image machine_ops (pc_constants 299)
            (eat_memory machine_ops (pc_constants 299)
               (emit (Status_preparing_image 1) capped_start)))).
Proof.
  destruct (readiness_condition machine_ops (pc_constants 299)) as (_ & H & _).
  destruct (H 1%nat 1 capped_start) as (_ & Hgo).
  destruct Hgo as [Hgo _]; [evaluate|].
  destruct Hgo as [E _]; [evaluate|].
  exact E.
Defined.

(** *** The further properties on the small machine *)




(** The small machine with a page allocator that always has a block to
    give: the one of order [n] at page frame 100 + 16 n. *)
Definition generous_ops : collaborators machine :=
  {| zones := m_zones;
     pfn_valid := m_valid;
     saveable_page := m_saveable;
     saveable_highmem_page := m_saveable;
     PageHighMem := m_highmem;
     PageResave := m_resave;
     free_list := fun _ _ _ => [];
     zone_pcp := fun _ _ => [];
     nr_free_pages := fun w _ => m_free_pages w;
     nr_inactive := fun _ _ => 0;
     nr_active := fun _ _ => 0;
     inactive_list := fun _ _ => [];
     active_list := fun _ _ => [];
     processes := m_processes;
     kmalloc := fun w => (true, w);
     kfree := fun w => w;
     get_free_pages := fun order w => (Some (100 + 16 * order), w);
     free_pages := fun _ _ w => w;
     shrink_one_zone := fun _ _ w => w;
     drop_pagecache := fun w => w;
     unlink_lru_lists := fun w => w;
     freeze_processes := fun w => (0, w);
     thaw_processes := fun w => w;
     thaw_kernel_threads := fun w => w;
     suspend_console := fun w => w;
     device_suspend := fun w => w;
     local_irq_disable := fun w => w;
     device_power_down := fun w => w;
     device_power_up := fun w => w;
     local_irq_enable := fun w => w;
     device_resume := fun w => w;
     resume_console := fun w => w;
     allocator_storage_available := m_storage_available;
     allocator_allocate_storage := machine_allocate_storage;
     allocator_storage_allocated := m_storage_allocated;
     allocator_allocate_header_space := fun _ w => (0, w);
     suspend_expected_compression_ratio := m_compression_ratio;
     suspend_header_storage_for_modules := fun _ => 0;
     suspend_pageflags_space_needed := fun _ => 0;
     suspend_memory_for_modules := fun _ => 0;
     allocate_checksum_pages := fun w => w;
     calculate_check_checksums := fun _ w => w;
     free_checksum_pages := fun w => w |}.

Lemma allocate_extra_pagedir_memory_accounts_witness :
  fst (suspend_allocate_extra_pagedir_memory generous_ops (pc_constants 299) 5
         capped_session) = 5 /\
  extras_list (snd (suspend_allocate_extra_pagedir_memory generous_ops
                      (pc_constants 299) 5 capped_session))
  = [mk_extras 100 0; mk_extras 132 2] /\
  extras_accounted
    (snd (suspend_allocate_extra_pagedir_memory generous_ops (pc_constants 299) 5
            capped_session)).
Proof.
  destruct (allocate_extra_pagedir_memory_accounts generous_ops (pc_constants 299) 5
              capped_session) as (H & _ & _).
  - vm_compute. split; discriminate.
  - vm_compute. split; discriminate.
  - vm_compute. split; discriminate.
  - constructor; [reflexivity|constructor|intros e p []].
  - split; [reflexivity|]. split; [reflexivity|exact H].
Defined.

Lemma update_image_reaches_storage_witness :
  log_adds (fun e => negb (wants_extra_pages e)) capped_session
    (update_image machine_ops (pc_constants 299) capped_session).
Proof.
  destruct (update_image_reaches_storage machine_ops (pc_constants 299) capped_session)
    as [_ H].
  - vm_compute. split; discriminate.
  - vm_compute. split; discriminate.
  - exact H.
Defined.

(** A session that holds one block of four extra pages from page frame 100
    on. *)
Definition extras_session : state :=
  set_extras_list [mk_extras 100 2]
    (set_extra_pages_allocated 4
       (set_nosave_map (between 100 104)
          (set_pageset1_copy_map (between 100 104) capped_session))).

Lemma free_extra_pagedir_memory_resets_witness :
  extras_list (suspend_free_extra_pagedir_memory machine_ops extras_session) = [] /\
  nosave_map (suspend_free_extra_pagedir_memory machine_ops extras_session) 101
  = false /\
  pageset1_copy_map (suspend_free_extra_pagedir_memory machine_ops extras_session) 101
  = true.
Proof.
  destruct (free_extra_pagedir_memory_resets machine_ops extras_session)
    as (H1 & _ & _ & _ & _ & H6).
  - constructor.
    + reflexivity.
    + repeat constructor; cbn; lia.
    + intros e p [<-|[]] Hp. split; exact Hp.
  - split; [exact H1|].
    apply (H6 (mk_extras 100 2) 101); [now left|reflexivity].
Defined.



(** A task with [PF_NOFREEZE] whose address space holds the page frames 7
    and 8, on a machine that can allocate its entry on the attention
    list. *)
Definition helper_task : task :=
  {| task_has_mm := true; task_borrowed_mm := false; task_nofreeze := true;
     task_is_current := false;
     task_mmap := [mk_vma false 4096 [7; 8]] |}.

Definition helper_session : state :=
  session (plain_machine 300 0 0 0 5000 [helper_task] 1) 0 10 0
          clear_dyn_pageflags clear_dyn_pageflags clear_dyn_pageflags.

Lemma attention_tasks_out_of_pageset2_witness :
  pageset2_map (suspend_mark_pages_for_pageset2 machine_ops helper_session) 7 = false.
Proof.
  apply (attention_tasks_out_of_pageset2 machine_ops helper_session) with (t := helper_task).
  - reflexivity.
  - intros w. unfold machine_ops, machine_kmalloc; cbn.
    now destruct (m_kmalloc_left w).
  - vm_compute. reflexivity.
  - now left.
  - reflexivity.
  - now left.
Defined.

(** The policy "free caches only" where a megabyte has to be found. *)
Definition caches_only_session : state :=
  session (plain_machine 300 0 0 0 0 [] 0) (-2) 10 0
          clear_dyn_pageflags clear_dyn_pageflags clear_dyn_pageflags.

Lemma eat_memory_reclaim_policy_witness :
  exists post pre,
    log (eat_memory machine_ops (pc_constants 299) caches_only_session)
    = post ++ Call_drop_pagecache :: pre ++ log caches_only_session /\
    Forall (fun e => reclaiming e = false) pre /\
    Forall (fun e => drops_pagecache e = false) post.
Proof.
  destruct (eat_memory_reclaim_policy machine_ops (pc_constants 299)
              caches_only_session) as (_ & H & _).
  apply H. reflexivity.
Defined.

End Engine.

(** ** Pages for the image being loaded ([pagedir.c]) *)

Module Restore.

Import PageFlags.

Definition SUSPEND_LOADING_ALT_IMAGE : Z := 15.

(** What [___suspend_get_nonconflicting_page] and [free_conflicting_pages]
    work on: the suspend state word, the bitmap of pageset 2 (which may not
    be allocated) and that of pageset 1, the cursor [ps2_pfn], the head of
    the list of conflicting pages, the pointer each page holds in its first
    word, and the pages the page allocator has left to give, in the order
    in which it considers them. *)
Record state := mk_state {
  suspend_state : Z;
  pageset2_map : option dyn_pageflags;
  pageset1_map : dyn_pageflags;
  ps2_pfn : Z;
  first_conflicting_page : option Z;
  page_link : Z -> option Z;
  free_pool : list Z
}.

Definition set_ps2_pfn (v : Z) (s : state) : state :=
  {| suspend_state := suspend_state s; pageset2_map := pageset2_map s;
     pageset1_map := pageset1_map s; ps2_pfn := v;
     first_conflicting_page := first_conflicting_page s;
     page_link := page_link s; free_pool := free_pool s |}.

Definition set_free_pool (v : list Z) (s : state) : state :=
  {| suspend_state := suspend_state s; pageset2_map := pageset2_map s;
     pageset1_map := pageset1_map s; ps2_pfn := ps2_pfn s;
     first_conflicting_page := first_conflicting_page s;
     page_link := page_link s; free_pool := v |}.

(** [*next = first_conflicting_page; first_conflicting_page = page]. *)
Definition chain_conflicting_page (page : Z) (s : state) : state :=
  {| suspend_state := suspend_state s; pageset2_map := pageset2_map s;
     pageset1_map := pageset1_map s; ps2_pfn := ps2_pfn s;
     first_conflicting_page := Some page;
     page_link :=
       fun p => if p =? page then first_conflicting_page s else page_link s p;
     free_pool := free_pool s |}.

Definition unchain_conflicting_page (next : option Z) (s : state) : state :=
  {| suspend_state := suspend_state s; pageset2_map := pageset2_map s;
     pageset1_map := pageset1_map s; ps2_pfn := ps2_pfn s;
     first_conflicting_page := next;
     page_link := page_link s; free_pool := free_pool s |}.

Definition test_suspend_state (bit : Z) (s : state) : bool :=
  Flags.test_bit bit (suspend_state s).

Section WithMemory.

Variable max_pfn : Z.
Variable PageHighMem : Z -> bool.

(** The first page of the pool that [ok] admits, and the pool without it. *)
Fixpoint take (ok : Z -> bool) (pool : list Z) : option (Z * list Z) :=
  match pool with
  | [] => None
  | p :: rest =>
      if ok p then Some (p, rest)
      else
        match take ok rest with
        | Some (q, rest') => Some (q, p :: rest')
        | None => None
        end
  end.

(** Modelled from the spec: the page allocator behind [alloc_pages] and
    [__free_page], absent from the sources.  An allocation of order 0 gives
    a page out of the pool, a page of high memory only when [__GFP_HIGHMEM]
    is among the flags, and no page when the pool has none to give; a page
    freed goes back to the pool. *)
Definition alloc_pages (gfp_highmem : bool) (s : state) : option Z * state :=
  match take (fun p => gfp_highmem || negb (PageHighMem p)) (free_pool s) with
  | Some (page, rest) => (Some page, set_free_pool rest s)
  | None => (None, s)
  end.

Definition __free_page (page : Z) (s : state) : state :=
  set_free_pool (page :: free_pool s) s.

(** [free_conflicting_pages]; [None] when [fuel] turns did not reach the
    end of the list. *)
Fixpoint free_conflicting_pages (fuel : nat) (s : state) : option state :=
  match first_conflicting_page s with
  | None => Some s
  | Some page =>
      match fuel with
      | O => None
      | S f =>
          let next := page_link s page in
          free_conflicting_pages f (unchain_conflicting_page next (__free_page page s))
      end
  end.

(** The first loop of [___suspend_get_nonconflicting_page]: look for a
    page of pageset 2 that is not of pageset 1, from the cursor on. *)
Fixpoint recycle (fuel : nat) (map2 : dyn_pageflags) (can_be_highmem : bool)
    (s : state) : option (option Z * state) :=
  match fuel with
  | O => None
  | S f =>
      let s1 := set_ps2_pfn (get_next_bit_on max_pfn map2 (ps2_pfn s)) s in
      if ps2_pfn s1 <=? max_pfn then
        if negb (pageset1_map s1 (ps2_pfn s1))
           && (can_be_highmem || negb (PageHighMem (ps2_pfn s1)))
        then Some (Some (ps2_pfn s1), s1)
        else if ps2_pfn s1 <? max_pfn then recycle f map2 can_be_highmem s1
        else Some (None, s1)
      else
        let s2 := set_ps2_pfn (ps2_pfn s1 + 1) s1 in
        if ps2_pfn s2 <? max_pfn then recycle f map2 can_be_highmem s2
        else Some (None, s2)
  end.

(** The second loop: allocate until the page is not one of pageset 1,
    chaining the pages that are. *)
Fixpoint allocate_fresh (fuel : nat) (can_be_highmem : bool) (s : state)
  : option (option Z * state) :=
  match fuel with
  | O => None
  | S f =>
      match alloc_pages can_be_highmem s with
      | (None, s1) => Some (None, s1)
      | (Some page, s1) =>
          if pageset1_map s1 page
          then allocate_fresh f can_be_highmem (chain_conflicting_page page s1)
          else Some (Some page, s1)
      end
  end.

(** [___suspend_get_nonconflicting_page].  The first loop moves the cursor
    forward at every turn after the first, and every turn of the second
    takes a page out of the pool. *)
Definition ___suspend_get_nonconflicting_page (can_be_highmem : bool) (s : state)
  : option (option Z * state) :=
  let fresh s' := allocate_fresh (S (length (free_pool s'))) can_be_highmem s' in
  match pageset2_map s with
  | Some map2 =>
      if test_suspend_state SUSPEND_LOADING_ALT_IMAGE s
         && (ps2_pfn s <? max_pfn + 2)
      then
        match recycle (Z.to_nat (max_pfn + 2)) map2 can_be_highmem s with
        | None => None
        | Some (Some page, s1) => Some (Some page, s1)
        | Some (None, s1) => fresh s1
        end
      else fresh s
  | None => fresh s
  end.

(** The list of conflicting pages, as the pointers in the pages link it. *)
Inductive chain_is (link : Z -> option Z) : option Z -> list Z -> Prop :=
| chain_end : chain_is link None []
| chain_page page rest :
    chain_is link (link page) rest -> chain_is link (Some page) (page :: rest).

(** *** Properties of the allocator of pages that do not conflict *)

Definition option_list (r : option Z) : list Z :=
  match r with Some p => [p] | None => [] end.

Lemma take_spec ok pool : forall p rest,
  take ok pool = Some (p, rest) -> ok p = true /\ Permutation pool (p :: rest).
Proof.
  induction pool as [|q pool IH]; intros p rest H; [discriminate|].
  cbn [take] in H. destruct (ok q) eqn:E.
  - injection H as <- <-. now split.
  - destruct (take ok pool) as [[q' rest']|]; [|discriminate].
    injection H as <- <-. destruct (IH q' rest' eq_refl) as [Hok Hperm].
    split; [exact Hok|].
    rewrite perm_swap. now constructor.
Qed.

Lemma chain_is_ext link link' first l :
  (forall p, In p l -> link' p = link p) ->
  chain_is link first l -> chain_is link' first l.
Proof.
  intros H Hc. induction Hc as [|page rest Hc IH]; [constructor|].
  constructor. rewrite H by now left.
  apply IH. intros p Hp. apply H. now right.
Qed.

(** The frame of a call: what it never writes. *)
Definition same_maps (s s' : state) : Prop :=
  suspend_state s' = suspend_state s /\ pageset2_map s' = pageset2_map s /\
  pageset1_map s' = pageset1_map s.

Lemma allocate_fresh_total can_be_highmem fuel : forall s,
  (length (free_pool s) < fuel)%nat ->
  exists out, allocate_fresh fuel can_be_highmem s = Some out.
Proof.
  induction fuel as [|fuel IH]; intros s Hfuel; [lia|].
  cbn [allocate_fresh]. unfold alloc_pages.
  destruct (take _ (free_pool s)) as [[page rest]|] eqn:E; [|eexists; reflexivity].
  cbn [pageset1_map set_free_pool].
  destruct (pageset1_map s page); [|eexists; reflexivity].
  apply IH. cbn [free_pool chain_conflicting_page set_free_pool].
  apply take_spec in E as [_ Hperm]. apply Permutation_length in Hperm.
  cbn [length] in Hperm. lia.
Qed.

Lemma allocate_fresh_spec can_be_highmem fuel : forall s l r s',
  chain_is (page_link s) (first_conflicting_page s) l ->
  (forall p, In p l -> ~ In p (free_pool s)) ->
  NoDup (free_pool s) ->
  allocate_fresh fuel can_be_highmem s = Some (r, s') ->
  exists conflicts,
    chain_is (page_link s') (first_conflicting_page s') (rev conflicts ++ l) /\
    Permutation (free_pool s) (conflicts ++ option_list r ++ free_pool s') /\
    Forall (fun p => pageset1_map s p = true) conflicts /\
    (forall page, r = Some page ->
       pageset1_map s page = false /\
       (can_be_highmem || negb (PageHighMem page)) = true) /\
    same_maps s s' /\ ps2_pfn s' = ps2_pfn s.
Proof.
  induction fuel as [|fuel IH]; intros s l r s' Hchain Hdisj Hnodup H; [discriminate|].
  cbn [allocate_fresh] in H. unfold alloc_pages in H.
  destruct (take _ (free_pool s)) as [[page rest]|] eqn:E.
  - apply take_spec in E as [Hok Hperm].
    cbn [pageset1_map set_free_pool] in H.
    destruct (pageset1_map s page) eqn:Hps1.
    + assert (Hnd : NoDup (page :: rest)) by (eapply Permutation_NoDup; eassumption).
      inversion Hnd as [|? ? Hnotin Hnd']; subst.
      assert (Hpage : ~ In page l).
      { intros Hin. apply (Hdisj page Hin).
        apply (Permutation_in _ (Permutation_sym Hperm)). now left. }
      destruct (IH (chain_conflicting_page page (set_free_pool rest s))
                   (page :: l) r s') as (conflicts & Hc & Hp & Hf & Hr & Hm & Hcur).
      * cbn [page_link first_conflicting_page chain_conflicting_page set_free_pool].
        constructor. rewrite Z.eqb_refl.
        apply (chain_is_ext (page_link s)); [|exact Hchain].
        intros p Hp. destruct (Z.eqb_spec p page); [subst; contradiction|reflexivity].
      * cbn [free_pool chain_conflicting_page set_free_pool].
        intros p [<-|Hp]; [exact Hnotin|].
        intros Hin. apply (Hdisj p Hp).
        apply (Permutation_in _ (Permutation_sym Hperm)). now right.
      * exact Hnd'.
      * exact H.
      * exists (page :: conflicts). cbn [rev]. rewrite <- app_assoc. cbn [app].
        cbn [free_pool chain_conflicting_page set_free_pool pageset1_map] in Hp, Hf, Hr.
        split; [exact Hc|]. split; [|split; [|split; [exact Hr|split]]].
        -- etransitivity; [exact Hperm|]. cbn [app]. now constructor.
        -- constructor; assumption.
        -- destruct Hm as (H1 & H2 & H3). repeat split; assumption.
        -- exact Hcur.
    + injection H as <- <-. exists []. cbn [rev app option_list].
      split; [exact Hchain|]. split; [exact Hperm|]. split; [constructor|].
      split; [|split; [repeat split|reflexivity]].
      intros p Hp. injection Hp as <-. now split.
  - injection H as <- <-. exists []. cbn [rev app option_list].
    split; [exact Hchain|]. split; [reflexivity|]. split; [constructor|].
    split; [discriminate|]. split; [repeat split|reflexivity].
Qed.

(** The state the first loop works on differs from the one it started from
    in the cursor only. *)
Lemma recycle_spec map2 can_be_highmem fuel : forall s r s',
  recycle fuel map2 can_be_highmem s = Some (r, s') ->
  (forall page, r = Some page ->
     pageset1_map s page = false /\
     (can_be_highmem || negb (PageHighMem page)) = true) /\
  same_maps s s' /\
  first_conflicting_page s' = first_conflicting_page s /\
  page_link s' = page_link s /\ free_pool s' = free_pool s.
Proof.
  induction fuel as [|fuel IH]; intros s r s' H; [discriminate|].
  cbn [recycle] in H.
  set (s1 := set_ps2_pfn (get_next_bit_on max_pfn map2 (ps2_pfn s)) s) in *.
  destruct (ps2_pfn s1 <=? max_pfn).
  - destruct (negb (pageset1_map s1 (ps2_pfn s1))
              && (can_be_highmem || negb (PageHighMem (ps2_pfn s1)))) eqn:E.
    + injection H as <- <-. apply andb_true_iff in E as [E1 E2].
      apply negb_true_iff in E1.
      split; [|repeat split]. intros page Hp. injection Hp as <-. now split.
    + destruct (ps2_pfn s1 <? max_pfn).
      * apply IH in H. exact H.
      * injection H as <- <-. split; [discriminate|repeat split].
  - destruct (ps2_pfn (set_ps2_pfn (ps2_pfn s1 + 1) s1) <? max_pfn).
    + apply IH in H. exact H.
    + injection H as <- <-. split; [discriminate|repeat split].
Qed.

(** The measure of the first loop: the turns it may still take. *)
Definition turns_left (cursor : Z) : Z :=
  if cursor =? max_pfn + 1 then max_pfn + 2 else max_pfn - cursor + 1.

Lemma recycle_total map2 can_be_highmem : 0 <= max_pfn -> forall fuel s,
  0 <= ps2_pfn s <= max_pfn + 1 ->
  turns_left (ps2_pfn s) <= Z.of_nat fuel ->
  exists out, recycle fuel map2 can_be_highmem s = Some out.
Proof.
  intros Hmax. induction fuel as [|fuel IH]; intros s Hcur Hfuel.
  - unfold turns_left in Hfuel. destruct (Z.eqb_spec (ps2_pfn s) (max_pfn + 1)); lia.
  - cbn [recycle].
    set (g := get_next_bit_on max_pfn map2 (ps2_pfn s)).
    assert (Hg : 0 <= g <= max_pfn + 1 /\
                 (ps2_pfn s <> max_pfn + 1 -> ps2_pfn s < g)).
    { unfold g. destruct (Z.eq_dec (ps2_pfn s) (max_pfn + 1)) as [->|Hne].
      - split; [now apply get_next_bit_on_start|congruence].
      - pose proof (get_next_bit_on_after max_pfn map2 (ps2_pfn s) ltac:(lia)).
        split; [lia|intros _; lia]. }
    cbn [ps2_pfn set_ps2_pfn pageset1_map].
    destruct (Z.leb_spec g max_pfn) as [Hle|Hgt].
    + destruct (_ && _); [eexists; reflexivity|].
      destruct (Z.ltb_spec g max_pfn) as [Hlt|_]; [|eexists; reflexivity].
      apply IH; cbn [ps2_pfn set_ps2_pfn]; [lia|].
      unfold turns_left in *.
      destruct (Z.eqb_spec g (max_pfn + 1)); [lia|].
      destruct (Z.eqb_spec (ps2_pfn s) (max_pfn + 1)); lia.
    + destruct (Z.ltb_spec (g + 1) max_pfn) as [Hlt|_]; [lia|eexists; reflexivity].
Qed.

Lemma free_conflicting_pages_spec l : forall s fuel,
  chain_is (page_link s) (first_conflicting_page s) l ->
  (length l <= fuel)%nat ->
  exists s',
    free_conflicting_pages fuel s = Some s' /\
    first_conflicting_page s' = None /\
    free_pool s' = rev l ++ free_pool s /\
    same_maps s s'.
Proof.
  induction l as [|page rest IH]; intros s fuel Hchain Hfuel.
  - inversion Hchain as [Hfirst|]. exists s.
    destruct fuel; cbn [free_conflicting_pages]; rewrite <- Hfirst;
      repeat split; reflexivity.
  - inversion Hchain as [|page' rest' Hrest Hfirst]; subst.
    destruct fuel as [|fuel]; [cbn in Hfuel; lia|].
    cbn [free_conflicting_pages]. rewrite <- Hfirst.
    destruct (IH (unchain_conflicting_page (page_link s page) (__free_page page s)) fuel)
      as (s' & Hrun & Hnone & Hpool & Hm1 & Hm2 & Hm3).
    + exact Hrest.
    + cbn [length] in Hfuel. lia.
    + exists s'. split; [exact Hrun|]. split; [exact Hnone|]. split.
      * rewrite Hpool. cbn [rev free_pool unchain_conflicting_page __free_page set_free_pool].
        now rewrite <- app_assoc.
      * repeat split; assumption.
Qed.

(** What a call leaves behind: the page returned, the pages that were
    chained, and the release of the chain. *)
Definition call_outcome (can_be_highmem : bool) (s : state) (l : list Z)
    (r : option Z) (s' : state) (conflicts : list Z) : Prop :=
  (forall page, r = Some page ->
     pageset1_map s page = false /\
     (PageHighMem page = true -> can_be_highmem = true)) /\
  Forall (fun p => pageset1_map s p = true /\ In p (free_pool s)) conflicts /\
  chain_is (page_link s') (first_conflicting_page s') (rev conflicts ++ l) /\
  (forall p, In p (rev conflicts ++ l) -> ~ In p (free_pool s')) /\
  (forall p, In p (free_pool s) ->
     In p (free_pool s') \/ In p conflicts \/ r = Some p) /\
  exists s'',
    free_conflicting_pages (length (rev conflicts ++ l)) s' = Some s'' /\
    first_conflicting_page s'' = None /\
    (forall p, In p (rev conflicts ++ l) -> In p (free_pool s'')).

Lemma highmem_allowed can_be_highmem page :
  (can_be_highmem || negb (PageHighMem page)) = true ->
  PageHighMem page = true -> can_be_highmem = true.
Proof. destruct can_be_highmem, (PageHighMem page); cbn; congruence. Qed.

Lemma allocate_fresh_outcome can_be_highmem s l :
  chain_is (page_link s) (first_conflicting_page s) l ->
  (forall p, In p l -> ~ In p (free_pool s)) ->
  NoDup (free_pool s) ->
  exists r s' conflicts,
    allocate_fresh (S (length (free_pool s))) can_be_highmem s = Some (r, s') /\
    call_outcome can_be_highmem s l r s' conflicts.
Proof.
  intros Hchain Hdisj Hnodup.
  destruct (allocate_fresh_total can_be_highmem (S (length (free_pool s))) s ltac:(lia))
    as ([r s'] & Hrun).
  destruct (allocate_fresh_spec can_be_highmem _ s l r s' Hchain Hdisj Hnodup Hrun)
    as (conflicts & Hc & Hperm & Hf & Hr & Hm & Hcur).
  exists r, s', conflicts. split; [exact Hrun|].
  assert (Hnd : NoDup (conflicts ++ option_list r ++ free_pool s'))
    by (eapply Permutation_NoDup; eassumption).
  assert (Hkept : forall p, In p (rev conflicts ++ l) -> ~ In p (free_pool s')).
  { intros p Hp Hin. apply in_app_or in Hp as [Hp|Hp].
    - apply in_rev in Hp.
      apply NoDup_app_remove_r in Hnd as Hnd1.
      assert (Hnd2 : NoDup (conflicts ++ free_pool s')).
      { clear - Hnd. induction conflicts as [|c cs IH]; cbn [app] in *.
        - now apply NoDup_app_remove_l in Hnd.
        - inversion Hnd as [|? ? Hn Hnd']; subst. constructor; [|now apply IH].
          intros Hin. apply Hn.
          apply in_app_or in Hin as [Hin|Hin]; apply in_or_app; [now left|].
          right. apply in_or_app. now right. }
      clear - Hp Hin Hnd2. induction conflicts as [|c cs IH]; [contradiction|].
      cbn [app] in Hnd2. inversion Hnd2 as [|? ? Hn Hnd']; subst.
      destruct Hp as [<-|Hp]; [apply Hn, in_or_app; now right|now apply IH].
    - apply (Hdisj p Hp). apply (Permutation_in _ (Permutation_sym Hperm)).
      apply in_or_app. right. apply in_or_app. now right. }
  split; [|split; [|split; [exact Hc|split; [exact Hkept|split]]]].
  - intros page Hp. destruct (Hr page Hp) as [H1 H2].
    split; [exact H1|now apply highmem_allowed].
  - rewrite Forall_forall in *. intros p Hp. split; [now apply Hf|].
    apply (Permutation_in _ (Permutation_sym Hperm)). apply in_or_app. now left.
  - intros p Hp. apply (Permutation_in _ Hperm) in Hp.
    apply in_app_or in Hp as [Hp|Hp]; [right; now left|].
    apply in_app_or in Hp as [Hp|Hp]; [|now left].
    right. right. destruct r as [q|]; [|contradiction].
    destruct Hp as [<-|[]]. reflexivity.
  - destruct (free_conflicting_pages_spec (rev conflicts ++ l) s'
                (length (rev conflicts ++ l)) Hc ltac:(lia))
      as (s'' & Hfree & Hnone & Hpool & _).
    exists s''. split; [exact Hfree|]. split; [exact Hnone|].
    intros p Hp. rewrite Hpool. apply in_or_app. left. now apply -> in_rev.
Qed.

Lemma call_outcome_transport can_be_highmem s s1 l r s' conflicts :
  pageset1_map s1 = pageset1_map s -> free_pool s1 = free_pool s ->
  call_outcome can_be_highmem s1 l r s' conflicts ->
  call_outcome can_be_highmem s l r s' conflicts.
Proof. unfold call_outcome. now intros -> ->. Qed.

(** C9.  The allocator of pages that do not conflict: on a state whose
    chain of conflicting pages [l] is apart from the pages the allocator
    still has, a call returns; a page it returns is not a page of pageset
    1, and is a page of high memory only if [can_be_highmem] was set; the
    pages of pageset 1 that the allocator handed out on the way are not
    given back to it during the call: they are put in front of the chain,
    through the pointer each holds, none of the chain is in the allocator's
    pool afterwards, and [free_conflicting_pages] then walks the whole
    chain, gives every page of it back and leaves the chain empty. *)
Theorem nonconflicting_page_postcondition (can_be_highmem : bool) (s : state)
    (l : list Z) :
  0 <= max_pfn ->
  0 <= ps2_pfn s ->
  chain_is (page_link s) (first_conflicting_page s) l ->
  (forall p, In p l -> ~ In p (free_pool s)) ->
  NoDup (free_pool s) ->
  exists r s' conflicts,
    ___suspend_get_nonconflicting_page can_be_highmem s = Some (r, s') /\
    call_outcome can_be_highmem s l r s' conflicts.
Proof.
  intros Hmax Hcur Hchain Hdisj Hnodup.
  unfold ___suspend_get_nonconflicting_page.
  pose proof (allocate_fresh_outcome can_be_highmem s l Hchain Hdisj Hnodup) as Hfresh.
  destruct (pageset2_map s) as [map2|]; [|exact Hfresh].
  destruct (test_suspend_state SUSPEND_LOADING_ALT_IMAGE s
            && (ps2_pfn s <? max_pfn + 2)) eqn:Eguard; [|exact Hfresh].
  apply andb_true_iff in Eguard as [_ Elt]. apply Z.ltb_lt in Elt.
  destruct (recycle_total map2 can_be_highmem Hmax (Z.to_nat (max_pfn + 2)) s)
    as ([r1 s1] & Hrun); [lia| |].
  { unfold turns_left. destruct (Z.eqb_spec (ps2_pfn s) (max_pfn + 1)); lia. }
  rewrite Hrun.
  destruct (recycle_spec map2 can_be_highmem _ s r1 s1 Hrun)
    as (Hr & (_ & _ & Hm1) & Hfirst & Hlink & Hpool).
  destruct r1 as [page|].
  - exists (Some page), s1, []. split; [reflexivity|].
    unfold call_outcome. cbn [rev app]. rewrite Hfirst, Hlink, Hpool.
    split; [|split; [constructor|split; [exact Hchain|split; [exact Hdisj|split]]]].
    + intros q Hq. destruct (Hr q Hq) as [H1 H2].
      split; [exact H1|now apply highmem_allowed].
    + intros p Hp. now left.
    + destruct (free_conflicting_pages_spec l s1 (length l)) as (s'' & Hfree & Hnone & Hp & _).
      * now rewrite Hfirst, Hlink.
      * lia.
      * exists s''. split; [exact Hfree|]. split; [exact Hnone|].
        intros p Hin. rewrite Hp. apply in_or_app. left. now apply -> in_rev.
  - destruct (allocate_fresh_outcome can_be_highmem s1 l) as (r & s' & conflicts & Hf & Ho).
    + now rewrite Hfirst, Hlink.
    + now rewrite Hpool.
    + now rewrite Hpool.
    + exists r, s', conflicts. split; [exact Hf|].
      now apply (call_outcome_transport can_be_highmem s s1).
Qed.

End WithMemory.

(** Eight page frames of which 6 and 7 are high memory; pageset 1 is to be
    restored to frames 2 and 3; the allocator would give 2, 3, 6 and 4, in
    this order. *)
Definition loading_state : state :=
  {| suspend_state := 0;
     pageset2_map := None;
     pageset1_map := fun p => (2 <=? p) && (p <? 4);
     ps2_pfn := 8;
     first_conflicting_page := None;
     page_link := fun _ => None;
     free_pool := [2; 3; 6; 4] |}.

Lemma nonconflicting_page_postcondition_witness :
  exists r s' conflicts,
    ___suspend_get_nonconflicting_page 7 (fun p => 6 <=? p) false loading_state
      = Some (r, s') /\
    call_outcome (fun p => 6 <=? p) false loading_state [] r s' conflicts.
Proof.
  apply (nonconflicting_page_postcondition 7 (fun p => 6 <=? p) false loading_state []).
  - lia.
  - cbn. lia.
  - constructor.
  - intros p [].
  - repeat constructor; cbn; lia.
Defined.

End Restore.

(** ** Going atomic and coming back ([atomic_copy.c]) *)

Module Atomic.

(** Action states, result states and suspend states: the positions in the
    enumerations of [tuxonice.h] and [linux/suspend.h]. *)
Definition SUSPEND_PM_PREPARE_CONSOLE : Z := 12.
Definition SUSPEND_LATE_CPU_HOTPLUG : Z := 19.

Definition SUSPEND_ABORTED : Z := 0.
Definition SUSPEND_DEVICE_REFUSED : Z := 9.
Definition SUSPEND_CPU_HOTPLUG_FAILED : Z := 18.
Definition SUSPEND_ARCH_PREPARE_FAILED : Z := 19.

Definition SUSPEND_PAGESET2_NOT_LOADED : Z := 6.
Definition SUSPEND_NOW_RESUMING : Z := 11.

(** Modelled from the spec: the stages of [atomic_copy.h], absent from the
    sources; they are the names the [switch] of [suspend2_end_atomic] has
    cases for, from the one that undoes everything to the one that undoes
    the least. *)
Inductive atomic_stage :=
| ATOMIC_ALL_STEPS
| ATOMIC_STEP_IRQS
| ATOMIC_STEP_CPU_HOTPLUG
| ATOMIC_STEP_DEVICE_RESUME
| ATOMIC_STEP_RESUME_CONSOLE.

(** The functions of the rest of the kernel that the atomic steps call. *)
Inductive callee :=
| Pm_prepare_console
| Suspend_console
| Device_suspend (pm_message : Z)
| Disable_nonboot_cpus
| Arch_prepare_suspend
| Local_irq_disable
| Device_power_down
| Device_power_up
| Local_irq_enable
| Enable_nonboot_cpus
| Device_resume
| Resume_console
| Pm_restore_console
| Suspend_prepare_status
| Free_pbe_list (highmem : bool)
| Save_processor_state
| Swsusp_arch_resume
| Suspend2_lowlevel_builtin
| Copyback_high
| Suspend_activate_storage
| Suspend_ui_post_atomic_restore
| Suspend_cond_pause
| Read_pageset2.

(** A call that was made, and what it returned (0 for a [void] function). *)
Record event := Called { who : callee; returned : Z }.

Section WithKernel.

Context {W : Type}.

(** The rest of the kernel: what a call returns and what it leaves, and
    the variable [suspend2_in_suspend] that the low level code owns. *)
Variable kernel : callee -> W -> Z * W.
Variable suspend2_in_suspend : W -> Z.

(** Constants whose definitions are not part of the sources. *)
Variable PMSG_PRETHAW : Z.
Variable COMMAND_LINE_SIZE : Z.

(** The variables the atomic steps read and write; the [__nosavedata]
    variables are the ones named [nosave]; arrays are functions of their
    indices; the record of calls has the latest first. *)
Record state := mk_state {
  world : W;
  suspend_action : Z;
  suspend_debug_state : Z;
  console_loglevel : Z;
  suspend_io_time : Z -> Z -> Z;
  suspend_state : Z;
  suspend_result : Z;
  suspend2_running : Z;
  saved_command_line : Z -> Z;
  suspend2_nosave_state1 : Z;
  suspend2_nosave_state2 : Z;
  suspend2_nosave_state3 : Z;
  suspend2_nosave_io_speed : Z -> Z -> Z;
  suspend2_nosave_commandline : Z -> Z;
  log : list event
}.

(** The [__nosavedata] variables, which an atomic restore leaves alone. *)
Record nosave := mk_nosave {
  nosave_state1 : Z;
  nosave_state2 : Z;
  nosave_state3 : Z;
  nosave_io_speed : Z -> Z -> Z;
  nosave_commandline : Z -> Z
}.

Definition nosave_of (s : state) : nosave :=
  mk_nosave (suspend2_nosave_state1 s) (suspend2_nosave_state2 s)
            (suspend2_nosave_state3 s) (suspend2_nosave_io_speed s)
            (suspend2_nosave_commandline s).

(** The variables [copyback_post] writes from the [__nosavedata] ones. *)
Record settings := mk_settings {
  set_action : Z;
  set_debug_state : Z;
  set_loglevel : Z;
  set_io_time : Z -> Z -> Z
}.

Definition settings_of (s : state) : settings :=
  mk_settings (suspend_action s) (suspend_debug_state s) (console_loglevel s)
              (suspend_io_time s).

Definition with_world (w : W) (l : list event) (s : state) : state :=
  mk_state w (suspend_action s) (suspend_debug_state s) (console_loglevel s)
           (suspend_io_time s) (suspend_state s) (suspend_result s)
           (suspend2_running s) (saved_command_line s)
           (suspend2_nosave_state1 s) (suspend2_nosave_state2 s)
           (suspend2_nosave_state3 s) (suspend2_nosave_io_speed s)
           (suspend2_nosave_commandline s) l.

Definition with_result (v : Z) (s : state) : state :=
  mk_state (world s) (suspend_action s) (suspend_debug_state s) (console_loglevel s)
           (suspend_io_time s) (suspend_state s) v
           (suspend2_running s) (saved_command_line s)
           (suspend2_nosave_state1 s) (suspend2_nosave_state2 s)
           (suspend2_nosave_state3 s) (suspend2_nosave_io_speed s)
           (suspend2_nosave_commandline s) (log s).

Definition with_suspend_state (v : Z) (s : state) : state :=
  mk_state (world s) (suspend_action s) (suspend_debug_state s) (console_loglevel s)
           (suspend_io_time s) v (suspend_result s)
           (suspend2_running s) (saved_command_line s)
           (suspend2_nosave_state1 s) (suspend2_nosave_state2 s)
           (suspend2_nosave_state3 s) (suspend2_nosave_io_speed s)
           (suspend2_nosave_commandline s) (log s).

Definition with_running (v : Z) (s : state) : state :=
  mk_state (world s) (suspend_action s) (suspend_debug_state s) (console_loglevel s)
           (suspend_io_time s) (suspend_state s) (suspend_result s)
           v (saved_command_line s)
           (suspend2_nosave_state1 s) (suspend2_nosave_state2 s)
           (suspend2_nosave_state3 s) (suspend2_nosave_io_speed s)
           (suspend2_nosave_commandline s) (log s).

Definition with_settings (v : settings) (s : state) : state :=
  mk_state (world s) (set_action v) (set_debug_state v) (set_loglevel v)
           (set_io_time v) (suspend_state s) (suspend_result s)
           (suspend2_running s) (saved_command_line s)
           (suspend2_nosave_state1 s) (suspend2_nosave_state2 s)
           (suspend2_nosave_state3 s) (suspend2_nosave_io_speed s)
           (suspend2_nosave_commandline s) (log s).

Definition with_nosave (v : nosave) (s : state) : state :=
  mk_state (world s) (suspend_action s) (suspend_debug_state s) (console_loglevel s)
           (suspend_io_time s) (suspend_state s) (suspend_result s)
           (suspend2_running s) (saved_command_line s)
           (nosave_state1 v) (nosave_state2 v) (nosave_state3 v)
           (nosave_io_speed v) (nosave_commandline v) (log s).

(** A computation on the state that returns a value. *)
Definition M (A : Type) : Type := state -> A * state.

Definition ret {A : Type} (a : A) : M A := fun s => (a, s).

Definition bind {A B : Type} (m : M A) (f : A -> M B) : M B :=
  fun s => let '(a, s1) := m s in f a s1.

Notation "x <- m ;; f" := (bind m (fun x => f))
  (at level 61, m at next level, right associativity).
Notation "m ;;; f" := (bind m (fun _ => f))
  (at level 61, right associativity).

Definition when (c : bool) (m : M unit) : M unit := if c then m else ret tt.

Definition get {A : Type} (f : state -> A) : M A := fun s => (f s, s).

Definition modify (f : state -> state) : M unit := fun s => (tt, f s).

(** Call into the rest of the kernel. *)
Definition call (c : callee) : M Z :=
  fun s =>
    let '(r, w) := kernel c (world s) in
    (r, with_world w (Called c r :: log s) s).

Definition call_ (c : callee) : M unit := call c ;;; ret tt.

Definition test_action_state (bit : Z) : M bool :=
  get (fun s => Flags.test_bit bit (suspend_action s)).

Definition set_abort_result (bit : Z) : M unit :=
  modify (fun s =>
            with_result
              (Flags.set_bit bit (Flags.set_bit SUSPEND_ABORTED (suspend_result s))) s).

Definition test_result_state (bit : Z) (s : state) : bool :=
  Flags.test_bit bit (suspend_result s).

Definition set_suspend_state (bit : Z) : M unit :=
  modify (fun s => with_suspend_state (Flags.set_bit bit (suspend_state s)) s).

Definition clear_suspend_state (bit : Z) : M unit :=
  modify (fun s => with_suspend_state (Flags.clear_bit bit (suspend_state s)) s).

Definition test_suspend_state (bit : Z) (s : state) : bool :=
  Flags.test_bit bit (suspend_state s).

(** [suspend2_end_atomic]: the cases of the [switch] fall through, so a
    stage undoes its own step and every step below it. *)
Definition suspend2_end_atomic (stage : atomic_stage) : M unit :=
  when (match stage with ATOMIC_ALL_STEPS => true | _ => false end)
       (call_ Device_power_up) ;;;
  when (match stage with
        | ATOMIC_ALL_STEPS | ATOMIC_STEP_IRQS => true
        | _ => false
        end)
       (call_ Local_irq_enable) ;;;
  when (match stage with
        | ATOMIC_ALL_STEPS | ATOMIC_STEP_IRQS | ATOMIC_STEP_CPU_HOTPLUG => true
        | _ => false
        end)
       (late <- test_action_state SUSPEND_LATE_CPU_HOTPLUG ;;
        when late (call_ Enable_nonboot_cpus)) ;;;
  when (match stage with ATOMIC_STEP_RESUME_CONSOLE => false | _ => true end)
       (call_ Device_resume) ;;;
  call_ Resume_console ;;;
  console <- test_action_state SUSPEND_PM_PREPARE_CONSOLE ;;
  when console (call_ Pm_restore_console).

(** [suspend2_go_atomic]. *)
Definition suspend2_go_atomic (pm_message : Z) (suspend_time : bool) : M Z :=
  console <- test_action_state SUSPEND_PM_PREPARE_CONSOLE ;;
  when console (call_ Pm_prepare_console) ;;;
  call_ Suspend_console ;;;
  refused <- call (Device_suspend pm_message) ;;
  if negb (refused =? 0) then
    (set_abort_result SUSPEND_DEVICE_REFUSED ;;;
     suspend2_end_atomic ATOMIC_STEP_RESUME_CONSOLE ;;;
     ret 1)
  else
    late <- test_action_state SUSPEND_LATE_CPU_HOTPLUG ;;
    cpus_failed <-
      (if late then call_ Suspend_prepare_status ;;; call Disable_nonboot_cpus
       else ret 0) ;;
    if negb (cpus_failed =? 0) then
      (set_abort_result SUSPEND_CPU_HOTPLUG_FAILED ;;;
       suspend2_end_atomic ATOMIC_STEP_DEVICE_RESUME ;;;
       ret 1)
    else
      arch_failed <- (if suspend_time then call Arch_prepare_suspend else ret 0) ;;
      if negb (arch_failed =? 0) then
        (set_abort_result SUSPEND_ARCH_PREPARE_FAILED ;;;
         suspend2_end_atomic ATOMIC_STEP_CPU_HOTPLUG ;;;
         ret 1)
      else
        call_ Local_irq_disable ;;;
        power_failed <- call Device_power_down ;;
        if negb (power_failed =? 0) then
          (set_abort_result SUSPEND_DEVICE_REFUSED ;;;
           suspend2_end_atomic ATOMIC_STEP_IRQS ;;;
           ret 1)
        else ret 0.

(** [for (loop = 0; loop < 4; loop++) to[loop/2][loop%2] = from[loop/2][loop%2]] *)
Definition copy_io_times (from to : Z -> Z -> Z) : Z -> Z -> Z :=
  fold_left
    (fun t loop =>
       fun i j =>
         if (i =? Z.quot loop 2) && (j =? Z.rem loop 2)
         then from (Z.quot loop 2) (Z.rem loop 2)
         else t i j)
    [0; 1; 2; 3] to.

(** How a function that may hit [BUG()] or [panic()] ends. *)
Inductive outcome (A : Type) :=
| Returns (a : A)
| Stops.

Arguments Returns {A} a.
Arguments Stops {A}.

(** [suspend_atomic_restore]: go atomic, put the settings to keep where the
    restore leaves them alone, and hand over to [swsusp_arch_resume], which
    is not to come back; when going atomic fails, free the lists of page
    backup entries (both of them, as with [CONFIG_HIGHMEM]) and return 1. *)
Definition suspend_atomic_restore : M (outcome Z) :=
  modify (with_running 1) ;;;
  call_ Suspend_prepare_status ;;;
  failed <- suspend2_go_atomic PMSG_PRETHAW false ;;
  if negb (failed =? 0) then
    call_ (Free_pbe_list false) ;;;
    call_ (Free_pbe_list true) ;;;
    console <- test_action_state SUSPEND_PM_PREPARE_CONSOLE ;;
    when console (call_ Pm_restore_console) ;;;
    modify (with_running 0) ;;;
    ret (Returns 1)
  else
    modify (fun s =>
              with_nosave
                (mk_nosave (suspend_action s) (suspend_debug_state s)
                           (console_loglevel s)
                           (copy_io_times (suspend_io_time s)
                                          (suspend2_nosave_io_speed s))
                           (fun i =>
                              if (0 <=? i) && (i <? COMMAND_LINE_SIZE)
                              then saved_command_line s i
                              else suspend2_nosave_commandline s i))
                s) ;;;
    call_ Save_processor_state ;;;
    call_ Swsusp_arch_resume ;;;
    ret Stops.

(** [copyback_post]: what the restored kernel does first. *)
Definition copyback_post : M (outcome unit) :=
  modify (fun s =>
            with_settings
              (mk_settings (suspend2_nosave_state1 s) (suspend2_nosave_state2 s)
                           (suspend2_nosave_state3 s)
                           (copy_io_times (suspend2_nosave_io_speed s)
                                          (suspend_io_time s)))
              s) ;;;
  set_suspend_state SUSPEND_NOW_RESUMING ;;;
  set_suspend_state SUSPEND_PAGESET2_NOT_LOADED ;;;
  no_storage <- call Suspend_activate_storage ;;
  if negb (no_storage =? 0) then ret Stops
  else
    call_ Suspend_ui_post_atomic_restore ;;;
    call_ Suspend_cond_pause ;;;
    unread <- call Read_pageset2 ;;
    if negb (unread =? 0) then ret Stops
    else
      clear_suspend_state SUSPEND_PAGESET2_NOT_LOADED ;;;
      ret (Returns tt).

(** [suspend2_suspend]: the atomic copy, from the side of the kernel that
    is suspending and from the side of the one that is resumed. *)
Definition suspend2_suspend : M Z :=
  modify (with_running 1) ;;;
  error <- call Suspend2_lowlevel_builtin ;;
  in_suspend <- get (fun s => suspend2_in_suspend (world s)) ;;
  when (in_suspend =? 0) (call_ Copyback_high) ;;;
  modify (with_running 0) ;;;
  ret error.

(** *** Every step done is undone *)

(** The call that undoes a step, for the steps that have one. *)
Definition undone_by (c : callee) : option callee :=
  match c with
  | Pm_prepare_console => Some Pm_restore_console
  | Suspend_console => Some Resume_console
  | Device_suspend _ => Some Device_resume
  | Disable_nonboot_cpus => Some Enable_nonboot_cpus
  | Local_irq_disable => Some Local_irq_enable
  | Device_power_down => Some Device_power_up
  | _ => None
  end.

Definition is_undo (c : callee) : bool :=
  match c with
  | Pm_restore_console | Resume_console | Device_resume | Enable_nonboot_cpus
  | Local_irq_enable | Device_power_up => true
  | _ => false
  end.

Definition same_undo (a b : callee) : bool :=
  match a, b with
  | Pm_restore_console, Pm_restore_console
  | Resume_console, Resume_console
  | Device_resume, Device_resume
  | Enable_nonboot_cpus, Enable_nonboot_cpus
  | Local_irq_enable, Local_irq_enable
  | Device_power_up, Device_power_up => true
  | _, _ => false
  end.

(** A step that can fail is done when it returned 0. *)
Definition done (e : event) : bool :=
  match who e with
  | Device_suspend _ | Disable_nonboot_cpus | Device_power_down => returned e =? 0
  | _ => true
  end.

(** Run through the calls in the order in which they were made, with the
    undoing calls still owed on a stack: a step done puts its undoing call
    on the stack, and an undoing call has to be the one on top of it. *)
Fixpoint balance (calls : list event) (owed : list callee) : option (list callee) :=
  match calls with
  | [] => Some owed
  | e :: rest =>
      if is_undo (who e) then
        match owed with
        | u :: owed' => if same_undo u (who e) then balance rest owed' else None
        | [] => None
        end
      else
        match undone_by (who e) with
        | Some u => if done e then balance rest (u :: owed) else balance rest owed
        | None => balance rest owed
        end
  end.

(** The abort reason recorded when a step fails. *)
Definition reason_for (c : callee) : option Z :=
  match c with
  | Device_suspend _ | Device_power_down => Some SUSPEND_DEVICE_REFUSED
  | Disable_nonboot_cpus => Some SUSPEND_CPU_HOTPLUG_FAILED
  | Arch_prepare_suspend => Some SUSPEND_ARCH_PREPARE_FAILED
  | _ => None
  end.

Lemma with_world_seen w l s :
  world (with_world w l s) = w /\ log (with_world w l s) = l /\
  suspend_action (with_world w l s) = suspend_action s /\
  suspend_result (with_world w l s) = suspend_result s.
Proof. repeat split. Qed.

Lemma with_result_seen v s :
  world (with_result v s) = world s /\ log (with_result v s) = log s /\
  suspend_action (with_result v s) = suspend_action s /\
  suspend_result (with_result v s) = v.
Proof. repeat split. Qed.

Lemma aborted_after bit v :
  0 <= bit ->
  Flags.test_bit SUSPEND_ABORTED (Flags.set_bit bit (Flags.set_bit SUSPEND_ABORTED v))
  = true /\
  Flags.test_bit bit (Flags.set_bit bit (Flags.set_bit SUSPEND_ABORTED v)) = true.
Proof.
  intros H. split.
  - apply Flags.test_set_mono; [exact H|unfold SUSPEND_ABORTED; lia|].
    apply Flags.test_set_same. unfold SUSPEND_ABORTED. lia.
  - now apply Flags.test_set_same.
Qed.

(** Symbolic execution of the steps: unfold the computation, and split on
    what each call into the kernel returns. *)
Ltac unfold_steps :=
  cbv beta iota zeta
      delta [suspend2_go_atomic suspend2_end_atomic bind when call_ call ret
             test_action_state get set_abort_result modify test_result_state
             fst snd negb];
  repeat first
    [ rewrite (proj1 (with_world_seen _ _ _))
    | rewrite (proj1 (proj2 (with_world_seen _ _ _)))
    | rewrite (proj1 (proj2 (proj2 (with_world_seen _ _ _))))
    | rewrite (proj2 (proj2 (proj2 (with_world_seen _ _ _))))
    | rewrite (proj1 (with_result_seen _ _))
    | rewrite (proj1 (proj2 (with_result_seen _ _)))
    | rewrite (proj1 (proj2 (proj2 (with_result_seen _ _))))
    | rewrite (proj2 (proj2 (proj2 (with_result_seen _ _)))) ].

Ltac run_calls :=
  unfold_steps;
  repeat (match goal with
          | |- context [0 =? 0] => change (0 =? 0) with true
          | |- context [kernel ?c ?w] =>
              let r := fresh "r" in
              let w' := fresh "w" in
              destruct (kernel c w) as [r w']
          | |- context [if ?r =? 0 then _ else _] =>
              let E := fresh "E" in
              destruct (r =? 0) eqn:E
          | H : Flags.test_bit ?b ?a = _ |- context [Flags.test_bit ?b ?a] =>
              rewrite H
          end; unfold_steps).

Ltac prefix_of l tl :=
  match l with
  | tl => constr:(@nil event)
  | ?x :: ?r => let p := prefix_of r tl in constr:(x :: p)
  end.

Ltac give_new :=
  match goal with
  | |- exists new, ?l = _ ++ ?tl /\ _ =>
      let p := prefix_of l tl in exists p
  end.

Ltac give_outcome :=
  match goal with
  | |- exists r s', (?a, ?b) = _ /\ _ => exists a, b
  end;
  (split; [reflexivity|]); unfold_steps.

Ltac settle_balance :=
  cbn [rev app balance is_undo who undone_by done returned same_undo];
  repeat (match goal with
          | H : (?r =? 0) = _ |- context [?r =? 0] => rewrite H
          end;
          cbn [balance is_undo who undone_by done returned same_undo]);
  reflexivity.

(** The calls [suspend2_end_atomic] makes, in the order it makes them. *)
Definition undo_calls (stage : atomic_stage) (console late : bool) : list callee :=
  (match stage with ATOMIC_ALL_STEPS => [Device_power_up] | _ => [] end)
  ++ (match stage with
      | ATOMIC_ALL_STEPS | ATOMIC_STEP_IRQS => [Local_irq_enable]
      | _ => []
      end)
  ++ (match stage with
      | ATOMIC_ALL_STEPS | ATOMIC_STEP_IRQS | ATOMIC_STEP_CPU_HOTPLUG =>
          if late then [Enable_nonboot_cpus] else []
      | _ => []
      end)
  ++ (match stage with ATOMIC_STEP_RESUME_CONSOLE => [] | _ => [Device_resume] end)
  ++ [Resume_console]
  ++ (if console then [Pm_restore_console] else []).

Lemma end_atomic_calls (stage : atomic_stage) (s : state) :
  exists r s',
    suspend2_end_atomic stage s = (r, s') /\
    exists undo,
      log s' = undo ++ log s /\
      suspend_action s' = suspend_action s /\
      suspend_result s' = suspend_result s /\
      map who (rev undo)
      = undo_calls stage
          (Flags.test_bit SUSPEND_PM_PREPARE_CONSOLE (suspend_action s))
          (Flags.test_bit SUSPEND_LATE_CPU_HOTPLUG (suspend_action s)).
Proof.
  destruct (Flags.test_bit SUSPEND_PM_PREPARE_CONSOLE (suspend_action s)) eqn:Econsole;
    destruct (Flags.test_bit SUSPEND_LATE_CPU_HOTPLUG (suspend_action s)) eqn:Elate;
    destruct stage; run_calls; give_outcome; give_new;
    repeat split; reflexivity.
Qed.

Lemma undo_calls_undo stage console late :
  Forall (fun u => is_undo u = true) (undo_calls stage console late).
Proof. destruct stage, console, late; repeat constructor. Qed.

Lemma balance_undo (calls : list event) : forall owed rest,
  Forall (fun u => is_undo u = true) owed ->
  map who calls = owed ->
  balance calls (owed ++ rest) = Some rest.
Proof.
  induction calls as [|e calls IH]; intros owed rest Hundo Hmap.
  - destruct owed; [reflexivity|discriminate].
  - destruct owed as [|u owed]; [discriminate|].
    cbn [map] in Hmap. injection Hmap as Hu Hrest.
    inversion Hundo as [|? ? Hu1 Hundo1]; subst.
    cbn [balance app]. rewrite Hu1.
    replace (same_undo (who e) (who e)) with true
      by (destruct (who e); try discriminate Hu1; reflexivity).
    now apply IH.
Qed.

Lemma balance_app (a : list event) : forall b owed,
  balance (a ++ b) owed
  = match balance a owed with
    | Some owed' => balance b owed'
    | None => None
    end.
Proof.
  induction a as [|e a IH]; intros b owed; [reflexivity|].
  cbn [app balance].
  destruct (is_undo (who e)).
  - destruct owed as [|u owed]; [reflexivity|].
    destruct (same_undo u (who e)); [apply IH|reflexivity].
  - destruct (undone_by (who e)); [destruct (done e)|]; apply IH.
Qed.

(** What [suspend2_go_atomic] leaves, by the way it ends. *)
Lemma go_atomic_cases (pm_message : Z) (suspend_time : bool) (s : state) :
  exists r s',
    suspend2_go_atomic pm_message suspend_time s = (r, s') /\
    exists new,
      log s' = new ++ log s /\
      suspend_action s' = suspend_action s /\
      ((r = 1 /\
        (exists e bit,
           In e new /\ returned e <> 0 /\ reason_for (who e) = Some bit /\
           suspend_result s'
           = Flags.set_bit bit (Flags.set_bit SUSPEND_ABORTED (suspend_result s))) /\
        balance (rev new) [] = Some [])
       \/
       (r = 0 /\
        suspend_result s' = suspend_result s /\
        balance (rev new) []
        = Some (undo_calls ATOMIC_ALL_STEPS
                  (Flags.test_bit SUSPEND_PM_PREPARE_CONSOLE (suspend_action s))
                  (Flags.test_bit SUSPEND_LATE_CPU_HOTPLUG (suspend_action s))))).
Proof.
  destruct (Flags.test_bit SUSPEND_PM_PREPARE_CONSOLE (suspend_action s)) eqn:Econsole;
    destruct (Flags.test_bit SUSPEND_LATE_CPU_HOTPLUG (suspend_action s)) eqn:Elate;
    destruct suspend_time; run_calls; give_outcome; give_new;
    (split; [reflexivity|]); (split; [reflexivity|]);
    first
      [ right; split; [reflexivity|]; split; [reflexivity|]; settle_balance
      | left; split; [reflexivity|]; split; [|settle_balance];
        match goal with
        | Hf : (?r =? 0) = false |- context [Called ?c ?r] =>
            exists (Called c r); eexists;
            split; [cbn [In]; repeat first [left; reflexivity | right]|];
            split; [cbn [returned]; apply Z.eqb_neq; exact Hf|];
            split; reflexivity
        end ].
Qed.

(** X8.  [suspend2_go_atomic] returns 0 or 1 and leaves the action state
    alone.  When it returns 1 a step has failed: the umbrella flag and the
    reason for that step are in the result state, and every step that had
    been done before is undone, in reverse order, the failed step itself
    not being undone.  When it returns 0 the result state is as it was and
    the steps done are all owed their undoing, which [suspend2_end_atomic]
    with [ATOMIC_ALL_STEPS], run later with the same action state, then
    provides, in reverse order. *)
Theorem go_atomic_balanced (pm_message : Z) (suspend_time : bool) (s : state) :
  exists r s' new,
    suspend2_go_atomic pm_message suspend_time s = (r, s') /\
    log s' = new ++ log s /\
    suspend_action s' = suspend_action s /\
    ((r = 1 /\
      test_result_state SUSPEND_ABORTED s' = true /\
      (exists e bit,
         In e new /\ returned e <> 0 /\ reason_for (who e) = Some bit /\
         test_result_state bit s' = true) /\
      balance (rev new) [] = Some [])
     \/
     (r = 0 /\
      suspend_result s' = suspend_result s /\
      exists owed,
        balance (rev new) [] = Some owed /\
        forall s2,
          suspend_action s2 = suspend_action s ->
          exists s3 undo,
            suspend2_end_atomic ATOMIC_ALL_STEPS s2 = (tt, s3) /\
            log s3 = undo ++ log s2 /\
            balance (rev undo) owed = Some [])).
Proof.
  destruct (go_atomic_cases pm_message suspend_time s)
    as (r & s' & Hgo & new & Hlog & Haction & Hcases).
  exists r, s', new.
  split; [exact Hgo|]. split; [exact Hlog|]. split; [exact Haction|].
  destruct Hcases as [(Hr & (e & bit & Hin & Hret & Hreason & Hres) & Hbal)
                     |(Hr & Hres & Hbal)].
  - left. split; [exact Hr|].
    assert (Hbit : 0 <= bit).
    { destruct (who e); cbn in Hreason; try discriminate;
        injection Hreason as <-;
        unfold SUSPEND_DEVICE_REFUSED, SUSPEND_CPU_HOTPLUG_FAILED,
          SUSPEND_ARCH_PREPARE_FAILED; lia. }
    unfold test_result_state. rewrite Hres.
    split; [now apply aborted_after|].
    split; [|exact Hbal].
    exists e, bit. repeat split; try assumption. now apply aborted_after.
  - right. split; [exact Hr|]. split; [exact Hres|].
    eexists. split; [exact Hbal|].
    intros s2 Hs2.
    destruct (end_atomic_calls ATOMIC_ALL_STEPS s2)
      as ([] & s3 & Hend & undo & Hlog3 & _ & _ & Hwho).
    exists s3, undo. split; [exact Hend|]. split; [exact Hlog3|].
    rewrite Hs2 in Hwho.
    rewrite <- (app_nil_r (undo_calls _ _ _)).
    apply balance_undo; [apply undo_calls_undo|exact Hwho].
Qed.

(** *** The atomic restore and what follows it *)

(** Counting the calls of one kind among the calls made. *)
Definition calls_of (p : callee -> bool) (l : list event) : nat :=
  length (filter (fun e => p (who e)) l).

Definition prepares_console (c : callee) : bool :=
  match c with Pm_prepare_console => true | _ => false end.

Definition restores_console (c : callee) : bool :=
  match c with Pm_restore_console => true | _ => false end.

Definition frees_pbe_list (c : callee) : bool :=
  match c with Free_pbe_list _ => true | _ => false end.

Definition hands_over (c : callee) : bool :=
  match c with Swsusp_arch_resume => true | _ => false end.

(** What [suspend_atomic_restore] leaves in the [__nosavedata] variables
    when it hands over. *)
Definition kept_settings (s : state) : nosave :=
  mk_nosave (suspend_action s) (suspend_debug_state s) (console_loglevel s)
            (copy_io_times (suspend_io_time s) (suspend2_nosave_io_speed s))
            (fun i =>
               if (0 <=? i) && (i <? COMMAND_LINE_SIZE)
               then saved_command_line s i
               else suspend2_nosave_commandline s i).

Lemma copy_io_times_at (from to : Z -> Z -> Z) (i j : Z) :
  (i = 0 \/ i = 1) -> (j = 0 \/ j = 1) -> copy_io_times from to i j = from i j.
Proof. intros [-> | ->] [-> | ->]; reflexivity. Qed.

Lemma copy_io_times_elsewhere (from to : Z -> Z -> Z) (i j : Z) :
  ~ ((i = 0 \/ i = 1) /\ (j = 0 \/ j = 1)) -> copy_io_times from to i j = to i j.
Proof.
  intros H. unfold copy_io_times. cbn [fold_left].
  change (Z.quot 0 2) with 0. change (Z.quot 1 2) with 0.
  change (Z.quot 2 2) with 1. change (Z.quot 3 2) with 1.
  change (Z.rem 0 2) with 0. change (Z.rem 1 2) with 1.
  change (Z.rem 2 2) with 0. change (Z.rem 3 2) with 1.
  destruct (i =? 1) eqn:Ei1; destruct (i =? 0) eqn:Ei0;
    destruct (j =? 1) eqn:Ej1; destruct (j =? 0) eqn:Ej0;
    cbn [andb]; try reflexivity; exfalso; apply H; lia.
Qed.

Lemma test_clear_other bit b word :
  0 <= bit -> bit <> b ->
  Flags.test_bit b (Flags.clear_bit bit word) = Flags.test_bit b word.
Proof.
  intros Hbit Hne. unfold Flags.test_bit, Flags.clear_bit.
  destruct (Z.neg_nonneg_cases b) as [Hb|Hb].
  - now rewrite !Z.testbit_neg_r.
  - now apply Z.clearbit_neq.
Qed.

(** Symbolic execution on a state given by its fields. *)
Ltac flat_steps :=
  cbv beta iota zeta
      delta [suspend_atomic_restore copyback_post suspend2_suspend
             suspend2_go_atomic suspend2_end_atomic bind when call_ call ret
             test_action_state get set_abort_result modify
             set_suspend_state clear_suspend_state
             test_result_state test_suspend_state
             with_world with_result with_suspend_state with_running
             with_settings with_nosave nosave_of settings_of kept_settings
             world suspend_action suspend_debug_state console_loglevel
             suspend_io_time suspend_state suspend_result suspend2_running
             saved_command_line suspend2_nosave_state1 suspend2_nosave_state2
             suspend2_nosave_state3 suspend2_nosave_io_speed
             suspend2_nosave_commandline log
             fst snd negb].

Ltac run_flat :=
  flat_steps;
  repeat (match goal with
          | |- context [0 =? 0] => change (0 =? 0) with true
          | |- context [1 =? 0] => change (1 =? 0) with false
          | |- context [kernel ?c ?w] =>
              let r := fresh "r" in
              let w' := fresh "w" in
              destruct (kernel c w) as [r w']
          | |- context [if ?r =? 0 then _ else _] =>
              let E := fresh "E" in
              destruct (r =? 0) eqn:E
          | H : Flags.test_bit ?b ?a = _ |- context [Flags.test_bit ?b ?a] =>
              rewrite H
          end; flat_steps).

Ltac give_flat :=
  match goal with
  | |- exists r s', (?a, ?b) = _ /\ _ => exists a, b
  end;
  (split; [reflexivity|]); flat_steps; give_new.

Ltac abort_flagged :=
  apply aborted_after;
  unfold SUSPEND_DEVICE_REFUSED, SUSPEND_CPU_HOTPLUG_FAILED,
    SUSPEND_ARCH_PREPARE_FAILED; lia.

(** What [suspend_atomic_restore] leaves, by the way it ends. *)
Lemma atomic_restore_cases (s : state) :
  exists out s',
    suspend_atomic_restore s = (out, s') /\
    exists new,
      log s' = new ++ log s /\
      settings_of s' = settings_of s /\
      match out with
      | Returns v =>
          v = 1 /\
          suspend2_running s' = 0 /\
          nosave_of s' = nosave_of s /\
          test_result_state SUSPEND_ABORTED s' = true /\
          calls_of frees_pbe_list new = 2%nat /\
          calls_of hands_over new = 0%nat /\
          calls_of prepares_console new
          = (if Flags.test_bit SUSPEND_PM_PREPARE_CONSOLE (suspend_action s)
             then 1 else 0)%nat /\
          calls_of restores_console new
          = (if Flags.test_bit SUSPEND_PM_PREPARE_CONSOLE (suspend_action s)
             then 2 else 0)%nat /\
          balance (rev new) []
          = (if Flags.test_bit SUSPEND_PM_PREPARE_CONSOLE (suspend_action s)
             then None else Some [])
      | Stops =>
          suspend2_running s' = 1 /\
          nosave_of s' = kept_settings s /\
          suspend_result s' = suspend_result s /\
          (exists r1 r2 rest,
             new = Called Swsusp_arch_resume r2 :: Called Save_processor_state r1 :: rest) /\
          balance (rev new) []
          = Some (undo_calls ATOMIC_ALL_STEPS
                    (Flags.test_bit SUSPEND_PM_PREPARE_CONSOLE (suspend_action s))
                    (Flags.test_bit SUSPEND_LATE_CPU_HOTPLUG (suspend_action s)))
      end.
Proof.
  destruct s as [w action debug loglevel io_time sstate result running cmdline
                 n1 n2 n3 nspeed ncmdline l].
  flat_steps.
  destruct (Flags.test_bit SUSPEND_PM_PREPARE_CONSOLE action) eqn:Econsole;
    destruct (Flags.test_bit SUSPEND_LATE_CPU_HOTPLUG action) eqn:Elate;
    run_flat; give_flat;
    (split; [reflexivity|]); (split; [reflexivity|]);
    first
      [ (* handed over *)
        split; [reflexivity|]; split; [reflexivity|]; split; [reflexivity|];
        split; [do 3 eexists; reflexivity|settle_balance]
      | (* a step failed *)
        split; [reflexivity|]; split; [reflexivity|]; split; [reflexivity|];
        split; [abort_flagged|];
        split; [reflexivity|]; split; [reflexivity|]; split; [reflexivity|];
        split; [reflexivity|settle_balance] ].
Qed.

(** What [copyback_post] leaves, by the way it ends. *)
Lemma copyback_post_cases (s : state) :
  exists out s',
    copyback_post s = (out, s') /\
    exists new,
      log s' = new ++ log s /\
      nosave_of s' = nosave_of s /\
      settings_of s'
      = mk_settings (suspend2_nosave_state1 s) (suspend2_nosave_state2 s)
                    (suspend2_nosave_state3 s)
                    (copy_io_times (suspend2_nosave_io_speed s) (suspend_io_time s)) /\
      suspend_result s' = suspend_result s /\
      test_suspend_state SUSPEND_NOW_RESUMING s' = true /\
      (forall bit,
         bit <> SUSPEND_NOW_RESUMING -> bit <> SUSPEND_PAGESET2_NOT_LOADED ->
         test_suspend_state bit s' = test_suspend_state bit s) /\
      match out with
      | Returns _ =>
          test_suspend_state SUSPEND_PAGESET2_NOT_LOADED s' = false /\
          map who (rev new)
          = [Suspend_activate_storage; Suspend_ui_post_atomic_restore;
             Suspend_cond_pause; Read_pageset2] /\
          (forall e, In e new ->
                     who e = Suspend_activate_storage \/ who e = Read_pageset2 ->
                     returned e = 0)
      | Stops =>
          test_suspend_state SUSPEND_PAGESET2_NOT_LOADED s' = true /\
          exists e rest,
            new = e :: rest /\ returned e <> 0 /\
            (who e = Suspend_activate_storage \/ who e = Read_pageset2) /\
            forall e', In e' rest -> who e' <> Read_pageset2
      end.
Proof.
  destruct s as [w action debug loglevel io_time sstate result running cmdline
                 n1 n2 n3 nspeed ncmdline l].
  assert (Hresuming : forall v,
            Flags.test_bit SUSPEND_NOW_RESUMING
              (Flags.set_bit SUSPEND_PAGESET2_NOT_LOADED
                 (Flags.set_bit SUSPEND_NOW_RESUMING v)) = true).
  { intros v. apply Flags.test_set_mono;
      [unfold SUSPEND_PAGESET2_NOT_LOADED; lia|unfold SUSPEND_NOW_RESUMING; lia|].
    apply Flags.test_set_same. unfold SUSPEND_NOW_RESUMING. lia. }
  assert (Hother : forall v bit,
            bit <> SUSPEND_NOW_RESUMING -> bit <> SUSPEND_PAGESET2_NOT_LOADED ->
            Flags.test_bit bit
              (Flags.set_bit SUSPEND_PAGESET2_NOT_LOADED
                 (Flags.set_bit SUSPEND_NOW_RESUMING v)) = Flags.test_bit bit v).
  { intros v bit H1 H2.
    rewrite Flags.test_set_other
      by (try (unfold SUSPEND_PAGESET2_NOT_LOADED; lia); congruence).
    apply Flags.test_set_other;
      [unfold SUSPEND_NOW_RESUMING; lia|congruence]. }
  run_flat; give_flat;
    (split; [reflexivity|]); (split; [reflexivity|]); (split; [reflexivity|]);
    (split; [reflexivity|]).
  - (* both calls succeeded *)
    split; [rewrite test_clear_other
              by (unfold SUSPEND_PAGESET2_NOT_LOADED, SUSPEND_NOW_RESUMING; lia);
            apply Hresuming|].
    split; [intros bit H1 H2;
            rewrite test_clear_other
              by (try (unfold SUSPEND_PAGESET2_NOT_LOADED; lia); congruence);
            now apply Hother|].
    split; [apply Flags.test_clear_same|].
    split; [reflexivity|].
    intros e Hin Hwho. cbn [In] in Hin.
    apply Z.eqb_eq in E, E0.
    repeat (destruct Hin as [<-|Hin];
            [cbn [who returned] in *;
             first [assumption | destruct Hwho; discriminate]|]).
    contradiction.
  - (* the pages of pageset2 could not be read *)
    split; [apply Hresuming|]. split; [intros; now apply Hother|].
    split; [apply Flags.test_set_same; unfold SUSPEND_PAGESET2_NOT_LOADED; lia|].
    do 2 eexists. split; [reflexivity|].
    split; [cbn [returned]; now apply Z.eqb_neq|].
    split; [right; reflexivity|].
    intros e' Hin. cbn [In] in Hin.
    repeat (destruct Hin as [<-|Hin]; [discriminate|]). contradiction.
  - (* the storage could not be activated *)
    split; [apply Hresuming|]. split; [intros; now apply Hother|].
    split; [apply Flags.test_set_same; unfold SUSPEND_PAGESET2_NOT_LOADED; lia|].
    do 2 eexists. split; [reflexivity|].
    split; [cbn [returned]; now apply Z.eqb_neq|].
    split; [left; reflexivity|].
    intros e' Hin. destruct Hin.
Qed.

(** X9.  [suspend_atomic_restore] returns nothing but 1, and that when going
    atomic failed: [suspend2_running] is 0 again, the [__nosavedata]
    variables and the settings are untouched, the abort is flagged, both
    lists of page backup entries have been freed and [swsusp_arch_resume]
    has not been called. *)
Theorem atomic_restore_failure (s : state) (v : Z) (s' : state) :
  suspend_atomic_restore s = (Returns v, s') ->
  v = 1 /\
  suspend2_running s' = 0 /\
  nosave_of s' = nosave_of s /\
  settings_of s' = settings_of s /\
  test_result_state SUSPEND_ABORTED s' = true /\
  exists new,
    log s' = new ++ log s /\
    calls_of frees_pbe_list new = 2%nat /\
    calls_of hands_over new = 0%nat.
Proof.
  intros Hrun.
  destruct (atomic_restore_cases s)
    as (out & s1 & Hcase & new & Hlog & Hset & Hout).
  rewrite Hrun in Hcase. injection Hcase as <- <-.
  destruct Hout as (Hv & Hrunning & Hnosave & Habort & Hfree & Hover & _).
  repeat split; try assumption.
  exists new. repeat split; assumption.
Qed.

(** X10.  When [suspend_atomic_restore] fails with
    [SUSPEND_PM_PREPARE_CONSOLE] set, the console that was prepared once is
    restored twice: by [suspend2_end_atomic] on behalf of
    [suspend2_go_atomic], and once more after the label [Failed], so that
    the calls made do not pair up.  Without that flag every step that was
    done is undone exactly once, in reverse order. *)
Theorem atomic_restore_console_twice (s : state) (v : Z) (s' : state) :
  suspend_atomic_restore s = (Returns v, s') ->
  exists new,
    log s' = new ++ log s /\
    if Flags.test_bit SUSPEND_PM_PREPARE_CONSOLE (suspend_action s)
    then calls_of prepares_console new = 1%nat /\
         calls_of restores_console new = 2%nat /\
         balance (rev new) [] = None
    else calls_of prepares_console new = 0%nat /\
         calls_of restores_console new = 0%nat /\
         balance (rev new) [] = Some [].
Proof.
  intros Hrun.
  destruct (atomic_restore_cases s)
    as (out & s1 & Hcase & new & Hlog & Hset & Hout).
  rewrite Hrun in Hcase. injection Hcase as <- <-.
  destruct Hout as (_ & _ & _ & _ & _ & _ & Hprepare & Hrestore & Hbalance).
  exists new. split; [exact Hlog|].
  destruct (Flags.test_bit SUSPEND_PM_PREPARE_CONSOLE (suspend_action s));
    repeat split; assumption.
Qed.

(** X11.  When [suspend_atomic_restore] does not return, it has handed over
    to [swsusp_arch_resume] right after [save_processor_state], with
    [suspend2_running] still 1 and the result state exactly as it was on
    entry (nothing is flagged on the way, and what was flagged before stays
    flagged); none of the steps of going atomic has been undone, all of
    them being owed as after a successful [suspend2_go_atomic]; and the
    [__nosavedata] variables hold
    the action state, the debug state, the console log level, the four I/O
    times and the first [COMMAND_LINE_SIZE] bytes of the command line. *)
Theorem atomic_restore_hands_over (s s' : state) :
  suspend_atomic_restore s = (Stops, s') ->
  suspend2_running s' = 1 /\
  suspend_result s' = suspend_result s /\
  settings_of s' = settings_of s /\
  nosave_of s' = kept_settings s /\
  exists new r1 r2 rest,
    log s' = new ++ log s /\
    new = Called Swsusp_arch_resume r2 :: Called Save_processor_state r1 :: rest /\
    balance (rev new) []
    = Some (undo_calls ATOMIC_ALL_STEPS
              (Flags.test_bit SUSPEND_PM_PREPARE_CONSOLE (suspend_action s))
              (Flags.test_bit SUSPEND_LATE_CPU_HOTPLUG (suspend_action s))).
Proof.
  intros Hrun.
  destruct (atomic_restore_cases s)
    as (out & s1 & Hcase & new & Hlog & Hset & Hout).
  rewrite Hrun in Hcase. injection Hcase as <- <-.
  destruct Hout as (Hrunning & Hnosave & Hresult & (r1 & r2 & rest & Hnew) & Hbalance).
  repeat split; try assumption.
  exists new, r1, r2, rest. repeat split; assumption.
Qed.

(** X12.  The settings survive the atomic restore: when
    [suspend_atomic_restore] hands over from a state [s], and
    [copyback_post] then runs to its end in a kernel whose [__nosavedata]
    variables are the ones that were left, the action state, the debug
    state, the console log level and the four I/O times are those of [s],
    whatever the restored image had in them; the I/O times outside
    [0..1][0..1] are the restored ones. *)
Theorem settings_survive_restore (s s1 s2 s3 : state) :
  suspend_atomic_restore s = (Stops, s1) ->
  nosave_of s2 = nosave_of s1 ->
  copyback_post s2 = (Returns tt, s3) ->
  suspend_action s3 = suspend_action s /\
  suspend_debug_state s3 = suspend_debug_state s /\
  console_loglevel s3 = console_loglevel s /\
  (forall i j,
     suspend_io_time s3 i j
     = if ((i =? 0) || (i =? 1)) && ((j =? 0) || (j =? 1))
       then suspend_io_time s i j
       else suspend_io_time s2 i j).
Proof.
  intros Hrestore Hkept Hpost.
  destruct (atomic_restore_cases s)
    as (out & s1' & Hcase & new & _ & _ & Hout).
  rewrite Hrestore in Hcase. injection Hcase as <- <-.
  destruct Hout as (_ & Hnosave & _).
  destruct (copyback_post_cases s2)
    as (out & s3' & Hcase & new' & _ & _ & Hset & _).
  rewrite Hpost in Hcase. injection Hcase as <- <-.
  rewrite Hnosave in Hkept. unfold nosave_of, kept_settings in Hkept.
  injection Hkept as H1 H2 H3 Hspeed _.
  unfold settings_of in Hset. injection Hset as Ha Hd Hl Hio.
  rewrite Ha, Hd, Hl, Hio, H1, H2, H3, Hspeed.
  repeat split; try reflexivity.
  intros i j.
  destruct (((i =? 0) || (i =? 1)) && ((j =? 0) || (j =? 1))) eqn:E.
  - apply andb_true_iff in E. destruct E as [Ei Ej].
    apply orb_true_iff in Ei, Ej.
    rewrite !Z.eqb_eq in Ei, Ej.
    now rewrite !copy_io_times_at.
  - apply copy_io_times_elsewhere. intros [Hi Hj].
    apply andb_false_iff in E. rewrite !orb_false_iff, !Z.eqb_neq in E. lia.
Qed.

(** X13.  [copyback_post] stops exactly at a failure to activate the storage
    or to read pageset2 again, the failing call being the last one made and
    pageset2 being read at most once; it sets [SUSPEND_NOW_RESUMING] either
    way, leaves [SUSPEND_PAGESET2_NOT_LOADED] set when it stops and clear
    when it returns, leaves the other bits of the suspend state and the
    [__nosavedata] variables alone, and when it returns the four calls were
    made in order, the two that can fail having returned 0. *)
Theorem copyback_post_outcomes (s : state) (out : outcome unit) (s' : state) :
  copyback_post s = (out, s') ->
  nosave_of s' = nosave_of s /\
  test_suspend_state SUSPEND_NOW_RESUMING s' = true /\
  (forall bit,
     bit <> SUSPEND_NOW_RESUMING -> bit <> SUSPEND_PAGESET2_NOT_LOADED ->
     test_suspend_state bit s' = test_suspend_state bit s) /\
  exists new,
    log s' = new ++ log s /\
    match out with
    | Returns _ =>
        test_suspend_state SUSPEND_PAGESET2_NOT_LOADED s' = false /\
        map who (rev new)
        = [Suspend_activate_storage; Suspend_ui_post_atomic_restore;
           Suspend_cond_pause; Read_pageset2] /\
        (forall e, In e new ->
                   who e = Suspend_activate_storage \/ who e = Read_pageset2 ->
                   returned e = 0)
    | Stops =>
        test_suspend_state SUSPEND_PAGESET2_NOT_LOADED s' = true /\
        exists e rest,
          new = e :: rest /\ returned e <> 0 /\
          (who e = Suspend_activate_storage \/ who e = Read_pageset2) /\
          forall e', In e' rest -> who e' <> Read_pageset2
    end.
Proof.
  intros Hrun.
  destruct (copyback_post_cases s)
    as (out1 & s1 & Hcase & new & Hlog & Hnosave & _ & _ & Hresuming & Hother & Hout).
  rewrite Hrun in Hcase. injection Hcase as <- <-.
  split; [exact Hnosave|]. split; [exact Hresuming|]. split; [exact Hother|].
  exists new. split; [exact Hlog|exact Hout].
Qed.

End WithKernel.

Arguments Returns {A} a.
Arguments Stops {A}.

(** *** The atomic steps on a small machine *)

(** The state of the rest of the kernel is the number of calls it has
    served.  One kernel serves every call with 0; in another one
    [device_power_down] fails with 16; in a third one [read_pageset2] fails
    with 5. *)
Definition quiet_kernel (c : callee) (w : nat) : Z * nat := (0, S w).

Definition refusing_kernel (c : callee) (w : nat) : Z * nat :=
  (match c with Device_power_down => 16 | _ => 0 end, S w).

Definition unreadable_kernel (c : callee) (w : nat) : Z * nat :=
  (match c with Read_pageset2 => 5 | _ => 0 end, S w).

(** A kernel about to restore an image, with the console to prepare and
    the other processors to take down late. *)
Definition boot_state : state :=
  mk_state 0%nat
           (Flags.set_bit SUSPEND_PM_PREPARE_CONSOLE
              (Flags.set_bit SUSPEND_LATE_CPU_HOTPLUG 0))
           7 4 (fun i j => 10 * i + j + 1) 0 0 0 (fun i => 65 + i)
           0 0 0 (fun _ _ => 0) (fun _ => 0) [].

Definition failed_restore : outcome Z * state :=
  suspend_atomic_restore refusing_kernel 3 256 boot_state.

Definition handed_over : outcome Z * state :=
  suspend_atomic_restore quiet_kernel 3 256 boot_state.

(** The kernel of the image, as the restore leaves it: its own settings,
    and the [__nosavedata] variables of the kernel that restored it. *)
Definition restored_state : state :=
  with_nosave (nosave_of (snd handed_over))
    (mk_state 0%nat 0 0 1 (fun _ _ => 99) 0 0 1 (fun i => 97 + i)
              0 0 0 (fun _ _ => 0) (fun _ => 0) []).

Definition resumed : outcome unit * state :=
  copyback_post quiet_kernel restored_state.

Definition unread : outcome unit * state :=
  copyback_post unreadable_kernel restored_state.

Lemma go_atomic_balanced_witness :
  exists s' new s3 undo,
    suspend2_go_atomic quiet_kernel 3 true boot_state = (0, s') /\
    log s' = new ++ log boot_state /\
    suspend2_end_atomic quiet_kernel ATOMIC_ALL_STEPS s' = (tt, s3) /\
    log s3 = undo ++ log s' /\
    exists owed,
      balance (rev new) [] = Some owed /\ balance (rev undo) owed = Some [].
Proof.
  destruct (go_atomic_balanced quiet_kernel 3 true boot_state)
    as (r & s' & new & Hgo & Hlog & Haction
        & [(Hr & _)|(Hr & _ & owed & Hbalance & Hend)]).
  - exfalso. rewrite Hr in Hgo. vm_compute in Hgo. discriminate Hgo.
  - destruct (Hend s' Haction) as (s3 & undo & Hrun & Hlog3 & Hundo).
    rewrite Hr in Hgo.
    exists s', new, s3, undo.
    repeat split; try assumption.
    exists owed. split; assumption.
Defined.

Lemma atomic_restore_failure_witness :
  fst failed_restore = Returns 1 /\
  suspend2_running (snd failed_restore) = 0 /\
  nosave_of (snd failed_restore) = nosave_of boot_state /\
  settings_of (snd failed_restore) = settings_of boot_state /\
  test_result_state SUSPEND_ABORTED (snd failed_restore) = true /\
  exists new,
    log (snd failed_restore) = new ++ log boot_state /\
    calls_of frees_pbe_list new = 2%nat /\
    calls_of hands_over new = 0%nat.
Proof.
  assert (Hrun : suspend_atomic_restore refusing_kernel 3 256 boot_state
                 = (Returns 1, snd failed_restore))
    by (vm_compute; reflexivity).
  split; [vm_compute; reflexivity|].
  destruct (atomic_restore_failure refusing_kernel 3 256 boot_state 1
              (snd failed_restore) Hrun) as (_ & H).
  exact H.
Defined.

Lemma atomic_restore_console_twice_witness :
  exists new,
    log (snd failed_restore) = new ++ log boot_state /\
    calls_of prepares_console new = 1%nat /\
    calls_of restores_console new = 2%nat /\
    balance (rev new) [] = None.
Proof.
  assert (Hrun : suspend_atomic_restore refusing_kernel 3 256 boot_state
                 = (Returns 1, snd failed_restore))
    by (vm_compute; reflexivity).
  exact (atomic_restore_console_twice refusing_kernel 3 256 boot_state 1
           (snd failed_restore) Hrun).
Defined.

(** The same kernel with an abort already flagged when the restore is
    entered: [SUSPEND_ABORTED] and [SUSPEND_DEVICE_REFUSED]. *)
Definition flagged_state : state := with_result 513 boot_state.

Definition flagged_handed_over : outcome Z * state :=
  suspend_atomic_restore quiet_kernel 3 256 flagged_state.

Lemma atomic_restore_hands_over_witness :
  test_result_state SUSPEND_ABORTED flagged_state = true /\
  suspend2_running (snd flagged_handed_over) = 1 /\
  suspend_result (snd flagged_handed_over) = suspend_result flagged_state /\
  settings_of (snd flagged_handed_over) = settings_of flagged_state /\
  nosave_of (snd flagged_handed_over) = kept_settings 256 flagged_state /\
  exists new r1 r2 rest,
    log (snd flagged_handed_over) = new ++ log flagged_state /\
    new = Called Swsusp_arch_resume r2 :: Called Save_processor_state r1 :: rest /\
    balance (rev new) []
    = Some (undo_calls ATOMIC_ALL_STEPS
              (Flags.test_bit SUSPEND_PM_PREPARE_CONSOLE (suspend_action flagged_state))
              (Flags.test_bit SUSPEND_LATE_CPU_HOTPLUG (suspend_action flagged_state))).
Proof.
  assert (Hrun : suspend_atomic_restore quiet_kernel 3 256 flagged_state
                 = (Stops, snd flagged_handed_over))
    by (vm_compute; reflexivity).
  split; [vm_compute; reflexivity|].
  exact (atomic_restore_hands_over quiet_kernel 3 256 flagged_state
           (snd flagged_handed_over) Hrun).
Defined.

Lemma settings_survive_restore_witness :
  suspend_action (snd resumed) = suspend_action boot_state /\
  suspend_debug_state (snd resumed) = 7 /\
  console_loglevel (snd resumed) = 4 /\
  (forall i j,
     suspend_io_time (snd resumed) i j
     = if ((i =? 0) || (i =? 1)) && ((j =? 0) || (j =? 1))
       then 10 * i + j + 1
       else 99).
Proof.
  assert (Hrun : suspend_atomic_restore quiet_kernel 3 256 boot_state
                 = (Stops, snd handed_over))
    by (vm_compute; reflexivity).
  assert (Hkept : nosave_of restored_state = nosave_of (snd handed_over))
    by (vm_compute; reflexivity).
  assert (Hpost : copyback_post quiet_kernel restored_state
                  = (Returns tt, snd resumed))
    by (vm_compute; reflexivity).
  exact (settings_survive_restore quiet_kernel 3 256 boot_state
           (snd handed_over) restored_state (snd resumed) Hrun Hkept Hpost).
Defined.

Lemma copyback_post_outcomes_witness :
  nosave_of (snd unread) = nosave_of restored_state /\
  test_suspend_state SUSPEND_NOW_RESUMING (snd unread) = true /\
  (forall bit,
     bit <> SUSPEND_NOW_RESUMING -> bit <> SUSPEND_PAGESET2_NOT_LOADED ->
     test_suspend_state bit (snd unread) = test_suspend_state bit restored_state) /\
  exists new,
    log (snd unread) = new ++ log restored_state /\
    test_suspend_state SUSPEND_PAGESET2_NOT_LOADED (snd unread) = true /\
    exists e rest,
      new = e :: rest /\ returned e <> 0 /\
      (who e = Suspend_activate_storage \/ who e = Read_pageset2) /\
      forall e', In e' rest -> who e' <> Read_pageset2.
Proof.
  assert (Hrun : copyback_post unreadable_kernel restored_state
                 = (Stops, snd unread))
    by (vm_compute; reflexivity).
  exact (copyback_post_outcomes unreadable_kernel restored_state Stops
           (snd unread) Hrun).
Defined.


End Atomic.
